(** * optimum/exporters/tasks.py: the export task manager

    A shallow embedding of [optimum.exporters.tasks] and the properties of
    its registry, its task normaliser and its framework and library
    inference.

    - Python [str] is [string]; the [str] methods the module calls are in
      [PyStr].
    - A [dict] used as a table is a [gmap]; a [dict] literal whose iteration
      order matters is an association list.
    - The nested registry [_LIBRARY_TO_SUPPORTED_MODEL_TYPES] is mutated in
      place through aliases, so its inner dictionaries live in a store and
      are named by locations ([store], below).
    - Exceptions are values of [exn]; a call that can raise returns a
      [result].
    - The file system, the hub and the configuration loader answer through
      a [World]; the calls made to them are recorded in order.
    - Log messages and warnings are left out. *)

From Stdlib Require Import String Ascii List Bool Arith Lia.
From stdpp Require Import base option list gmap strings fin_maps.

Import ListNotations.
Local Open Scope string_scope.

(** ** Python string methods *)

Module PyStr.

(** [s.startswith(p)] *)
Definition startswith (s p : string) : bool := String.prefix p s.

(** [s.endswith(p)] *)
Definition endswith (s p : string) : bool :=
  (String.length p <=? String.length s)%nat &&
  String.eqb (String.substring (String.length s - String.length p) (String.length p) s) p.

(** [s.endswith((p1, p2, ...))]: a tuple of suffixes. *)
Definition endswith_any (s : string) (ps : list string) : bool :=
  existsb (endswith s) ps.

(** [sub in s] *)
Fixpoint contains (sub s : string) : bool :=
  String.prefix sub s ||
  match s with
  | EmptyString => false
  | String _ s' => contains sub s'
  end.

(** [s.replace(old, new)] for a non-empty [old]: the occurrences are
    replaced from the left and do not overlap. [skip] counts the characters
    of a matched occurrence that are still to be dropped. *)
Fixpoint replace_from (old new : string) (skip : nat) (s : string) : string :=
  match s with
  | EmptyString => EmptyString
  | String c s' =>
      match skip with
      | S k => replace_from old new k s'
      | O =>
          if String.prefix old s
          then new ++ replace_from old new (String.length old - 1) s'
          else String c (replace_from old new 0 s')
      end
  end.

(** With an empty [old] Python inserts [new] before every character and at
    the end. *)
Fixpoint interleave (new s : string) : string :=
  match s with
  | EmptyString => new
  | String c s' => new ++ String c (interleave new s')
  end.

Definition replace (s old new : string) : string :=
  match old with
  | EmptyString => interleave new s
  | _ => replace_from old new 0 s
  end.

(** [s.lower()] on ASCII letters; other bytes are kept. Model types are
    ASCII identifiers. *)
Definition lower_ascii (c : ascii) : ascii :=
  let n := nat_of_ascii c in
  if (65 <=? n)%nat && (n <=? 90)%nat then ascii_of_nat (n + 32) else c.

Fixpoint lower (s : string) : string :=
  match s with
  | EmptyString => EmptyString
  | String c s' => String (lower_ascii c) (lower s')
  end.

(** [sep.join(l)] *)
Definition join (sep : string) (l : list string) : string := String.concat sep l.

(** [x in l] for a list of strings. *)
Definition mem (x : string) (l : list string) : bool := existsb (String.eqb x) l.

(** The double quote character, for messages that quote a name. *)
Definition dquote : string := String (ascii_of_nat 34) EmptyString.

(** [s.rfind(c)] for one character: the index of its last occurrence. *)
Fixpoint rfind_from (c : ascii) (s : string) (i : nat) (found : option nat) : option nat :=
  match s with
  | EmptyString => found
  | String x s' => rfind_from c s' (S i) (if Ascii.eqb x c then Some i else found)
  end.

Definition rfind (c : ascii) (s : string) : option nat := rfind_from c s 0 None.

(** [pathlib.PurePath(p).name] for a relative path without a trailing
    separator: what follows the last ["/"]. *)
Definition path_name (p : string) : string :=
  match rfind "/"%char p with
  | Some i => String.substring (S i) (String.length p - S i) p
  | None => p
  end.

(** [PurePath.suffix]: from the last dot of the name, when that dot is
    neither its first nor its last character. *)
Definition path_suffix (p : string) : string :=
  let name := path_name p in
  match rfind "."%char name with
  | Some i =>
      if (0 <? i)%nat && (i <? String.length name - 1)%nat
      then String.substring i (String.length name - i) name
      else EmptyString
  | None => EmptyString
  end.

(** [PurePath.stem]: the name without its suffix. *)
Definition path_stem (p : string) : string :=
  let name := path_name p in
  match rfind "."%char name with
  | Some i =>
      if (0 <? i)%nat && (i <? String.length name - 1)%nat
      then String.substring 0 i name
      else name
  | None => name
  end.

End PyStr.

(** ** Exceptions and results *)

Inductive exn : Type :=
| ValueError (msg : string)
| KeyError (msg : string)
| NameError (msg : string)
| RuntimeError (msg : string)
| NotImplementedError (msg : string)
| FileNotFoundError (msg : string)
| EnvironmentError (msg : string)
| RequestsConnectionError (msg : string)
| OfflineModeIsEnabled (msg : string)
| OSError (msg : string).

(** The text of an exception, as [str(e)] gives it. *)
Definition exn_message (e : exn) : string :=
  match e with
  | ValueError m | KeyError m | NameError m | RuntimeError m
  | NotImplementedError m | FileNotFoundError m | EnvironmentError m
  | RequestsConnectionError m | OfflineModeIsEnabled m | OSError m => m
  end.

Inductive result (A : Type) : Type :=
| Ok (a : A)
| Raise (e : exn).

Arguments Ok {A} a.
Arguments Raise {A} e.

(** [result] is a monad; stdpp's [x ← r; k] is the sequencing of calls that
    can raise. *)
#[global] Instance result_ret : MRet result := fun A a => Ok a.
#[global] Instance result_bind : MBind result := fun A B f r =>
  match r with
  | Ok a => f a
  | Raise e => Raise e
  end.

(** The call returned. *)
Definition is_Ok {A} (r : result A) : Prop :=
  match r with
  | Ok _ => True
  | Raise _ => False
  end.

(** ** The runtime environment

    What [is_torch_available()], [is_tf_available()] and
    [is_onnx_available()] answer in the running interpreter. *)

Record Env : Type := {
  is_torch_available : bool;
  is_tf_available : bool;
  is_onnx_available : bool
}.

(** [is_backend_available(backend)]: a two-key dictionary, indexed by
    [backend]. *)
Definition is_backend_available (env : Env) (backend : string) : result bool :=
  if String.eqb backend "onnx" then Ok (is_onnx_available env)
  else if String.eqb backend "tflite" then Ok (is_tf_available env)
  else Raise (KeyError backend).


(** ** Export configuration classes and their constructors *)

(** An export configuration class, as far as this module looks at it: its
    name and [getattr(config_cls, "SUPPORTS_PAST", False)]. *)
Record ConfigCls : Type := {
  cls_name : string;
  SUPPORTS_PAST : bool
}.

(** Values of keyword arguments. *)
Inductive pyval : Type :=
| VBool (b : bool)
| VStr (s : string).

(** What the registry stores: a class, or [functools.partial] of a callable
    with keyword arguments. *)
Inductive callable : Type :=
| Cls (c : ConfigCls)
| partial (f : callable) (kwargs : list (string * pyval)).

Abbreviation ExportConfigConstructor := callable.

(** [make_backend_config_constructor_for_task(config_cls, task)]. The
    message shows the class by its name. *)
Definition make_backend_config_constructor_for_task
    (config_cls : ConfigCls) (task : string) : result ExportConfigConstructor :=
  if PyStr.contains "-with-past" task then
    if negb (SUPPORTS_PAST config_cls) then
      Raise (ValueError (cls_name config_cls ++ " does not support tasks with past."))
    else
      Ok (partial (Cls config_cls)
            [("use_past", VBool true); ("task", VStr (PyStr.replace task "-with-past" ""))])
  else
    Ok (partial (Cls config_cls) [("task", VStr task)]).

(** An element of the variadic [supported_tasks]: a task name, or a task
    name with the backends that support it. *)
Inductive task_spec : Type :=
| Task (task : string)
| TaskFor (task : string) (supported_backends_for_task : list string).

Section supported_tasks_mapping.

Variable env : Env.

(** [getattr(importlib.import_module(...), config_cls_name)] for the module
    [optimum.exporters.{backend}.model_configs]: the configuration classes
    are defined in other modules. *)
Variable import_config_cls : string → string → result ConfigCls.

(** The inner loop over [supported_tasks], filling [mapping[backend]]. *)
Fixpoint supported_tasks_loop (backend : string) (config_cls : ConfigCls)
    (supported_tasks : list task_spec) (mapping_backend : gmap string callable)
    : result (gmap string callable) :=
  match supported_tasks with
  | [] => Ok mapping_backend
  | spec :: rest =>
      match spec with
      | TaskFor task supported_backends_for_task =>
          if negb (PyStr.mem backend supported_backends_for_task)
          then supported_tasks_loop backend config_cls rest mapping_backend
          else
            config_constructor ← make_backend_config_constructor_for_task config_cls task;
            supported_tasks_loop backend config_cls rest
              (<[task := config_constructor]> mapping_backend)
      | Task task =>
          config_constructor ← make_backend_config_constructor_for_task config_cls task;
          supported_tasks_loop backend config_cls rest
            (<[task := config_constructor]> mapping_backend)
      end
  end.

(** The outer loop over [exporters.items()]. *)
Fixpoint supported_exporters_loop (supported_tasks : list task_spec)
    (exporters : list (string * string)) (mapping : gmap string (gmap string callable))
    : result (gmap string (gmap string callable)) :=
  match exporters with
  | [] => Ok mapping
  | (backend, config_cls_name) :: rest =>
      available ← is_backend_available env backend;
      if (available : bool) then
        config_cls ← import_config_cls backend config_cls_name;
        mapping_backend ← supported_tasks_loop backend config_cls supported_tasks ∅;
        supported_exporters_loop supported_tasks rest (<[backend := mapping_backend]> mapping)
      else supported_exporters_loop supported_tasks rest mapping
  end.

(** [supported_tasks_mapping]: [supported_tasks] are the positional and
    [exporters] the keyword arguments. *)
Definition supported_tasks_mapping (supported_tasks : list task_spec)
    (exporters : list (string * string)) : result (gmap string (gmap string callable)) :=
  supported_exporters_loop supported_tasks exporters ∅.

End supported_tasks_mapping.

(** ** Task names and model loaders *)

(** A value of a tasks-to-loaders table: one class name, or a tuple of class
    names. *)
Inductive model_loaders : Type :=
| Loader (name : string)
| LoaderTuple (names : list string).

(** [get_model_loaders_to_tasks(tasks_to_model_loaders)]: the table
    reversed; a loader named by several tasks keeps the last one. *)
Definition get_model_loaders_to_tasks
    (tasks_to_model_loaders : list (string * model_loaders)) : gmap string string :=
  fold_left
    (fun model_loaders_to_tasks '(task, loaders) =>
       match loaders with
       | Loader name => <[name := task]> model_loaders_to_tasks
       | LoaderTuple names =>
           fold_left (fun m model_loader_name => <[model_loader_name := task]> m)
             names model_loaders_to_tasks
       end)
    tasks_to_model_loaders ∅.

Module TasksManager.

(** *** Class attributes: the loader tables *)

Definition TRANSFORMERS_TASKS_TO_MODEL_LOADERS_literal : list (string * model_loaders) :=
  [ ("audio-classification", Loader "AutoModelForAudioClassification");
    ("audio-frame-classification", Loader "AutoModelForAudioFrameClassification");
    ("audio-xvector", Loader "AutoModelForAudioXVector");
    ("automatic-speech-recognition", LoaderTuple ["AutoModelForSpeechSeq2Seq"; "AutoModelForCTC"]);
    ("conversational", LoaderTuple ["AutoModelForCausalLM"; "AutoModelForSeq2SeqLM"]);
    ("depth-estimation", Loader "AutoModelForDepthEstimation");
    ("feature-extraction", Loader "AutoModel");
    ("fill-mask", Loader "AutoModelForMaskedLM");
    ("image-classification", Loader "AutoModelForImageClassification");
    ("image-segmentation",
      LoaderTuple ["AutoModelForImageSegmentation"; "AutoModelForSemanticSegmentation"]);
    ("image-to-image", Loader "AutoModelForImageToImage");
    ("image-to-text", Loader "AutoModelForVision2Seq");
    ("mask-generation", Loader "AutoModel");
    ("masked-im", Loader "AutoModelForMaskedImageModeling");
    ("multiple-choice", Loader "AutoModelForMultipleChoice");
    ("object-detection", Loader "AutoModelForObjectDetection");
    ("question-answering", Loader "AutoModelForQuestionAnswering");
    ("semantic-segmentation", Loader "AutoModelForSemanticSegmentation");
    ("text-to-audio",
      LoaderTuple ["AutoModelForTextToSpectrogram"; "AutoModelForTextToWaveform"]);
    ("text-generation", Loader "AutoModelForCausalLM");
    ("text2text-generation", Loader "AutoModelForSeq2SeqLM");
    ("text-classification", Loader "AutoModelForSequenceClassification");
    ("token-classification", Loader "AutoModelForTokenClassification");
    ("zero-shot-image-classification", Loader "AutoModelForZeroShotImageClassification");
    ("zero-shot-object-detection", Loader "AutoModelForZeroShotObjectDetection") ].

Definition DIFFUSERS_TASKS_TO_MODEL_LOADERS_literal : list (string * model_loaders) :=
  [ ("stable-diffusion", Loader "StableDiffusionPipeline");
    ("stable-diffusion-xl", Loader "StableDiffusionXLImg2ImgPipeline") ].

Definition TIMM_TASKS_TO_MODEL_LOADERS_literal : list (string * model_loaders) :=
  [ ("image-classification", Loader "create_model") ].

Definition SENTENCE_TRANSFORMERS_TASKS_TO_MODEL_LOADERS_literal
    : list (string * model_loaders) :=
  [ ("feature-extraction", Loader "SentenceTransformer");
    ("sentence-similarity", Loader "SentenceTransformer") ].

Definition TRANSFORMERS_TASKS_TO_TF_MODEL_LOADERS_literal : list (string * model_loaders) :=
  [ ("conversational", LoaderTuple ["TFAutoModelForCausalLM"; "TFAutoModelForSeq2SeqLM"]);
    ("document-question-answering", Loader "TFAutoModelForDocumentQuestionAnswering");
    ("feature-extraction", Loader "TFAutoModel");
    ("fill-mask", Loader "TFAutoModelForMaskedLM");
    ("text-generation", Loader "TFAutoModelForCausalLM");
    ("image-classification", Loader "TFAutoModelForImageClassification");
    ("text2text-generation", Loader "TFAutoModelForSeq2SeqLM");
    ("text-classification", Loader "TFAutoModelForSequenceClassification");
    ("token-classification", Loader "TFAutoModelForTokenClassification");
    ("multiple-choice", Loader "TFAutoModelForMultipleChoice");
    ("object-detection", Loader "TFAutoModelForObjectDetection");
    ("question-answering", Loader "TFAutoModelForQuestionAnswering");
    ("image-segmentation", Loader "TFAutoModelForImageSegmentation");
    ("masked-im", Loader "TFAutoModelForMaskedImageModeling");
    ("semantic-segmentation", Loader "TFAutoModelForSemanticSegmentation");
    ("automatic-speech-recognition", Loader "TFAutoModelForSpeechSeq2Seq");
    ("audio-classification", Loader "TFAutoModelForAudioClassification");
    ("audio-frame-classification", Loader "TFAutoModelForAudioFrameClassification");
    ("audio-xvector", Loader "TFAutoModelForAudioXVector");
    ("image-to-text", Loader "TFAutoModelForVision2Seq");
    ("zero-shot-image-classification", Loader "TFAutoModelForZeroShotImageClassification");
    ("zero-shot-object-detection", Loader "TFAutoModelForZeroShotObjectDetection") ].

(** The class body first binds the torch tables to [{}] and rebinds them
    under [if is_torch_available():]. *)
Definition _TRANSFORMERS_TASKS_TO_MODEL_LOADERS (env : Env) : list (string * model_loaders) :=
  if is_torch_available env then TRANSFORMERS_TASKS_TO_MODEL_LOADERS_literal else [].

Definition _DIFFUSERS_TASKS_TO_MODEL_LOADERS (env : Env) : list (string * model_loaders) :=
  if is_torch_available env then DIFFUSERS_TASKS_TO_MODEL_LOADERS_literal else [].

Definition _TIMM_TASKS_TO_MODEL_LOADERS (env : Env) : list (string * model_loaders) :=
  if is_torch_available env then TIMM_TASKS_TO_MODEL_LOADERS_literal else [].

(** [_SENTENCE_TRANSFORMERS_TASKS_TO_MODEL_LOADERS] has no binding outside
    [if is_torch_available():]: without torch the name is unbound. *)
Definition _SENTENCE_TRANSFORMERS_TASKS_TO_MODEL_LOADERS (env : Env)
    : result (list (string * model_loaders)) :=
  if is_torch_available env then Ok SENTENCE_TRANSFORMERS_TASKS_TO_MODEL_LOADERS_literal
  else Raise (NameError "name '_SENTENCE_TRANSFORMERS_TASKS_TO_MODEL_LOADERS' is not defined").

Definition _LIBRARY_TO_TASKS_TO_MODEL_LOADER_MAP (env : Env)
    : list (string * list (string * model_loaders)) :=
  if is_torch_available env then
    [ ("diffusers", DIFFUSERS_TASKS_TO_MODEL_LOADERS_literal);
      ("sentence_transformers", SENTENCE_TRANSFORMERS_TASKS_TO_MODEL_LOADERS_literal);
      ("timm", TIMM_TASKS_TO_MODEL_LOADERS_literal);
      ("transformers", TRANSFORMERS_TASKS_TO_MODEL_LOADERS_literal) ]
  else [].

Definition _TRANSFORMERS_TASKS_TO_TF_MODEL_LOADERS (env : Env)
    : list (string * model_loaders) :=
  if is_tf_available env then TRANSFORMERS_TASKS_TO_TF_MODEL_LOADERS_literal else [].

Definition _LIBRARY_TO_TF_TASKS_TO_MODEL_LOADER_MAP (env : Env)
    : list (string * list (string * model_loaders)) :=
  if is_tf_available env then
    [ ("transformers", TRANSFORMERS_TASKS_TO_TF_MODEL_LOADERS_literal) ]
  else [].

(** *** The synonym map *)

Definition SYNONYM_TASK_MAP_literal : list (string * string) :=
  [ ("audio-ctc", "automatic-speech-recognition");
    ("causal-lm", "text-generation");
    ("causal-lm-with-past", "text-generation-with-past");
    ("default", "feature-extraction");
    ("default-with-past", "feature-extraction-with-past");
    ("masked-lm", "fill-mask");
    ("mask-generation", "feature-extraction");
    ("sentence-similarity", "feature-extraction");
    ("seq2seq-lm", "text2text-generation");
    ("seq2seq-lm-with-past", "text2text-generation-with-past");
    ("sequence-classification", "text-classification");
    ("speech2seq-lm", "automatic-speech-recognition");
    ("speech2seq-lm-with-past", "automatic-speech-recognition-with-past");
    ("summarization", "text2text-generation");
    ("text-to-speech", "text-to-audio");
    ("translation", "text2text-generation");
    ("vision2seq-lm", "image-to-text");
    ("zero-shot-classification", "text-classification");
    ("image-feature-extraction", "feature-extraction") ].

(** The keys of the literal are distinct, so the order of insertion does
    not matter. *)
Definition _SYNONYM_TASK_MAP : gmap string string := list_to_map SYNONYM_TASK_MAP_literal.

(** [map_from_synonym(task)] *)
Definition map_from_synonym (task : string) : string :=
  match _SYNONYM_TASK_MAP !! task with
  | Some canonical => canonical
  | None => task
  end.

(** [synonyms_for_task(task)]: the two comprehensions run over
    [_SYNONYM_TASK_MAP.items()]; the result is a set. *)
Definition synonyms_for_task (task : string) : gset string :=
  let synonyms :=
    map fst (filter (fun kv : string * string => kv.2 = task) SYNONYM_TASK_MAP_literal) in
  let synonyms :=
    (synonyms ++
     map fst (filter (fun kv : string * string => kv.2 = map_from_synonym task)
                SYNONYM_TASK_MAP_literal))%list in
  let synonyms : gset string := list_to_set synonyms in
  synonyms ∖ {[task]}.

(** [get_all_tasks()]: the keys of every table of the map chosen by
    [is_torch_available()], without duplicates. Python leaves the order of
    [list(set(tasks))] open; here it is the order of [elements]. *)
Definition get_all_tasks (env : Env) : list string :=
  let mapping :=
    if is_torch_available env then _LIBRARY_TO_TASKS_TO_MODEL_LOADER_MAP env
    else _LIBRARY_TO_TF_TASKS_TO_MODEL_LOADER_MAP env in
  let tasks := concat (map (fun d => map fst d.2) mapping) in
  elements (list_to_set tasks : gset string).


(** *** The registry of export configurations

    [_LIBRARY_TO_SUPPORTED_MODEL_TYPES] has four keys. Each value is the
    dictionary object that a class attribute names as well
    ([_DIFFUSERS_SUPPORTED_MODEL_TYPE], ...), and maps a model type to a
    mapping object (backend to task dictionary), which maps a backend to a
    task dictionary object (task to constructor). [create_register] holds
    references to the inner objects and mutates them in place, so they are
    kept in a store and named by locations. *)

Inductive library : Type :=
| diffusers
| sentence_transformers
| timm
| transformers.

#[global] Instance library_eq_dec : EqDecision library.
Proof. solve_decision. Defined.

Definition library_of_name (library_name : string) : option library :=
  if String.eqb library_name "diffusers" then Some diffusers
  else if String.eqb library_name "sentence_transformers" then Some sentence_transformers
  else if String.eqb library_name "timm" then Some timm
  else if String.eqb library_name "transformers" then Some transformers
  else None.

Definition loc : Type := positive.

Record store : Type := {
  (** the four model-type dictionaries: model type to the location of a
      mapping object *)
  _DIFFUSERS_SUPPORTED_MODEL_TYPE : gmap string loc;
  _SENTENCE_TRANSFORMERS_SUPPORTED_MODEL_TYPE : gmap string loc;
  _TIMM_SUPPORTED_MODEL_TYPE : gmap string loc;
  _SUPPORTED_MODEL_TYPE : gmap string loc;
  (** the mapping objects: backend to the location of a task dictionary *)
  mappings : gmap loc (gmap string loc);
  (** the task dictionaries: task to constructor *)
  task_dicts : gmap loc (gmap string callable)
}.

(** The model-type dictionary of a library. *)
Definition supported_model_types (st : store) (lib : library) : gmap string loc :=
  match lib with
  | diffusers => _DIFFUSERS_SUPPORTED_MODEL_TYPE st
  | sentence_transformers => _SENTENCE_TRANSFORMERS_SUPPORTED_MODEL_TYPE st
  | timm => _TIMM_SUPPORTED_MODEL_TYPE st
  | transformers => _SUPPORTED_MODEL_TYPE st
  end.

Definition with_heap (st : store) (mappings' : gmap loc (gmap string loc))
    (task_dicts' : gmap loc (gmap string callable)) : store :=
  {| _DIFFUSERS_SUPPORTED_MODEL_TYPE := _DIFFUSERS_SUPPORTED_MODEL_TYPE st;
     _SENTENCE_TRANSFORMERS_SUPPORTED_MODEL_TYPE :=
       _SENTENCE_TRANSFORMERS_SUPPORTED_MODEL_TYPE st;
     _TIMM_SUPPORTED_MODEL_TYPE := _TIMM_SUPPORTED_MODEL_TYPE st;
     _SUPPORTED_MODEL_TYPE := _SUPPORTED_MODEL_TYPE st;
     mappings := mappings';
     task_dicts := task_dicts' |}.

Definition with_table (st : store) (lib : library) (table : gmap string loc) : store :=
  {| _DIFFUSERS_SUPPORTED_MODEL_TYPE :=
       if decide (lib = diffusers) then table else _DIFFUSERS_SUPPORTED_MODEL_TYPE st;
     _SENTENCE_TRANSFORMERS_SUPPORTED_MODEL_TYPE :=
       if decide (lib = sentence_transformers) then table
       else _SENTENCE_TRANSFORMERS_SUPPORTED_MODEL_TYPE st;
     _TIMM_SUPPORTED_MODEL_TYPE :=
       if decide (lib = timm) then table else _TIMM_SUPPORTED_MODEL_TYPE st;
     _SUPPORTED_MODEL_TYPE :=
       if decide (lib = transformers) then table else _SUPPORTED_MODEL_TYPE st;
     mappings := mappings st;
     task_dicts := task_dicts st |}.

(** The content of an object. A location outside the store holds the
    empty dictionary. *)
Definition mapping_at (st : store) (l : loc) : gmap string loc :=
  default ∅ (mappings st !! l).

Definition task_dict_at (st : store) (l : loc) : gmap string callable :=
  default ∅ (task_dicts st !! l).

(** [_LIBRARY_TO_SUPPORTED_MODEL_TYPES[library_name]] *)
Definition _LIBRARY_TO_SUPPORTED_MODEL_TYPES (st : store) (library_name : string)
    : result (library * gmap string loc) :=
  match library_of_name library_name with
  | Some lib => Ok (lib, supported_model_types st lib)
  | None => Raise (KeyError library_name)
  end.

(** [table[model_type][backend][task]] read through the store, [None] when
    a key is missing on the way. *)
Definition registered (st : store) (lib : library) (model_type backend task : string)
    : option callable :=
  mapping ← supported_model_types st lib !! model_type;
  mapping_backend ← mapping_at st mapping !! backend;
  task_dict_at st mapping_backend !! task.

(** [_MODEL_TYPE_FOR_DEFAULT_CONFIG] *)
Definition _MODEL_TYPE_FOR_DEFAULT_CONFIG (library_name : string) : option string :=
  if String.eqb library_name "timm" then Some "default-timm-config" else None.

(** *** Code that mutates the store

    A computation takes the store, returns the store it leaves and either
    a value or the exception it raised. *)

Definition Py (A : Type) : Type := store → store * result A.

#[global] Instance Py_ret : MRet Py := fun A a st => (st, Ok a).
#[global] Instance Py_bind : MBind Py := fun A B f m st =>
  match m st with
  | (st', Ok a) => f a st'
  | (st', Raise e) => (st', Raise e)
  end.

Definition py_raise {A} (e : exn) : Py A := fun st => (st, Raise e).
Definition py_lift {A} (r : result A) : Py A := fun st => (st, r).
Definition py_get : Py store := fun st => (st, Ok st).

(** [{}] as a new mapping object. *)
Definition new_mapping : Py loc := fun st =>
  let l := fresh (dom (mappings st)) in
  (with_heap st (<[l := ∅]> (mappings st)) (task_dicts st), Ok l).

(** [{}] as a new task dictionary. *)
Definition new_task_dict : Py loc := fun st =>
  let l := fresh (dom (task_dicts st)) in
  (with_heap st (mappings st) (<[l := ∅]> (task_dicts st)), Ok l).

(** [d[task] = constructor] on the task dictionary at [l]. *)
Definition task_dict_setitem (l : loc) (task : string) (constructor : callable) : Py unit :=
  fun st =>
    (with_heap st (mappings st)
       (<[l := <[task := constructor]> (task_dict_at st l)]> (task_dicts st)),
     Ok tt).

(** [mapping[backend] = mapping_backend] on the mapping object at [l]. *)
Definition mapping_setitem (l : loc) (backend : string) (mapping_backend : loc) : Py unit :=
  fun st =>
    (with_heap st
       (<[l := <[backend := mapping_backend]> (mapping_at st l)]> (mappings st))
       (task_dicts st),
     Ok tt).

(** [table[model_type] = mapping] on the model-type dictionary of [lib]. *)
Definition table_setitem (lib : library) (model_type : string) (mapping : loc) : Py unit :=
  fun st =>
    (with_table st lib (<[model_type := mapping]> (supported_model_types st lib)), Ok tt).

(** The message of the [ValueError] for an unknown task. *)
Definition unknown_task_message (env : Env) (normalized_task : string) : string :=
  let known_tasks := PyStr.join ", " (get_all_tasks env) in
  "The TasksManager does not know the task called " ++ PyStr.dquote ++ normalized_task
    ++ PyStr.dquote ++ ", known tasks: " ++ known_tasks ++ ".".

Section create_register.

Variable env : Env.
(** the arguments of [create_register] *)
Variables (backend : string) (overwrite_existing : bool).

(** The loop [for task in supported_tasks] of [decorator];
    [mapping_backend] is a reference. *)
Fixpoint register_tasks (config_cls : ConfigCls) (mapping_backend : loc)
    (supported_tasks : list string) : Py unit :=
  match supported_tasks with
  | [] => mret tt
  | task :: rest =>
      let normalized_task := PyStr.replace task "-with-past" "" in
      if negb (PyStr.mem normalized_task (get_all_tasks env)) then
        py_raise (ValueError (unknown_task_message env normalized_task))
      else
        st ← py_get;
        if negb overwrite_existing
           && bool_decide (is_Some (task_dict_at st mapping_backend !! task))
        then register_tasks config_cls mapping_backend rest
        else
          constructor ← py_lift (make_backend_config_constructor_for_task config_cls task);
          _ ← task_dict_setitem mapping_backend task constructor;
          register_tasks config_cls mapping_backend rest
  end.

(** The body of [decorator], for the arguments of [wrapper] and the
    class it decorates. The [{}] default of a [get] is only observable
    when the key is missing, and is created then. *)
Definition decorator (model_type : string) (supported_tasks : list string)
    (library_name : string) (config_cls : ConfigCls) : Py ConfigCls :=
  '(lib, supported_model_type_for_library) ←
    (st ← py_get; py_lift (_LIBRARY_TO_SUPPORTED_MODEL_TYPES st library_name));
  mapping ←
    match supported_model_type_for_library !! model_type with
    | Some mapping => mret mapping
    | None => new_mapping
    end;
  st ← py_get;
  mapping_backend ←
    match mapping_at st mapping !! backend with
    | Some mapping_backend => mret mapping_backend
    | None => new_task_dict
    end;
  _ ← register_tasks config_cls mapping_backend supported_tasks;
  _ ← mapping_setitem mapping backend mapping_backend;
  _ ← table_setitem lib model_type mapping;
  mret config_cls.

(** [wrapper(model_type, *supported_tasks, library_name)] returns the
    decorator; [library_name] is ["transformers"] when the caller leaves it
    out. *)
Definition wrapper (model_type : string) (supported_tasks : list string)
    (library_name : string) : ConfigCls → Py ConfigCls :=
  decorator model_type supported_tasks library_name.

(** [create_register(backend, overwrite_existing)] returns [wrapper]. *)
Definition create_register : string → list string → string → ConfigCls → Py ConfigCls :=
  wrapper.

End create_register.

(** *** Reading the registry *)

(** [repr] of a list of strings, for messages. The keys of a table are
    listed in the order of [map_to_list], Python lists them in insertion
    order. *)
Definition list_repr (l : list string) : string :=
  "[" ++ PyStr.join ", " (map (fun x => "'" ++ x ++ "'") l) ++ "]".

Definition keys {A} (m : gmap string A) : list string := map fst (map_to_list m).

(** The model-type dictionary the two readers start from: the one of
    [library_name], or the four merged when [library_name] is [None]
    (later dictionaries win; the library is then ["transformers"]). *)
Definition supported_model_type_for (st : store) (library_name : option string)
    : result (string * gmap string loc) :=
  match library_name with
  | None =>
      Ok ("transformers",
          supported_model_types st transformers
            ∪ supported_model_types st sentence_transformers
            ∪ supported_model_types st timm
            ∪ supported_model_types st diffusers)
  | Some name =>
      '(_, table) ← _LIBRARY_TO_SUPPORTED_MODEL_TYPES st name;
      Ok (name, table)
  end.

(** [get_supported_tasks_for_model_type(model_type, exporter, model_name,
    library_name)]: the task dictionary of the model type for the
    exporter. *)
Definition get_supported_tasks_for_model_type (st : store) (model_type exporter : string)
    (model_name : option string) (library_name : option string)
    : result (gmap string callable) :=
  '(library_name, supported_model_type_for_library) ←
    supported_model_type_for st library_name;
  let model_type := PyStr.replace (PyStr.lower model_type) "_" "-" in
  let model_type_and_model_name :=
    match model_name with
    | Some name => if String.eqb name "" then model_type else model_type ++ " (" ++ name ++ ")"
    | None => model_type
    end in
  let default_model_type := _MODEL_TYPE_FOR_DEFAULT_CONFIG library_name in
  model_type ←
    (if bool_decide (is_Some (supported_model_type_for_library !! model_type))
     then Ok model_type
     else
       match default_model_type with
       | Some default => Ok default
       | None =>
           Raise (KeyError
             (model_type_and_model_name ++ " is not supported yet for " ++ library_name
              ++ ". Only " ++ list_repr (keys supported_model_type_for_library)
              ++ " are supported for the library " ++ library_name
              ++ ". If you want to support " ++ model_type
              ++ " please propose a PR or open up an issue."))
       end);
  mapping ←
    match supported_model_type_for_library !! model_type with
    | Some mapping => Ok mapping
    | None => Raise (KeyError model_type)
    end;
  match mapping_at st mapping !! exporter with
  | None =>
      Raise (KeyError
        (model_type_and_model_name ++ " is not supported yet with the " ++ exporter
         ++ " backend. Only " ++ list_repr (keys (mapping_at st mapping))
         ++ " are supported. If you want to support " ++ exporter
         ++ " please propose a PR or open up an issue."))
  | Some mapping_backend => Ok (task_dict_at st mapping_backend)
  end.

(** The comprehension of [get_supported_model_type_for_task]: the model
    types are visited in the order of [map_to_list] (Python visits them in
    insertion order), and [_SUPPORTED_MODEL_TYPE[model_type][exporter]] is
    indexed for each of them. *)
Fixpoint supported_model_type_loop (st : store) (task exporter : string)
    (items : list (string * loc)) : result (list string) :=
  match items with
  | [] => Ok []
  | (model_type, mapping) :: rest =>
      match mapping_at st mapping !! exporter with
      | None => Raise (KeyError exporter)
      | Some mapping_backend =>
          selected ← supported_model_type_loop st task exporter rest;
          if bool_decide (is_Some (task_dict_at st mapping_backend !! task))
          then Ok (PyStr.replace model_type "-" "_" :: selected)
          else Ok selected
      end
  end.

(** [get_supported_model_type_for_task(task, exporter)] *)
Definition get_supported_model_type_for_task (st : store) (task exporter : string)
    : result (list string) :=
  supported_model_type_loop st task exporter (map_to_list (_SUPPORTED_MODEL_TYPE st)).

(** A model object, as far as [get_exporter_config_constructor] reads it:
    [model.config.export_model_type] and [model.config.model_type] when the
    attribute is there, and [model.name]. *)
Record Model : Type := {
  config_export_model_type : option string;
  config_model_type : option string;
  name : option string
}.

(** [get_exporter_config_constructor(exporter, model, task, model_type,
    model_name, exporter_config_kwargs, library_name)] *)
Definition get_exporter_config_constructor (st : store) (exporter : string)
    (model : option Model) (task : string) (model_type : option string)
    (model_name : option string) (exporter_config_kwargs : option (list (string * pyval)))
    (library_name : option string) : result ExportConfigConstructor :=
  '(library_name, supported_model_type_for_library) ←
    supported_model_type_for st library_name;
  '(model_type, model_name) ←
    match model_type, model with
    | None, None =>
        Raise (ValueError
          "Either a model_type or model should be provided to retrieve the export config.")
    | Some model_type, _ => Ok (model_type, model_name)
    | None, Some model =>
        let model_type :=
          match config_export_model_type model with
          | Some t => Some t
          | None => config_model_type model
          end in
        match model_type with
        | None =>
            Raise (ValueError
              "Model type cannot be inferred. Please provide the model_type for the model!")
        | Some model_type =>
            Ok (PyStr.replace model_type "_" "-",
                match name model with Some n => Some n | None => model_name end)
        end
    end;
  model_tasks ←
    get_supported_tasks_for_model_type st model_type exporter model_name (Some library_name);
  task ←
    (if bool_decide (is_Some (model_tasks !! task)) then Ok task
     else
       let synonyms := synonyms_for_task task in
       let task :=
         match find (fun synonym => bool_decide (is_Some (model_tasks !! synonym)))
                 (elements synonyms) with
         | Some synonym => synonym
         | None => task
         end in
       if bool_decide (is_Some (model_tasks !! task)) then Ok task
       else
         Raise (ValueError
           (model_type ++ " doesn't support task " ++ task ++ " for the " ++ exporter
            ++ " backend. Supported tasks are: " ++ PyStr.join ", " (keys model_tasks)
            ++ ".")));
  model_type ←
    (if bool_decide (is_Some (supported_model_type_for_library !! model_type))
     then Ok model_type
     else
       match _MODEL_TYPE_FOR_DEFAULT_CONFIG library_name with
       | Some default => Ok default
       | None => Raise (KeyError library_name)
       end);
  mapping ←
    match supported_model_type_for_library !! model_type with
    | Some mapping => Ok mapping
    | None => Raise (KeyError model_type)
    end;
  mapping_backend ←
    match mapping_at st mapping !! exporter with
    | Some mapping_backend => Ok mapping_backend
    | None => Raise (KeyError exporter)
    end;
  exporter_config_constructor ←
    match task_dict_at st mapping_backend !! task with
    | Some constructor => Ok constructor
    | None => Raise (KeyError task)
    end;
  match exporter_config_kwargs with
  | Some kwargs => Ok (partial exporter_config_constructor kwargs)
  | None => Ok exporter_config_constructor
  end.

(** *** The class body: the static tables *)

(** An entry of a table literal: the model type and the arguments of its
    [supported_tasks_mapping(...)] call. *)
Definition table_literal : Type := list (string * (list task_spec * list (string * string))).

Definition DIFFUSERS_SUPPORTED_MODEL_TYPE_literal : table_literal :=
  [ ("clip-text-model", ([Task "feature-extraction"], [("onnx", "CLIPTextOnnxConfig")]));
    ("clip-text-with-projection",
      ([Task "feature-extraction"], [("onnx", "CLIPTextWithProjectionOnnxConfig")]));
    ("unet", ([Task "semantic-segmentation"], [("onnx", "UNetOnnxConfig")]));
    ("vae-encoder", ([Task "semantic-segmentation"], [("onnx", "VaeEncoderOnnxConfig")]));
    ("vae-decoder", ([Task "semantic-segmentation"], [("onnx", "VaeDecoderOnnxConfig")])) ].

Definition TIMM_SUPPORTED_MODEL_TYPE_literal : table_literal :=
  [ ("default-timm-config",
      ([Task "image-classification"], [("onnx", "TimmDefaultOnnxConfig")])) ].

Definition SENTENCE_TRANSFORMERS_SUPPORTED_MODEL_TYPE_literal : table_literal :=
  [ ("clip",
      ([Task "feature-extraction"; Task "sentence-similarity"],
       [("onnx", "SentenceTransformersCLIPOnnxConfig")]));
    ("transformer",
      ([Task "feature-extraction"; Task "sentence-similarity"],
       [("onnx", "SentenceTransformersTransformerOnnxConfig")])) ].

Fixpoint py_for {A} (body : A → Py unit) (l : list A) : Py unit :=
  match l with
  | [] => mret tt
  | x :: rest => _ ← body x; py_for body rest
  end.

(** A dictionary value becomes an object of the store. *)
Definition store_task_dict (d : gmap string callable) : Py loc :=
  l ← new_task_dict;
  _ ← py_for (fun '(task, constructor) => task_dict_setitem l task constructor)
        (map_to_list d);
  mret l.

Definition store_mapping (m : gmap string (gmap string callable)) : Py loc :=
  l ← new_mapping;
  _ ← py_for (fun '(backend, d) => ld ← store_task_dict d; mapping_setitem l backend ld)
        (map_to_list m);
  mret l.

Section class_body.

Variable env : Env.
Variable import_config_cls : string → string → result ConfigCls.

(** The [_SUPPORTED_MODEL_TYPE] literal of the transformers library. Its
    entries have the shape of the three above. *)
Variable SUPPORTED_MODEL_TYPE_literal : table_literal.

(** A table literal is evaluated entry by entry, in order. *)
Definition build_table (lib : library) (literal : table_literal) : Py unit :=
  py_for
    (fun '(model_type, (supported_tasks, exporters)) =>
       m ← py_lift (supported_tasks_mapping env import_config_cls supported_tasks exporters);
       l ← store_mapping m;
       table_setitem lib model_type l)
    literal.

Definition empty_store : store :=
  {| _DIFFUSERS_SUPPORTED_MODEL_TYPE := ∅;
     _SENTENCE_TRANSFORMERS_SUPPORTED_MODEL_TYPE := ∅;
     _TIMM_SUPPORTED_MODEL_TYPE := ∅;
     _SUPPORTED_MODEL_TYPE := ∅;
     mappings := ∅;
     task_dicts := ∅ |}.

(** What the class body leaves: the reversed loader tables and the
    registry. *)
Record class_attributes : Type := {
  _LIBRARY_TO_MODEL_LOADERS_TO_TASKS_MAP : list (string * gmap string string);
  _LIBRARY_TO_TF_MODEL_LOADERS_TO_TASKS_MAP : list (string * gmap string string);
  registry : store
}.

(** The class body of [TasksManager], in the order of the source. The
    reversed tables read [_SENTENCE_TRANSFORMERS_TASKS_TO_MODEL_LOADERS],
    so the class is only defined when torch is available. *)
Definition class_body : result class_attributes :=
  sentence_loaders ← _SENTENCE_TRANSFORMERS_TASKS_TO_MODEL_LOADERS env;
  let reversed :=
    [ ("diffusers", get_model_loaders_to_tasks (_DIFFUSERS_TASKS_TO_MODEL_LOADERS env));
      ("sentence_transformers", get_model_loaders_to_tasks sentence_loaders);
      ("timm", get_model_loaders_to_tasks (_TIMM_TASKS_TO_MODEL_LOADERS env));
      ("transformers",
        get_model_loaders_to_tasks (_TRANSFORMERS_TASKS_TO_MODEL_LOADERS env)) ] in
  let reversed_tf :=
    [ ("transformers",
        get_model_loaders_to_tasks (_TRANSFORMERS_TASKS_TO_TF_MODEL_LOADERS env)) ] in
  let '(st, r) :=
    (_ ← build_table diffusers DIFFUSERS_SUPPORTED_MODEL_TYPE_literal;
     _ ← build_table timm TIMM_SUPPORTED_MODEL_TYPE_literal;
     _ ← build_table sentence_transformers
           SENTENCE_TRANSFORMERS_SUPPORTED_MODEL_TYPE_literal;
     build_table transformers SUPPORTED_MODEL_TYPE_literal) empty_store in
  _ ← r;
  Ok {| _LIBRARY_TO_MODEL_LOADERS_TO_TASKS_MAP := reversed;
        _LIBRARY_TO_TF_MODEL_LOADERS_TO_TASKS_MAP := reversed_tf;
        registry := st |}.

End class_body.

(** *** The repository and the hub

    Listing the files of a model repository and loading its configuration
    are done by the file system, [huggingface_hub] and [transformers]. A
    [World] answers these calls; a computation of [Ext] records the calls it
    makes, in order. *)

Inductive call : Type :=
| call_get_model_files (model_name_or_path subfolder cache_dir : string)
    (token : option pyval) (revision : option string)
| call_get_config_dict (model_name_or_path subfolder : string) (revision : option string)
    (cache_dir : string) (token : option pyval).

(** The attributes of a loaded [PretrainedConfig] that the module tests
    with [hasattr]. *)
Record ConfigAttributes : Type := {
  has_pretrained_cfg : bool;
  has_architecture : bool;
  has_diffusers_version : bool
}.

Record World : Type := {
  (** [TasksManager.get_model_files]: [(all_files, request_exception)] *)
  get_model_files :
    string → string → string → option pyval → option string
    → result (list string * option exn);
  (** [PretrainedConfig.get_config_dict] followed by
      [PretrainedConfig.from_dict] *)
  get_config_dict :
    string → string → option string → string → option pyval → result ConfigAttributes
}.

Definition Ext (A : Type) : Type := (list call * result A)%type.

#[global] Instance Ext_ret : MRet Ext := fun A a => ([], Ok a).
#[global] Instance Ext_bind : MBind Ext := fun A B f m =>
  match m with
  | (calls, Ok a) => let '(calls', r) := f a in ((calls ++ calls')%list, r)
  | (calls, Raise e) => (calls, Raise e)
  end.

Definition ext_raise {A} (e : exn) : Ext A := ([], Raise e).
Definition ext_lift {A} (r : result A) : Ext A := ([], r).

Definition ext_get_model_files (w : World) (model_name_or_path subfolder cache_dir : string)
    (token : option pyval) (revision : option string) : Ext (list string * option exn) :=
  ([call_get_model_files model_name_or_path subfolder cache_dir token revision],
   get_model_files w model_name_or_path subfolder cache_dir token revision).

Definition ext_get_config_dict (w : World) (model_name_or_path subfolder : string)
    (revision : option string) (cache_dir : string) (token : option pyval)
    : Ext ConfigAttributes :=
  ([call_get_config_dict model_name_or_path subfolder revision cache_dir token],
   get_config_dict w model_name_or_path subfolder revision cache_dir token).

(** The file names [transformers.utils] exports. *)
Record WeightNames : Type := {
  WEIGHTS_NAME : string;
  SAFE_WEIGHTS_NAME : string;
  TF2_WEIGHTS_NAME : string
}.

(** Their values in [transformers]. *)
Definition transformers_utils : WeightNames :=
  {| WEIGHTS_NAME := "pytorch_model.bin";
     SAFE_WEIGHTS_NAME := "model.safetensors";
     TF2_WEIGHTS_NAME := "tf_model.h5" |}.

(** [x or y] on strings. *)
Definition str_or (x y : string) : string :=
  if String.eqb x "" then y else x.

Section determine_framework.

Variable env : Env.
Variable w : World.
Variable names : WeightNames.

Definition pt_weight_name : string := PyStr.path_stem (WEIGHTS_NAME names).
Definition pt_weight_extension : string := PyStr.path_suffix (WEIGHTS_NAME names).
Definition safe_weight_name : string := PyStr.path_stem (SAFE_WEIGHTS_NAME names).
Definition safe_weight_extension : string := PyStr.path_suffix (SAFE_WEIGHTS_NAME names).
Definition weight_name : string := PyStr.path_stem (TF2_WEIGHTS_NAME names).
Definition weight_extension : string := PyStr.path_suffix (TF2_WEIGHTS_NAME names).

(** The elements of the comprehension [is_pt_weight_file]. *)
Definition is_pt_weight_file (file : string) : bool :=
  (PyStr.startswith file pt_weight_name && PyStr.endswith file pt_weight_extension)
  || (PyStr.startswith file safe_weight_name && PyStr.endswith file safe_weight_extension).

(** The elements of the comprehension [is_tf_weight_file]. *)
Definition is_tf_weight_file (file : string) : bool :=
  PyStr.startswith file weight_name && PyStr.endswith file weight_extension.

(** The [if]/[elif] chain over the file list. *)
Definition framework_of_files (all_files : list string) (request_exception : option exn)
    : result string :=
  if existsb id (map is_pt_weight_file all_files) then Ok "pt"
  else if existsb id (map is_tf_weight_file all_files) then Ok "tf"
  else if PyStr.mem "model_index.json" all_files
          && existsb
               (fun file =>
                  PyStr.endswith_any file [pt_weight_extension; safe_weight_extension])
               all_files
  then Ok "pt"
  else if PyStr.mem "config_sentence_transformers.json" all_files then Ok "pt"
  else
    match request_exception with
    | Some e =>
        Raise (RequestsConnectionError
          ("The framework could not be automatically inferred. If using the command-line, please provide the argument --framework (pt,tf) Detailed error: "
           ++ exn_message e))
    | None =>
        Raise (FileNotFoundError
          ("Cannot determine framework from given checkpoint location. There should be a "
           ++ pt_weight_name ++ "*" ++ pt_weight_extension ++ " for PyTorch or "
           ++ weight_name ++ "*" ++ weight_extension ++ " for TensorFlow."))
    end.

(** [determine_framework(model_name_or_path, subfolder, framework,
    cache_dir)] *)
Definition determine_framework (model_name_or_path subfolder : string)
    (framework : option string) (cache_dir : string) : Ext string :=
  match framework with
  | Some framework => mret framework
  | None =>
      '(all_files, request_exception) ←
        ext_get_model_files w model_name_or_path subfolder cache_dir None None;
      framework ← ext_lift (framework_of_files all_files request_exception);
      if is_torch_available env then mret (str_or framework "pt")
      else if is_tf_available env then mret (str_or framework "tf")
      else
        ext_raise (EnvironmentError
          "Neither PyTorch nor TensorFlow found in environment. Cannot export model.")
  end.

End determine_framework.

Section infer_library_from_model.

Variable w : World.
(** [CONFIG_NAME], imported from [optimum.utils] *)
Variable CONFIG_NAME : string.

(** The [if]/[elif] chain over the file list; [library_name] is [None]
    when the chain starts, the result is its value when the chain ends. *)
Definition library_of_files (model_name_or_path subfolder : string)
    (revision : option string) (cache_dir : string) (token : option pyval)
    (all_files : list string) : Ext (option string) :=
  if PyStr.mem "model_index.json" all_files then mret (Some "diffusers")
  else if existsb (fun file_path => PyStr.startswith file_path "sentence_") all_files
          || PyStr.mem "config_sentence_transformers.json" all_files
  then mret (Some "sentence_transformers")
  else if PyStr.mem CONFIG_NAME all_files then
    model_config ← ext_get_config_dict w model_name_or_path subfolder revision cache_dir token;
    if has_pretrained_cfg model_config || has_architecture model_config
    then mret (Some "timm")
    else if has_diffusers_version model_config then mret (Some "diffusers")
    else mret (Some "transformers")
  else mret (Some "transformers").

Definition library_not_inferred : exn :=
  ValueError
    "The library name could not be automatically inferred. If using the command-line, please provide the argument --library {transformers,diffusers,timm,sentence_transformers}. Example: `--library diffusers`.".

(** The guard after the chain. *)
Definition library_guard (library_name : option string) : Ext string :=
  match library_name with
  | None => ext_raise library_not_inferred
  | Some library_name => mret library_name
  end.

(** [infer_library_from_model(model_name_or_path, subfolder, revision,
    cache_dir, library_name, use_auth_token, token)] *)
Definition infer_library_from_model (model_name_or_path subfolder : string)
    (revision : option string) (cache_dir : string) (library_name : option string)
    (use_auth_token token : option pyval) : Ext string :=
  token ←
    match use_auth_token with
    | Some _ =>
        match token with
        | Some _ =>
            ext_raise (ValueError
              "You cannot use both `use_auth_token` and `token` arguments at the same time.")
        | None => mret use_auth_token
        end
    | None => mret token
    end;
  match library_name with
  | Some library_name => mret library_name
  | None =>
      '(all_files, _) ←
        ext_get_model_files w model_name_or_path subfolder cache_dir token revision;
      library_name ←
        library_of_files model_name_or_path subfolder revision cache_dir token all_files;
      library_guard library_name
  end.

End infer_library_from_model.

(** *** Listing the files of a model *)

Module Files.

(** The file system and the Hub, as [get_model_files] reads them. A path
    is given by the parts it is built from: [Path(a) / b] and [Path(a, b)]
    are [[a; b]]. *)
Record Sources : Type := {
  (** [path.is_dir()] *)
  is_dir : list string → bool;
  (** [path.is_file()] *)
  is_file : list string → bool;
  (** the comprehension over [os.walk(path)]: the files under the
      directory, by their paths relative to it *)
  walk : list string → list string;
  (** [open(path).read()] *)
  read : list string → string;
  (** [huggingface_hub.list_repo_files(repo_id, repo_type="model",
      token=token, revision=revision)] *)
  list_repo_files : string → option pyval → option string → result (list string)
}.

(** [s[n:]] *)
Definition slice_from (n : nat) (s : string) : string :=
  String.substring n (String.length s - n) s.

(** The classes of the [except] clause. *)
Definition is_connection_error (e : exn) : bool :=
  match e with
  | RequestsConnectionError _ | OfflineModeIsEnabled _ => true
  | _ => false
  end.

(** Reading a local variable that no assignment has reached raises
    [UnboundLocalError], which is a [NameError]; the text is the one of
    Python 3.11 and later. *)
Definition unbound_local (variable : string) : exn :=
  NameError
    ("cannot access local variable '" ++ variable
     ++ "' where it is not associated with a value").

(** [get_model_files(model_name_or_path, subfolder, cache_dir,
    use_auth_token, token, revision)] *)
Definition get_model_files (src : Sources) (model_name_or_path subfolder cache_dir : string)
    (use_auth_token token : option pyval) (revision : option string)
    : result (list string * option exn) :=
  token ←
    match use_auth_token with
    | Some _ =>
        match token with
        | Some _ =>
            Raise (ValueError
              "You cannot use both `use_auth_token` and `token` arguments at the same time.")
        | None => Ok use_auth_token
        end
    | None => Ok token
    end;
  let full_model_path := [model_name_or_path; subfolder] in
  if is_dir src full_model_path then Ok (walk src full_model_path, None)
  else
    match list_repo_files src model_name_or_path token revision with
    | Ok all_files =>
        let all_files :=
          if negb (String.eqb subfolder "")
          then map (slice_from (String.length subfolder + 1))
                 (List.filter (fun file => PyStr.startswith file subfolder) all_files)
          else all_files in
        Ok (all_files, None)
    | Raise e =>
        if is_connection_error e then
          let request_exception := Some e in
          let object_id := PyStr.replace model_name_or_path "/" "--" in
          let full_model_path := [cache_dir; "models--" ++ object_id] in
          if is_dir src full_model_path then
            let revision :=
              match revision with
              | Some revision => revision
              | None =>
                  let revision_file := (full_model_path ++ ["refs"; "main"])%list in
                  if is_file src revision_file then read src revision_file else ""
              end in
            let cached_path := (full_model_path ++ ["snapshots"; revision; subfolder])%list in
            Ok (walk src cached_path, request_exception)
          else Raise (unbound_local "all_files")
        else Raise e
    end.

End Files.

(** The world in which the files are listed by [get_model_files] itself. *)
Definition world_of_sources (src : Files.Sources)
    (get_config_dict :
       string → string → option string → string → option pyval → result ConfigAttributes)
    : World :=
  {| get_model_files := fun model_name_or_path subfolder cache_dir token revision =>
       Files.get_model_files src model_name_or_path subfolder cache_dir None token revision;
     get_config_dict := get_config_dict |}.

(** *** Model classes

    The functions below import modules and read attributes of the objects
    they get. These can raise exceptions that [exn] has no constructor
    for. *)

Inductive raised : Type :=
| Exn (e : exn)
| AttributeError (msg : string)
| ImportError (msg : string)
| IndexError (msg : string)
| TypeError (msg : string).

Inductive outcome (A : Type) : Type :=
| Return (a : A)
| Throw (e : raised).

Arguments Return {A} a.
Arguments Throw {A} e.

#[global] Instance outcome_ret : MRet outcome := fun A a => Return a.
#[global] Instance outcome_bind : MBind outcome := fun A B f r =>
  match r with
  | Return a => f a
  | Throw e => Throw e
  end.

Definition of_result {A} (r : result A) : outcome A :=
  match r with
  | Ok a => Return a
  | Raise e => Throw (Exn e)
  end.

(** The modules that can be imported. A module is named by the string it
    is imported by, an object by a name of its own. *)
Record Modules : Type := {
  (** [importlib.import_module(name)] *)
  import_module : string → outcome unit;
  (** [getattr(module, name)] *)
  module_getattr : string → string → outcome string;
  (** the keys of [auto_cls._model_mapping._model_mapping] *)
  model_mapping_keys : string → outcome (list string);
  (** [auto_cls._model_mapping._model_mapping.values()] *)
  model_mapping_values : string → outcome (list string)
}.

(** [_validate_framework_choice(framework)] *)
Definition _validate_framework_choice (env : Env) (framework : string) : result unit :=
  if negb (PyStr.mem framework ["pt"; "tf"]) then
    Raise (ValueError
      ("Only two frameworks are supported for export: pt or tf, but " ++ framework
       ++ " was provided."))
  else if String.eqb framework "pt" && negb (is_torch_available env) then
    Raise (RuntimeError
      "Cannot export model using PyTorch because no PyTorch package was found.")
  else if String.eqb framework "tf" && negb (is_tf_available env) then
    Raise (RuntimeError
      "Cannot export model using TensorFlow because no TensorFlow package was found.")
  else Ok tt.

(** [_CUSTOM_CLASSES]: (framework, model type, task) to (library, class
    name). *)
Definition _CUSTOM_CLASSES : list ((string * string * string) * (string * string)) :=
  [ (("pt", "pix2struct", "image-to-text"),
      ("transformers", "Pix2StructForConditionalGeneration"));
    (("pt", "pix2struct", "visual-question-answering"),
      ("transformers", "Pix2StructForConditionalGeneration"));
    (("pt", "visual-bert", "question-answering"),
      ("transformers", "VisualBertForQuestionAnswering"));
    (("pt", "vision-encoder-decoder", "document-question-answering"),
      ("transformers", "VisionEncoderDecoderModel")) ].

(** [_CUSTOM_CLASSES.get((framework, model_type, task))]; a key with
    [None] for the model type is in no dictionary of string triples. *)
Definition custom_class (framework : string) (model_type : option string) (task : string)
    : option (string * string) :=
  match model_type with
  | None => None
  | Some model_type =>
      snd <$> find (fun entry : (string * string * string) * (string * string) =>
                      let '((f, m, t), _) := entry in
                      String.eqb f framework && String.eqb m model_type && String.eqb t task)
                _CUSTOM_CLASSES
  end.

(** [d.get(key)] for a dictionary given by its items; the keys of the
    tables are distinct. *)
Definition dict_get {V} (d : list (string * V)) (key : string) : option V :=
  snd <$> find (fun item : string * V => String.eqb item.1 key) d.

(** [str(loaders)]: a string as it is, a tuple as Python prints it. *)
Definition loaders_str (loaders : model_loaders) : string :=
  match loaders with
  | Loader name => name
  | LoaderTuple [name] => "('" ++ name ++ "',)"
  | LoaderTuple names => "(" ++ PyStr.join ", " (map (fun x => "'" ++ x ++ "'") names) ++ ")"
  end.

(** The loop over the auto classes of a task that has several: the first
    whose model mapping has the model type, with hyphens or with
    underscores. *)
Fixpoint find_autoclass (mods : Modules) (library model_type : string)
    (autoclass_names : list string) : outcome (option string) :=
  match autoclass_names with
  | [] => Return None
  | autoclass_name :: rest =>
      module ← module_getattr mods library autoclass_name;
      model_mapping ← model_mapping_keys mods module;
      if PyStr.mem model_type model_mapping
         || PyStr.mem (PyStr.replace model_type "-" "_") model_mapping
      then Return (Some autoclass_name)
      else find_autoclass mods library model_type rest
  end.

(** [get_model_class_for_task(task, framework, model_type,
    model_class_name, library)] *)
Definition get_model_class_for_task (env : Env) (mods : Modules) (task framework : string)
    (model_type model_class_name : option string) (library : string) : outcome string :=
  let task := PyStr.replace task "-with-past" "" in
  let task := map_from_synonym task in
  _ ← of_result (_validate_framework_choice env framework);
  match custom_class framework model_type task with
  | Some (library, class_name) =>
      _ ← import_module mods library;
      module_getattr mods library class_name
  | None =>
      let library_to_tasks_to_model_loader :=
        if String.eqb framework "pt" then _LIBRARY_TO_TASKS_TO_MODEL_LOADER_MAP env
        else _LIBRARY_TO_TF_TASKS_TO_MODEL_LOADER_MAP env in
      tasks_to_model_loader ←
        match dict_get library_to_tasks_to_model_loader library with
        | Some tasks_to_model_loader => Return tasks_to_model_loader
        | None => Throw (Exn (KeyError library))
        end;
      _ ← import_module mods library;
      model_class_name ←
        match model_class_name with
        | Some model_class_name => Return model_class_name
        | None =>
            match dict_get tasks_to_model_loader task with
            | None =>
                Throw (Exn (KeyError
                  ("Unknown task: " ++ task ++ ". Possible values are: "
                   ++ PyStr.join ", "
                        (map (fun item : string * model_loaders =>
                                "`" ++ item.1 ++ "` for " ++ loaders_str item.2)
                           tasks_to_model_loader))))
            | Some (Loader name) => Return name
            | Some (LoaderTuple names) =>
                if String.eqb library "transformers" then
                  match model_type with
                  | None =>
                      match names with
                      | name :: _ => Return name
                      | [] => Throw (IndexError "tuple index out of range")
                      end
                  | Some model_type =>
                      found ← find_autoclass mods library model_type names;
                      match found with
                      | Some autoclass_name => Return autoclass_name
                      | None =>
                          Throw (Exn (ValueError
                            ("Unrecognized configuration classes "
                             ++ loaders_str (LoaderTuple names)
                             ++ " do not match with the model type " ++ model_type
                             ++ " and task " ++ task ++ ".")))
                      end
                  end
                else
                  Throw (Exn (NotImplementedError
                    "For library other than transformers, the _TASKS_TO_MODEL_LOADER mapping should be one to one."))
            end
        end;
      module_getattr mods library model_class_name
  end.

(** *** Inferring the task from a repository of the Hub *)

(** [model_info.transformersInfo], a dictionary. *)
Record TransformersInfo : Type := {
  (** [transformers_info.get("pipeline_tag")] *)
  ti_pipeline_tag : option string;
  (** [transformers_info["auto_model"]], when the key is there *)
  ti_auto_model : option string
}.

(** What [huggingface_hub.model_info] returns, as far as it is read. *)
Record ModelInfo : Type := {
  (** [model_info.config["diffusers"]], by the values that [.get] gives for
      ["class_name"] and ["_class_name"] *)
  config_diffusers : outcome (option string * option string);
  (** [getattr(model_info, "pipeline_tag", None)] *)
  pipeline_tag : option string;
  transformersInfo : option TransformersInfo
}.

Record Hub : Type := {
  (** [os.path.isdir(os.path.join(a, b))] *)
  isdir_join : string → string → bool;
  (** [huggingface_hub.model_info(repo_id, revision=revision)] *)
  model_info : string → option string → outcome ModelInfo
}.

(** The truth value of [d.get(key, None)] for a value that is a string. *)
Definition truthy (v : option string) : bool :=
  match v with
  | Some s => negb (String.eqb s "")
  | None => false
  end.

(** The loop over [tasks_to_automodels.items()]: the first task whose
    loader is the class name. A tuple of loaders is equal to no string. *)
Definition task_of_auto_model (tasks_to_automodels : list (string * model_loaders))
    (auto_model_class_name : string) : option string :=
  fst <$> find (fun item : string * model_loaders =>
                  match item.2 with
                  | Loader class_name_for_task =>
                      String.eqb class_name_for_task auto_model_class_name
                  | LoaderTuple _ => false
                  end)
            tasks_to_automodels.

Section infer_task.

Variable env : Env.
Variable hub : Hub.
Variable w : World.
(** [CONFIG_NAME] and [HUGGINGFACE_HUB_CACHE], imported from other
    modules *)
Variables (CONFIG_NAME HUGGINGFACE_HUB_CACHE : string).

(** The branch of [_infer_task_from_model_name_or_path] for the libraries
    other than diffusers and timm. *)
Definition task_of_model_info (info : ModelInfo) (library_name : string) : outcome string :=
  let from_tag :=
    match pipeline_tag info with
    | Some tag => if negb (PyStr.mem tag ["conversational"; "object-detection"])
                  then Some tag else None
    | None => None
    end in
  match from_tag with
  | Some tag => Return (map_from_synonym tag)
  | None =>
      let transformers_info := transformersInfo info in
      match transformers_info ≫= ti_pipeline_tag with
      | Some tag => Return (map_from_synonym tag)
      | None =>
          '(tasks_to_automodels, class_name_prefix) ←
            (if is_torch_available env then
               match dict_get (_LIBRARY_TO_TASKS_TO_MODEL_LOADER_MAP env) library_name with
               | Some table => Return (table, "")
               | None => Throw (Exn (KeyError library_name))
               end
             else
               match dict_get (_LIBRARY_TO_TF_TASKS_TO_MODEL_LOADER_MAP env) library_name with
               | Some table => Return (table, "TF")
               | None => Throw (Exn (KeyError library_name))
               end);
          auto_model_class_name ←
            match transformers_info with
            | None => Throw (TypeError "'NoneType' object is not subscriptable")
            | Some transformers_info =>
                match ti_auto_model transformers_info with
                | Some auto_model => Return auto_model
                | None => Throw (Exn (KeyError "auto_model"))
                end
            end;
          let auto_model_class_name :=
            if negb (PyStr.startswith auto_model_class_name "TF")
            then class_name_prefix ++ auto_model_class_name
            else auto_model_class_name in
          match task_of_auto_model tasks_to_automodels auto_model_class_name with
          | Some inferred_task_name => Return inferred_task_name
          | None =>
              Throw (Exn (KeyError
                ("Could not find the proper task name for " ++ auto_model_class_name
                 ++ ".")))
          end
      end
  end.

(** [_infer_task_from_model_name_or_path(model_name_or_path, subfolder,
    revision)]: the calls that [infer_library_from_model] makes, and the
    task or the exception. *)
Definition _infer_task_from_model_name_or_path (model_name_or_path subfolder : string)
    (revision : option string) : list call * outcome string :=
  let is_local := isdir_join hub model_name_or_path subfolder in
  if is_local then
    ([], Throw (Exn (RuntimeError
           ("Cannot infer the task from a local directory yet, please specify the task manually ("
            ++ PyStr.join ", " (get_all_tasks env) ++ ")."))))
  else if negb (String.eqb subfolder "") then
    ([], Throw (Exn (RuntimeError
           "Cannot infer the task from a model repo with a subfolder yet, please specify the task manually.")))
  else
    match model_info hub model_name_or_path revision with
    | Throw e =>
        let offline :=
          match e with
          | Exn e' => Files.is_connection_error e'
          | _ => false
          end in
        if offline then
          ([], Throw (Exn (RuntimeError
                 ("Hugging Face Hub is not reachable and we cannot infer the task from a cached model. Make sure you are not offline, or otherwise please specify the `task` (or `--task` in command-line) argument ("
                  ++ PyStr.join ", " (get_all_tasks env) ++ ")."))))
        else ([], Throw e)
    | Return info =>
        let '(calls, library_name) :=
          infer_library_from_model w CONFIG_NAME model_name_or_path subfolder revision
            HUGGINGFACE_HUB_CACHE None None None in
        match library_name with
        | Raise e => (calls, Throw (Exn e))
        | Ok library_name =>
            (calls,
             if String.eqb library_name "diffusers" then
               '(class_name, _class_name) ← config_diffusers info;
               class_name ←
                 (if truthy class_name then Return (default "" class_name)
                  else if truthy _class_name then Return (default "" _class_name)
                  else
                    Throw (Exn (ValueError
                      ("Could not automatically infer the class name for "
                       ++ model_name_or_path
                       ++ ". Please open an issue at https://github.com/huggingface/optimum/issues."))));
               Return (if PyStr.contains "StableDiffusionXL" class_name
                       then "stable-diffusion-xl" else "stable-diffusion")
             else if String.eqb library_name "timm" then Return "image-classification"
             else task_of_model_info info library_name)
        end
    end.

End infer_task.

(** *** Inferring the task from a model or a model class *)

(** [d[key] = value] on a dictionary given by its items, in the order of
    insertion: a key that is there keeps its place. *)
Definition dict_setitem {V} (d : list (string * V)) (key : string) (value : V)
    : list (string * V) :=
  if existsb (fun item : string * V => String.eqb item.1 key) d
  then map (fun item : string * V => if String.eqb item.1 key then (key, value) else item) d
  else (d ++ [(key, value)])%list.

(** The items of [get_model_loaders_to_tasks(tasks_to_model_loaders)], in
    the order in which the loop over them visits them. *)
Definition model_loaders_to_tasks_items (tasks_to_model_loaders : list (string * model_loaders))
    : list (string * string) :=
  fold_left
    (fun model_loaders_to_tasks '(task, loaders) =>
       match loaders with
       | Loader name => dict_setitem model_loaders_to_tasks name task
       | LoaderTuple names =>
           fold_left (fun d model_loader_name => dict_setitem d model_loader_name task)
             names model_loaders_to_tasks
       end)
    tasks_to_model_loaders [].

(** [getattr(module, name, None)] *)
Definition getattr_or_none (mods : Modules) (module name : string) : outcome (option string) :=
  match module_getattr mods module name with
  | Return object => Return (Some object)
  | Throw (AttributeError _) => Return None
  | Throw e => Throw e
  end.

Definition pt_auto_module : string := "transformers.models.auto.modeling_auto".
Definition tf_auto_module : string := "transformers.models.auto.modeling_tf_auto".

(** The three tests on the name of the class. *)
Definition named_like_auto_class (target_name : string) : bool :=
  PyStr.startswith target_name "Auto"
  || PyStr.startswith target_name "TFAuto"
  || PyStr.contains "StableDiffusion" target_name.

(** The loop over the chained items of the reversed tables. *)
Fixpoint infer_task_loop (mods : Modules) (target_name : string)
    (items : list (string * string)) : outcome (option string) :=
  match items with
  | [] => Return None
  | (auto_cls_name, task) :: rest =>
      if named_like_auto_class target_name then
        if String.eqb target_name auto_cls_name then Return (Some task)
        else infer_task_loop mods target_name rest
      else
        let module :=
          if PyStr.startswith auto_cls_name "TF" then tf_auto_module else pt_auto_module in
        auto_cls ← getattr_or_none mods module auto_cls_name;
        match auto_cls with
        | None => infer_task_loop mods target_name rest
        | Some auto_cls =>
            model_mapping ← model_mapping_values mods auto_cls;
            if PyStr.mem target_name model_mapping then Return (Some task)
            else infer_task_loop mods target_name rest
        end
  end.

(** [_infer_task_from_model_or_model_class(model, model_class)]: a model
    and a class are given by the name of the class; the two reversed
    tables are the class attributes, by their items. *)
Definition _infer_task_from_model_or_model_class (mods : Modules)
    (model_loaders_to_tasks_map tf_model_loaders_to_tasks_map
       : list (string * list (string * string)))
    (model model_class : option string) : outcome string :=
  match model, model_class with
  | Some _, Some _ =>
      Throw (Exn (ValueError
        "Either a model or a model class must be provided, but both were given here."))
  | None, None =>
      Throw (Exn (ValueError
        "Either a model or a model class must be provided, but none were given here."))
  | _, _ =>
      let target_name :=
        match model with
        | Some class_name => class_name
        | None => default "" model_class
        end in
      let iterable :=
        (concat (map snd model_loaders_to_tasks_map)
         ++ concat (map snd tf_model_loaders_to_tasks_map))%list in
      _ ← import_module mods pt_auto_module;
      _ ← import_module mods tf_auto_module;
      task_name ← infer_task_loop mods target_name iterable;
      match task_name with
      | None =>
          Throw (Exn (ValueError ("Could not infer the task name for " ++ target_name ++ ".")))
      | Some task_name => Return task_name
      end
  end.

(** The reversed tables with their items in order. *)
Definition reversed_items (tables : list (string * list (string * model_loaders)))
    : list (string * list (string * string)) :=
  map (fun '(library, table) => (library, model_loaders_to_tasks_items table)) tables.

End TasksManager.

Import TasksManager.

(** * Properties *)

(** Concrete inputs used by the examples below. *)
Module Examples.

Definition env_torch_onnx : Env :=
  {| is_torch_available := true; is_tf_available := false; is_onnx_available := true |}.

Definition import_any (backend config_cls_name : string) : result ConfigCls :=
  Ok {| cls_name := config_cls_name; SUPPORTS_PAST := false |}.

Definition world_of_files (all_files : list string) : World :=
  {| get_model_files := fun _ _ _ _ _ => Ok (all_files, None);
     get_config_dict := fun _ _ _ _ _ => Raise (OSError "no configuration") |}.

(** The entry of ["bert"] in [_SUPPORTED_MODEL_TYPE]. *)
Definition bert_literal : table_literal :=
  [ ("bert",
      ([Task "feature-extraction"; Task "fill-mask"; Task "text-classification";
        Task "multiple-choice"; Task "token-classification"; Task "question-answering"],
       [("onnx", "BertOnnxConfig"); ("tflite", "BertTFLiteConfig")])) ].

(** The registry the class body leaves. *)
Definition registry0 : store :=
  match class_body env_torch_onnx import_any bert_literal with
  | Ok attrs => registry attrs
  | Raise _ => empty_store
  end.

Definition NewConfig : ConfigCls := {| cls_name := "NewConfig"; SUPPORTS_PAST := false |}.
Definition OtherConfig : ConfigCls := {| cls_name := "OtherConfig"; SUPPORTS_PAST := true |}.

(** [@register("My_Model", "text-classification")] for the onnx backend *)
Definition register_My_Model : store * result ConfigCls :=
  create_register env_torch_onnx "onnx" false "My_Model" ["text-classification"] "transformers"
    NewConfig registry0.

(** [@register("my-model", "text-classification")] for the onnx backend *)
Definition register_my_model : store * result ConfigCls :=
  create_register env_torch_onnx "onnx" false "my-model" ["text-classification"] "transformers"
    NewConfig registry0.

(** [@register("foo", "image-classification", library_name="timm")] for the
    tflite backend *)
Definition register_timm_foo : store * result ConfigCls :=
  create_register env_torch_onnx "tflite" false "foo" ["image-classification"] "timm"
    NewConfig registry0.

(** [supported_tasks_mapping("fill-mask", ("multiple-choice", ("onnx",)),
    onnx="BertOnnxConfig", tflite="BertTFLiteConfig")] *)
Definition two_tasks : list task_spec :=
  [Task "fill-mask"; TaskFor "multiple-choice" ["onnx"]].

Definition two_exporters : list (string * string) :=
  [("onnx", "BertOnnxConfig"); ("tflite", "BertTFLiteConfig")].

Definition two_tasks_mapping : gmap string (gmap string callable) :=
  match supported_tasks_mapping env_torch_onnx import_any two_tasks two_exporters with
  | Ok mapping => mapping
  | Raise _ => ∅
  end.

(** A machine without network: the model is no local directory, and it is
    in the cache or not. *)
Definition offline_sources (cached : bool) : Files.Sources :=
  {| Files.is_dir := fun path =>
       cached && bool_decide (path = ["cache"; "models--org--model"]);
     Files.is_file := fun _ => false;
     Files.walk := fun _ => ["config.json"];
     Files.read := fun _ => "";
     Files.list_repo_files := fun _ _ _ => Raise (OfflineModeIsEnabled "offline") |}.

(** A repository of the Hub with these files. *)
Definition hub_sources (listed : list string) : Files.Sources :=
  {| Files.is_dir := fun _ => false;
     Files.is_file := fun _ => false;
     Files.walk := fun _ => [];
     Files.read := fun _ => "";
     Files.list_repo_files := fun _ _ _ => Ok listed |}.

Definition no_config_dict (model_name_or_path subfolder : string) (revision : option string)
    (cache_dir : string) (token : option pyval) : result ConfigAttributes :=
  Raise (OSError "no configuration").

(** Modules in which every import and every attribute is found; an object
    is named by its attribute name. *)
Definition all_modules : Modules :=
  {| import_module := fun _ => Return tt;
     module_getattr := fun _ name => Return name;
     model_mapping_keys := fun _ => Return [];
     model_mapping_values := fun _ => Return [] |}.

(** A repository of the Hub with this pipeline tag and no other metadata. *)
Definition hub_with_tag (tag : string) : Hub :=
  {| isdir_join := fun _ _ => false;
     model_info := fun _ _ =>
       Return {| config_diffusers := Throw (Exn (KeyError "diffusers"));
                 pipeline_tag := Some tag;
                 transformersInfo := None |} |}.

(** A registration of a new model type that raises on its second task. *)
Definition register_new_model_bogus : store * result ConfigCls :=
  create_register env_torch_onnx "onnx" false "new-model"
    ["text-classification"; "bogus-task"] "transformers" NewConfig registry0.

End Examples.

(** ** Vocabulary of the statements *)

(** Two stores hold the same registry when the four tables agree and every
    location has the same content. *)
Definition same_registry (st st' : store) : Prop :=
  (∀ lib, supported_model_types st' lib = supported_model_types st lib)
  ∧ (∀ l, mapping_at st' l = mapping_at st l)
  ∧ (∀ l, task_dict_at st' l = task_dict_at st l).

(** The model type as [get_supported_tasks_for_model_type] looks it up. *)
Definition normalized (model_type : string) : string :=
  PyStr.replace (PyStr.lower model_type) "_" "-".

(** The name of a library in [_LIBRARY_TO_SUPPORTED_MODEL_TYPES]. *)
Definition name_of_library (lib : library) : string :=
  match lib with
  | diffusers => "diffusers"
  | sentence_transformers => "sentence_transformers"
  | timm => "timm"
  | transformers => "transformers"
  end.

(** The four library identifiers. *)
Definition library_identifiers : list string :=
  ["diffusers"; "sentence_transformers"; "timm"; "transformers"].

(** The two [get] calls of [decorator]: the store they leave, the mapping
    object and the task dictionary. *)
Definition resolve_objects (backend : string) (lib : library) (model_type : string)
    (st : store) : store * (loc * loc) :=
  let '(st1, mapping) :=
    match supported_model_types st lib !! model_type with
    | Some mapping => (st, mapping)
    | None => ((new_mapping st).1, fresh (dom (mappings st)))
    end in
  let '(st2, mapping_backend) :=
    match mapping_at st1 mapping !! backend with
    | Some mapping_backend => (st1, mapping_backend)
    | None => ((new_task_dict st1).1, fresh (dom (task_dicts st1)))
    end in
  (st2, (mapping, mapping_backend)).

(** The two assignments that end [decorator]. *)
Definition attach (backend : string) (lib : library) (model_type : string)
    (mapping mapping_backend : loc) (st : store) : store :=
  (table_setitem lib model_type mapping
     (mapping_setitem mapping backend mapping_backend st).1).1.

(** The task dictionary the registry reaches for a model type and a
    backend. *)
Definition reaches (st : store) (lib : library) (model_type backend : string) : option loc :=
  mapping ← supported_model_types st lib !! model_type;
  mapping_at st mapping !! backend.

(** The shape of the registry: every reference points to an object of the
    store, no mapping object belongs to two model types and no task
    dictionary to two backends. The class body builds the registry with a
    new dictionary for every entry. *)
Record registry_wf (st : store) : Prop := {
  wf_mapping_live :
    ∀ lib model_type m,
      supported_model_types st lib !! model_type = Some m → is_Some (mappings st !! m);
  wf_task_dict_live :
    ∀ m backend d, mapping_at st m !! backend = Some d → is_Some (task_dicts st !! d);
  wf_mapping_unshared :
    ∀ lib1 model_type1 lib2 model_type2 m,
      supported_model_types st lib1 !! model_type1 = Some m →
      supported_model_types st lib2 !! model_type2 = Some m →
      lib1 = lib2 ∧ model_type1 = model_type2;
  wf_task_dict_unshared :
    ∀ m1 backend1 m2 backend2 d,
      mapping_at st m1 !! backend1 = Some d →
      mapping_at st m2 !! backend2 = Some d →
      m1 = m2 ∧ backend1 = backend2
}.

(** ** Vocabulary of the further properties *)

(** The tables and the mapping objects are kept, no task dictionary is
    removed. *)
Definition grows_task_dicts (st st' : store) : Prop :=
  (∀ lib, supported_model_types st' lib = supported_model_types st lib)
  ∧ mappings st' = mappings st
  ∧ (∀ l, is_Some (task_dicts st !! l) → is_Some (task_dicts st' !! l)).

(** A mapping object that is being filled: it is in the store and no table
    refers to it. *)
Definition pending_mapping (l : loc) (st : store) : Prop :=
  registry_wf st
  ∧ is_Some (mappings st !! l)
  ∧ (∀ lib model_type, supported_model_types st lib !! model_type ≠ Some l).

(** One character of a normalised model type. *)
Definition normalized_ascii (c : ascii) : ascii :=
  let c' := PyStr.lower_ascii c in
  if Ascii.eqb c' "_" then "-"%char else c'.

(** The loader names of a table entry. *)
Definition loader_names (loaders : model_loaders) : list string :=
  match loaders with
  | Loader name => [name]
  | LoaderTuple names => names
  end.

(** The task of an element of [supported_tasks], and whether the element
    is for the backend: a plain name is for every backend, a name with a
    tuple of backends for the backends of the tuple. *)
Definition spec_task (spec : task_spec) : string :=
  match spec with
  | Task task => task
  | TaskFor task _ => task
  end.

Definition spec_for_backend (backend : string) (spec : task_spec) : bool :=
  match spec with
  | Task _ => true
  | TaskFor _ supported_backends_for_task => PyStr.mem backend supported_backends_for_task
  end.

(** The task is among [supported_tasks] for the backend. *)
Definition task_listed_for (backend task : string) (supported_tasks : list task_spec)
    : bool :=
  existsb (fun spec => spec_for_backend backend spec && String.eqb (spec_task spec) task)
    supported_tasks.

(** What a task dictionary holds for a task that is listed. *)
Definition constructor_of (config_cls : ConfigCls) (task : string)
    : option ExportConfigConstructor :=
  match make_backend_config_constructor_for_task config_cls task with
  | Ok constructor => Some constructor
  | Raise _ => None
  end.

(** The directory of the model in the cache. *)
Definition cache_path (cache_dir model_name_or_path : string) : list string :=
  [cache_dir; "models--" ++ PyStr.replace model_name_or_path "/" "--"].

(** The framework is one of the two and is installed. *)
Definition framework_installed (env : Env) (framework : string) : bool :=
  (String.eqb framework "pt" && is_torch_available env)
  || (String.eqb framework "tf" && is_tf_available env).

(** The loader tables of a framework. *)
Definition loader_tables (env : Env) (framework : string)
    : list (string * list (string * model_loaders)) :=
  if String.eqb framework "pt" then _LIBRARY_TO_TASKS_TO_MODEL_LOADER_MAP env
  else _LIBRARY_TO_TF_TASKS_TO_MODEL_LOADER_MAP env.

(** The name a task is looked up by. *)
Definition lookup_task (task : string) : string :=
  map_from_synonym (PyStr.replace task "-with-past" "").

(** The table of a library has an entry for the lookup name of each of its
    tasks, and a tuple of loaders only in the library ["transformers"]. *)
Definition table_closed (library : string) (table : list (string * model_loaders)) : bool :=
  forallb
    (fun item : string * model_loaders =>
       match dict_get table (lookup_task item.1) with
       | Some (Loader _) => true
       | Some (LoaderTuple (_ :: _)) => String.eqb library "transformers"
       | _ => false
       end)
    table.

(** In the table, the first task of every loader is a canonical name: no
    key of the synonym map. *)
Definition table_first_canonical (table : list (string * model_loaders)) : bool :=
  forallb
    (fun item : string * model_loaders =>
       match item.2 with
       | Loader name =>
           match task_of_auto_model table name with
           | Some task => bool_decide (_SYNONYM_TASK_MAP !! task = None)
           | None => true
           end
       | LoaderTuple _ => true
       end)
    table.

(** The task that the reversed tables give for a class name: the one of
    the first library, in the order of the tables, whose reversed table has
    the name. *)
Definition reverse_lookup (tables : list (string * list (string * model_loaders)))
    (name : string) : option string :=
  head (omap (fun '(_, table) => get_model_loaders_to_tasks table !! name) tables).

(** ** The task normaliser *)

Section synonyms.

Lemma synonym_literal_values_not_keys :
  Forall (fun kv : string * string => _SYNONYM_TASK_MAP !! kv.2 = None)
    SYNONYM_TASK_MAP_literal.
Proof.
  refine (bool_decide_unpack
            (Forall (fun kv : string * string => _SYNONYM_TASK_MAP !! kv.2 = None)
               SYNONYM_TASK_MAP_literal) _).
  vm_compute. exact I.
Qed.

Lemma synonym_value_not_key (alias canonical : string) :
  _SYNONYM_TASK_MAP !! alias = Some canonical → _SYNONYM_TASK_MAP !! canonical = None.
Proof.
  intros Hk. apply elem_of_list_to_map_2 in Hk.
  pose proof synonym_literal_values_not_keys as Hall.
  rewrite Forall_forall in Hall. exact (Hall _ Hk).
Qed.

(** C2. [map_from_synonym] is idempotent, and no value of the synonym map
    is one of its keys. *)
Theorem map_from_synonym_idempotent :
  (∀ t : string, map_from_synonym (map_from_synonym t) = map_from_synonym t)
  ∧ map_Forall (fun _ canonical => _SYNONYM_TASK_MAP !! canonical = None) _SYNONYM_TASK_MAP.
Proof.
  split.
  - intros t. unfold map_from_synonym at 2 3.
    destruct (_SYNONYM_TASK_MAP !! t) as [canonical|] eqn:Ht.
    + unfold map_from_synonym. by rewrite (synonym_value_not_key _ _ Ht).
    + unfold map_from_synonym. by rewrite Ht.
  - intros alias canonical. apply synonym_value_not_key.
Qed.

Example map_from_synonym_default :
  map_from_synonym "default" = "feature-extraction"
  ∧ map_from_synonym "feature-extraction" = "feature-extraction".
Proof. apply conj; vm_compute; reflexivity. Qed.

End synonyms.

(** ** The framework inferrer *)

Section framework.

Variables (env : Env) (w : World) (names : WeightNames).

(** The class body only completes when torch is available. *)
Lemma class_body_torch import_config_cls literal :
  is_Ok (class_body env import_config_cls literal) → is_torch_available env = true.
Proof.
  unfold class_body, _SENTENCE_TRANSFORMERS_TASKS_TO_MODEL_LOADERS.
  destruct (is_torch_available env); [done | intros []].
Qed.

(** C8. An explicit [framework] is returned as it is: no call to the file
    lister is made and the string is not validated. *)
Theorem determine_framework_explicit
    (model_name_or_path subfolder framework cache_dir : string) :
  determine_framework env w names model_name_or_path subfolder (Some framework) cache_dir
  = ([], Ok framework).
Proof. reflexivity. Qed.

(** A string that is neither ["pt"] nor ["tf"] comes back the same way. *)
Example determine_framework_jax :
  determine_framework env w names "org/model" "" (Some "jax") "cache" = ([], Ok "jax").
Proof. reflexivity. Qed.

Lemma existsb_id_map {A} (f : A → bool) (l : list A) (x : A) :
  x ∈ l → f x = true → existsb id (map f l) = true.
Proof.
  intros Hin Hf. apply existsb_exists. exists true. split; [|done].
  apply in_map_iff. exists x. split; [done|]. by apply list_elem_of_In.
Qed.

(** With PyTorch or TensorFlow installed, a file list with a PyTorch
    weight file gives ["pt"], whatever else it holds: the chain over the
    files answers ["pt"], and the test of the environment keeps it. *)
Lemma determine_framework_pt_weights
    (model_name_or_path subfolder cache_dir : string)
    (all_files : list string) (request_exception : option exn) (file : string) :
  is_torch_available env = true ∨ is_tf_available env = true →
  get_model_files w model_name_or_path subfolder cache_dir None None
    = Ok (all_files, request_exception) →
  file ∈ all_files → is_pt_weight_file names file = true →
  framework_of_files names all_files request_exception = Ok "pt"
  ∧ determine_framework env w names model_name_or_path subfolder None cache_dir
    = ([call_get_model_files model_name_or_path subfolder cache_dir None None], Ok "pt").
Proof.
  intros Henv Hfiles Hin Hpt.
  assert (framework_of_files names all_files request_exception = Ok "pt") as Hchain.
  { unfold framework_of_files. by rewrite (existsb_id_map _ _ _ Hin Hpt). }
  split; [exact Hchain|].
  unfold determine_framework, ext_get_model_files. rewrite Hfiles.
  cbn [mbind Ext_bind]. rewrite Hchain. cbn [ext_lift mbind Ext_bind].
  destruct (is_torch_available env); [reflexivity|].
  destruct (is_tf_available env); [reflexivity|].
  by destruct Henv.
Qed.

(** C9. When the file list has a PyTorch weight file and a TensorFlow
    weight file, the PyTorch test comes first: the chain over the files
    answers ["pt"], and [determine_framework] returns ["pt"] in every
    environment with PyTorch or TensorFlow installed, one with TensorFlow
    only included. The TensorFlow test is the second of the chain: the same
    TensorFlow file, in a list without a PyTorch weight file, gives
    ["tf"]. *)
Theorem determine_framework_pt_before_tf
    (model_name_or_path subfolder cache_dir : string)
    (all_files : list string) (request_exception : option exn) (pt_file tf_file : string) :
  is_torch_available env = true ∨ is_tf_available env = true →
  get_model_files w model_name_or_path subfolder cache_dir None None
    = Ok (all_files, request_exception) →
  pt_file ∈ all_files → is_pt_weight_file names pt_file = true →
  tf_file ∈ all_files → is_tf_weight_file names tf_file = true →
  framework_of_files names all_files request_exception = Ok "pt"
  ∧ determine_framework env w names model_name_or_path subfolder None cache_dir
    = ([call_get_model_files model_name_or_path subfolder cache_dir None None], Ok "pt")
  ∧ ∀ other_files : list string,
      existsb id (map (is_pt_weight_file names) other_files) = false →
      tf_file ∈ other_files →
      framework_of_files names other_files request_exception = Ok "tf".
Proof.
  intros Henv Hfiles Hpt_in Hpt Htf_in Htf.
  destruct (determine_framework_pt_weights _ _ _ _ _ _ Henv Hfiles Hpt_in Hpt)
    as [Hchain Hresult].
  split; [exact Hchain|]. split; [exact Hresult|].
  intros other_files Hno_pt Hin. unfold framework_of_files.
  by rewrite Hno_pt, (existsb_id_map _ _ _ Hin Htf).
Qed.

End framework.

(** The file names of the claim match the patterns. *)
Example weight_file_patterns :
  is_pt_weight_file transformers_utils "pytorch_model.bin" = true
  ∧ is_pt_weight_file transformers_utils "model.safetensors" = true
  ∧ is_pt_weight_file transformers_utils "pytorch_model-00001-of-00002.bin" = true
  ∧ is_tf_weight_file transformers_utils "tf_model.h5" = true
  ∧ is_pt_weight_file transformers_utils "tf_model.h5" = false
  ∧ is_pt_weight_file transformers_utils "model_index.json" = false
  ∧ is_pt_weight_file transformers_utils "unet/diffusion_pytorch_model.bin" = false.
Proof. repeat split; reflexivity. Qed.

Lemma determine_framework_pt_before_tf_witness :
  framework_of_files transformers_utils ["tf_model.h5"; "pytorch_model.bin"] None = Ok "pt"
  ∧ determine_framework Examples.env_torch_onnx
      (Examples.world_of_files ["tf_model.h5"; "pytorch_model.bin"]) transformers_utils
      "org/model" "" None "cache"
    = ([call_get_model_files "org/model" "" "cache" None None], Ok "pt")
  ∧ ∀ other_files : list string,
      existsb id (map (is_pt_weight_file transformers_utils) other_files) = false →
      "tf_model.h5" ∈ other_files →
      framework_of_files transformers_utils other_files None = Ok "tf".
Proof.
  eapply (determine_framework_pt_before_tf Examples.env_torch_onnx
            (Examples.world_of_files ["tf_model.h5"; "pytorch_model.bin"]) transformers_utils
            "org/model" "" "cache"
            ["tf_model.h5"; "pytorch_model.bin"] None "pytorch_model.bin" "tf_model.h5").
  - left. reflexivity.
  - reflexivity.
  - apply list_elem_of_In. simpl. auto.
  - reflexivity.
  - apply list_elem_of_In. simpl. auto.
  - reflexivity.
Defined.

(** C6. For the file list of a diffusion pipeline, [model_index.json] and a
    [.bin] file under [unet/], no file matches the weight-name patterns and
    the third test of the chain over the files gives ["pt"];
    [determine_framework] returns it in every environment with PyTorch or
    TensorFlow installed, one with TensorFlow only included. Both files are
    needed: the chain raises for the manifest alone and for the [.bin] file
    alone. *)
Theorem determine_framework_diffusion_pipeline
    (env : Env) (w : World)
    (model_name_or_path subfolder cache_dir : string) (request_exception : option exn) :
  is_torch_available env = true ∨ is_tf_available env = true →
  get_model_files w model_name_or_path subfolder cache_dir None None
    = Ok (["model_index.json"; "unet/diffusion_pytorch_model.bin"], request_exception) →
  framework_of_files transformers_utils
    ["model_index.json"; "unet/diffusion_pytorch_model.bin"] request_exception = Ok "pt"
  ∧ determine_framework env w transformers_utils model_name_or_path subfolder None cache_dir
    = ([call_get_model_files model_name_or_path subfolder cache_dir None None], Ok "pt")
  ∧ existsb id (map (is_pt_weight_file transformers_utils)
                  ["model_index.json"; "unet/diffusion_pytorch_model.bin"]) = false
  ∧ existsb id (map (is_tf_weight_file transformers_utils)
                  ["model_index.json"; "unet/diffusion_pytorch_model.bin"]) = false
  ∧ ¬ is_Ok (framework_of_files transformers_utils ["model_index.json"] request_exception)
  ∧ ¬ is_Ok (framework_of_files transformers_utils ["unet/diffusion_pytorch_model.bin"]
               request_exception).
Proof.
  intros Henv Hfiles.
  assert (framework_of_files transformers_utils
            ["model_index.json"; "unet/diffusion_pytorch_model.bin"] request_exception
          = Ok "pt") as Hchain by reflexivity.
  split; [exact Hchain|]. split.
  - unfold determine_framework, ext_get_model_files. rewrite Hfiles.
    cbn [mbind Ext_bind]. rewrite Hchain. cbn [ext_lift mbind Ext_bind].
    destruct (is_torch_available env); [reflexivity|].
    destruct (is_tf_available env); [reflexivity|].
    by destruct Henv.
  - split; [reflexivity|]. split; [reflexivity|].
    split; destruct request_exception; intros [].
Qed.

Lemma determine_framework_diffusion_pipeline_witness :
  framework_of_files transformers_utils
    ["model_index.json"; "unet/diffusion_pytorch_model.bin"] None = Ok "pt"
  ∧ determine_framework Examples.env_torch_onnx
      (Examples.world_of_files ["model_index.json"; "unet/diffusion_pytorch_model.bin"])
      transformers_utils "org/pipeline" "" None "cache"
    = ([call_get_model_files "org/pipeline" "" "cache" None None], Ok "pt")
  ∧ existsb id (map (is_pt_weight_file transformers_utils)
                  ["model_index.json"; "unet/diffusion_pytorch_model.bin"]) = false
  ∧ existsb id (map (is_tf_weight_file transformers_utils)
                  ["model_index.json"; "unet/diffusion_pytorch_model.bin"]) = false
  ∧ ¬ is_Ok (framework_of_files transformers_utils ["model_index.json"] None)
  ∧ ¬ is_Ok (framework_of_files transformers_utils ["unet/diffusion_pytorch_model.bin"] None).
Proof.
  eapply (determine_framework_diffusion_pipeline Examples.env_torch_onnx
            (Examples.world_of_files ["model_index.json"; "unet/diffusion_pytorch_model.bin"])
            "org/pipeline" "" "cache" None).
  - left. reflexivity.
  - reflexivity.
Defined.

(** ** The library inferrer *)

Section library.

Variables (w : World) (CONFIG_NAME : string).

(** When the chain over the file list ends, [library_name] is one of the
    four identifiers; the chain only raises what the configuration loader
    raised. *)
Lemma library_of_files_assigns
    (model_name_or_path subfolder : string) (revision : option string)
    (cache_dir : string) (token : option pyval) (all_files : list string) :
  match library_of_files w CONFIG_NAME model_name_or_path subfolder revision cache_dir
          token all_files with
  | (_, Ok library_name) =>
      ∃ l, library_name = Some l ∧ l ∈ library_identifiers
  | (_, Raise e) =>
      get_config_dict w model_name_or_path subfolder revision cache_dir token = Raise e
  end.
Proof.
  unfold library_of_files, library_identifiers.
  destruct (PyStr.mem "model_index.json" all_files); cbn.
  { eexists; split; [done | set_solver]. }
  destruct (existsb _ all_files || PyStr.mem _ all_files); cbn.
  { eexists; split; [done | set_solver]. }
  destruct (PyStr.mem CONFIG_NAME all_files); cbn.
  2: { eexists; split; [done | set_solver]. }
  unfold ext_get_config_dict.
  destruct (get_config_dict w _ _ _ _ _) as [model_config|e]; cbn; [|done].
  destruct (has_pretrained_cfg model_config || has_architecture model_config); cbn.
  { eexists; split; [done | set_solver]. }
  destruct (has_diffusers_version model_config); cbn;
    eexists; (split; [done | set_solver]).
Qed.

(** C7. The guard that raises "The library name could not be automatically
    inferred" is never taken: for every file list the chain assigns one of
    the four identifiers, the guard returns it, and what
    [infer_library_from_model] raises without a [library_name] was raised
    by the token check, the file lister or the configuration loader. *)
Theorem library_guard_unreachable
    (model_name_or_path subfolder : string) (revision : option string)
    (cache_dir : string) (use_auth_token token : option pyval) (all_files : list string) :
  match library_of_files w CONFIG_NAME model_name_or_path subfolder revision cache_dir
          token all_files with
  | (_, Ok library_name) =>
      ∃ l, library_name = Some l ∧ l ∈ library_identifiers
           ∧ library_guard library_name = ([], Ok l)
  | (_, Raise e) =>
      get_config_dict w model_name_or_path subfolder revision cache_dir token = Raise e
  end
  ∧
  let token' := match use_auth_token with Some _ => use_auth_token | None => token end in
  match infer_library_from_model w CONFIG_NAME model_name_or_path subfolder revision
          cache_dir None use_auth_token token with
  | (_, Ok l) => l ∈ library_identifiers
  | (_, Raise e) =>
      (is_Some use_auth_token ∧ is_Some token)
      ∨ get_model_files w model_name_or_path subfolder cache_dir token' revision = Raise e
      ∨ get_config_dict w model_name_or_path subfolder revision cache_dir token' = Raise e
  end.
Proof.
  split.
  - pose proof (library_of_files_assigns model_name_or_path subfolder revision cache_dir
                  token all_files) as H.
    destruct (library_of_files _ _ _ _ _ _ _ _) as [calls [library_name|e]]; [|done].
    destruct H as (l & -> & Hl). by exists l.
  - unfold infer_library_from_model.
    destruct use_auth_token as [u|], token as [t|]; cbn.
    1: { left. eauto. }
    all: unfold ext_get_model_files;
      match goal with
      | |- context [get_model_files w ?a ?b ?c ?d ?e] =>
          destruct (get_model_files w a b c d e) as [[files request_exception]|e0] eqn:Hfiles
      end; cbn; [|by right; left].
    all: match goal with
      | |- context [library_of_files w CONFIG_NAME ?a ?b ?c ?d ?t ?fs] =>
          pose proof (library_of_files_assigns a b c d t fs) as H;
          destruct (library_of_files w CONFIG_NAME a b c d t fs)
            as [calls [library_name|e0]]
      end; cbn.
    all: try (destruct H as (l & -> & Hl); cbn; exact Hl).
    all: by right; right.
Qed.

End library.

(** ** The registry *)

Lemma same_registry_refl st : same_registry st st.
Proof. done. Qed.

Lemma same_registry_trans st1 st2 st3 :
  same_registry st1 st2 → same_registry st2 st3 → same_registry st1 st3.
Proof.
  intros (H1 & H2 & H3) (H1' & H2' & H3'). repeat split; intros.
  - by rewrite H1', H1.
  - by rewrite H2', H2.
  - by rewrite H3', H3.
Qed.

Lemma same_registry_registered st st' lib model_type backend task :
  same_registry st st' →
  registered st' lib model_type backend task = registered st lib model_type backend task.
Proof.
  intros (H1 & H2 & H3). unfold registered. rewrite H1.
  destruct (supported_model_types st lib !! model_type) as [m|]; cbn; [|done].
  rewrite H2. destruct (mapping_at st m !! backend) as [mb|]; cbn; [|done].
  by rewrite H3.
Qed.

Section store_operations.

Lemma supported_with_heap st m d lib :
  supported_model_types (with_heap st m d) lib = supported_model_types st lib.
Proof. by destruct lib. Qed.

Lemma supported_with_table st lib table lib' :
  supported_model_types (with_table st lib table) lib'
  = if decide (lib' = lib) then table else supported_model_types st lib'.
Proof. by destruct lib, lib'. Qed.

Lemma mapping_at_with_heap st m d l : mapping_at (with_heap st m d) l = default ∅ (m !! l).
Proof. done. Qed.

Lemma task_dict_at_with_heap st m d l :
  task_dict_at (with_heap st m d) l = default ∅ (d !! l).
Proof. done. Qed.

Lemma mapping_at_with_table st lib table l :
  mapping_at (with_table st lib table) l = mapping_at st l.
Proof. done. Qed.

Lemma task_dict_at_with_table st lib table l :
  task_dict_at (with_table st lib table) l = task_dict_at st l.
Proof. done. Qed.

Lemma new_mapping_same st : same_registry st (new_mapping st).1.
Proof.
  split; [|split]; cbn; intros; [apply supported_with_heap| |done].
  unfold mapping_at; cbn.
  destruct (decide (l = fresh (dom (mappings st)))) as [->|Hne].
  - rewrite lookup_insert_eq.
    by rewrite (not_elem_of_dom_1 (mappings st) _ (is_fresh (dom (mappings st)))).
  - by rewrite lookup_insert_ne.
Qed.

Lemma new_mapping_empty st : mapping_at (new_mapping st).1 (fresh (dom (mappings st))) = ∅.
Proof. unfold mapping_at; cbn. by rewrite lookup_insert_eq. Qed.

Lemma new_task_dict_same st : same_registry st (new_task_dict st).1.
Proof.
  split; [|split]; cbn; intros; [apply supported_with_heap|done|].
  unfold task_dict_at; cbn.
  destruct (decide (l = fresh (dom (task_dicts st)))) as [->|Hne].
  - rewrite lookup_insert_eq.
    by rewrite (not_elem_of_dom_1 (task_dicts st) _ (is_fresh (dom (task_dicts st)))).
  - by rewrite lookup_insert_ne.
Qed.

Lemma task_dict_at_setitem st l task c l' :
  task_dict_at (task_dict_setitem l task c st).1 l'
  = if decide (l' = l) then <[task := c]> (task_dict_at st l) else task_dict_at st l'.
Proof.
  unfold task_dict_at at 1; cbn. case_decide as Hl.
  - subst. by rewrite lookup_insert_eq.
  - by rewrite lookup_insert_ne.
Qed.

Lemma mapping_at_setitem st l backend mb l' :
  mapping_at (mapping_setitem l backend mb st).1 l'
  = if decide (l' = l) then <[backend := mb]> (mapping_at st l) else mapping_at st l'.
Proof.
  unfold mapping_at at 1; cbn. case_decide as Hl.
  - subst. by rewrite lookup_insert_eq.
  - by rewrite lookup_insert_ne.
Qed.

End store_operations.

Section register_tasks.

Variable env : Env.
Variables (backend : string) (overwrite_existing : bool).
Variable config_cls : ConfigCls.
Variable mapping_backend : loc.

Local Abbreviation loop :=
  (register_tasks env overwrite_existing config_cls mapping_backend).
Local Abbreviation known task :=
  (PyStr.mem (PyStr.replace task "-with-past" "") (get_all_tasks env) = true).

(** One turn of the loop. *)
Lemma register_tasks_cons task rest st :
  loop (task :: rest) st =
    if negb (PyStr.mem (PyStr.replace task "-with-past" "") (get_all_tasks env))
    then (st, Raise (ValueError
                       (unknown_task_message env (PyStr.replace task "-with-past" ""))))
    else if negb overwrite_existing
            && bool_decide (is_Some (task_dict_at st mapping_backend !! task))
    then loop rest st
    else
      match make_backend_config_constructor_for_task config_cls task with
      | Ok constructor =>
          loop rest (task_dict_setitem mapping_backend task constructor st).1
      | Raise e => (st, Raise e)
      end.
Proof.
  cbn [register_tasks].
  destruct (negb (PyStr.mem _ _)); [done|].
  unfold mbind, Py_bind, py_get, py_lift.
  destruct (negb overwrite_existing && _); [done|].
  by destruct (make_backend_config_constructor_for_task config_cls task).
Qed.

Ltac loop_step IH :=
  rewrite register_tasks_cons;
  destruct (negb (PyStr.mem _ (get_all_tasks env))) eqn:Hknown;
  [ intros [= <- <-]
  | destruct (negb overwrite_existing && bool_decide _) eqn:Hskip;
    [ intros IH
    | lazymatch goal with
      | |- match ?make with _ => _ end = _ → _ =>
          destruct make as [constructor|e] eqn:Hmake
      end;
      [ intros IH | intros [= <- <-] ] ] ].

(** The loop writes to the task dictionary it was given and to nothing
    else. *)
Lemma register_tasks_frame tasks st st' r :
  loop tasks st = (st', r) →
  (∀ lib, supported_model_types st' lib = supported_model_types st lib)
  ∧ mappings st' = mappings st
  ∧ (∀ l, l ≠ mapping_backend → task_dict_at st' l = task_dict_at st l).
Proof.
  revert st. induction tasks as [|task rest IH]; intros st.
  - intros [= <- <-]. done.
  - loop_step Hrest; try done.
    + by apply IH.
    + apply IH in Hrest as (H1 & H2 & H3). repeat split.
      * intros lib. rewrite H1. apply supported_with_heap.
      * by rewrite H2.
      * intros l Hl. rewrite (H3 l Hl), task_dict_at_setitem. by case_decide.
Qed.

(** A task that is not listed keeps its entry. *)
Lemma register_tasks_other tasks st st' r t :
  loop tasks st = (st', r) → t ∉ tasks →
  task_dict_at st' mapping_backend !! t = task_dict_at st mapping_backend !! t.
Proof.
  revert st. induction tasks as [|task rest IH]; intros st.
  - by intros [= <- <-].
  - intros Hloop Hnot. apply not_elem_of_cons in Hnot as [Hne Hnot].
    revert Hloop. loop_step Hrest; try done.
    + by apply IH.
    + rewrite (IH _ Hrest Hnot), task_dict_at_setitem.
      rewrite decide_True by done. by rewrite lookup_insert_ne.
Qed.

(** An entry that holds what the loop would write is kept. *)
Lemma register_tasks_stable tasks st st' r t c :
  loop tasks st = (st', r) →
  task_dict_at st mapping_backend !! t = Some c →
  make_backend_config_constructor_for_task config_cls t = Ok c →
  task_dict_at st' mapping_backend !! t = Some c.
Proof.
  revert st. induction tasks as [|task rest IH]; intros st.
  - by intros [= <- <-].
  - intros Hloop Hc Hmk. revert Hloop. loop_step Hrest; try done.
    + by apply (IH _ Hrest).
    + apply (IH _ Hrest); [|done].
      rewrite task_dict_at_setitem, decide_True by done.
      destruct (decide (task = t)) as [->|Hne].
      * rewrite lookup_insert_eq. congruence.
      * by rewrite lookup_insert_ne.
Qed.

(** Without [overwrite_existing] an entry is never replaced. *)
Lemma register_tasks_keep tasks st st' r t c :
  overwrite_existing = false →
  loop tasks st = (st', r) →
  task_dict_at st mapping_backend !! t = Some c →
  task_dict_at st' mapping_backend !! t = Some c.
Proof.
  intros How. revert st. induction tasks as [|task rest IH]; intros st.
  - by intros [= <- <-].
  - intros Hloop Hc. revert Hloop. loop_step Hrest; try done.
    + by apply (IH _ Hrest).
    + apply (IH _ Hrest).
      rewrite task_dict_at_setitem, decide_True by done.
      destruct (decide (task = t)) as [->|Hne]; [|by rewrite lookup_insert_ne].
      rewrite How in Hskip. cbn in Hskip.
      apply bool_decide_eq_false in Hskip. destruct Hskip. by rewrite Hc.
Qed.

(** When the loop ends, every listed task has an entry; it is the
    constructor of [config_cls] when the loop overwrites or when the task
    had no entry. *)
Lemma register_tasks_registered tasks st st' t :
  loop tasks st = (st', Ok tt) → t ∈ tasks →
  ∃ c, task_dict_at st' mapping_backend !! t = Some c
       ∧ (overwrite_existing = true ∨ task_dict_at st mapping_backend !! t = None →
          make_backend_config_constructor_for_task config_cls t = Ok c).
Proof.
  revert st. induction tasks as [|task rest IH]; intros st.
  - intros _ Hin. by apply elem_of_nil in Hin.
  - intros Hloop Hin. revert Hloop. loop_step Hrest; try done.
    + (* the entry exists and is not overwritten *)
      apply andb_true_iff in Hskip as [How Hsome].
      apply negb_true_iff in How. apply bool_decide_eq_true in Hsome.
      destruct (decide (t = task)) as [->|Hne].
      * destruct Hsome as [c Hc]. exists c. split.
        -- by apply (register_tasks_keep _ _ _ _ _ _ How Hrest).
        -- intros [Htrue|Hnone]; congruence.
      * apply elem_of_cons in Hin as [?|Hin]; [done|]. by apply IH.
    + destruct (decide (t = task)) as [->|Hne].
      * exists constructor. split; [|done].
        apply (register_tasks_stable _ _ _ _ _ _ Hrest); [|done].
        by rewrite task_dict_at_setitem, decide_True, lookup_insert_eq.
      * apply elem_of_cons in Hin as [?|Hin]; [done|].
        destruct (IH _ Hrest Hin) as (c & Hc & Hmk). exists c. split; [done|].
        intros H. apply Hmk. destruct H as [?|Hnone]; [by left|right].
        by rewrite task_dict_at_setitem, decide_True, lookup_insert_ne.
Qed.

(** The tasks of a loop that ended are known. *)
Lemma register_tasks_known tasks st st' t :
  loop tasks st = (st', Ok tt) → t ∈ tasks → known t.
Proof.
  revert st. induction tasks as [|task rest IH]; intros st.
  - intros _ Hin. by apply elem_of_nil in Hin.
  - intros Hloop Hin. apply negb_false_iff.
    revert Hloop. loop_step Hrest; try done.
    all: apply elem_of_cons in Hin as [->|Hin]; [done|];
      apply negb_false_iff; by eapply IH.
Qed.

(** The loop over a concatenation. *)
Lemma register_tasks_app tasks1 tasks2 st :
  loop (tasks1 ++ tasks2) st =
    match loop tasks1 st with
    | (st1, Ok _) => loop tasks2 st1
    | (st1, Raise e) => (st1, Raise e)
    end.
Proof.
  revert st. induction tasks1 as [|task rest IH]; intros st; [done|].
  rewrite <- app_comm_cons, !register_tasks_cons.
  destruct (negb (PyStr.mem _ _)); [done|].
  destruct (negb overwrite_existing && _); [apply IH|].
  destruct (make_backend_config_constructor_for_task config_cls task); [apply IH|done].
Qed.

(** The loop ends when every task is known and has a constructor. *)
Lemma register_tasks_ends tasks st :
  (∀ t, t ∈ tasks →
        known t ∧ is_Ok (make_backend_config_constructor_for_task config_cls t)) →
  ∃ st', loop tasks st = (st', Ok tt).
Proof.
  revert st. induction tasks as [|task rest IH]; intros st Hall.
  - by exists st.
  - destruct (Hall task) as [Hk Hmk]; [by left|].
    rewrite register_tasks_cons, Hk. cbn [negb].
    assert (∀ t, t ∈ rest → known t
              ∧ is_Ok (make_backend_config_constructor_for_task config_cls t)) as Hrest.
    { intros t Ht. apply Hall. by right. }
    destruct (negb overwrite_existing && _); [by apply IH|].
    destruct (make_backend_config_constructor_for_task config_cls task); [|done].
    by apply IH.
Qed.

End register_tasks.

Section decorator.

Variable env : Env.
Variable backend : string.

Lemma decorator_unfold overwrite_existing model_type supported_tasks library_name
    config_cls st :
  decorator env backend overwrite_existing model_type supported_tasks library_name
    config_cls st =
    match library_of_name library_name with
    | None => (st, Raise (KeyError library_name))
    | Some lib =>
        let '(st2, (mapping, mapping_backend)) := resolve_objects backend lib model_type st in
        match register_tasks env overwrite_existing config_cls mapping_backend
                supported_tasks st2 with
        | (st3, Ok _) => (attach backend lib model_type mapping mapping_backend st3, Ok config_cls)
        | (st3, Raise e) => (st3, Raise e)
        end
    end.
Proof.
  unfold decorator, resolve_objects, attach, _LIBRARY_TO_SUPPORTED_MODEL_TYPES.
  unfold mbind, Py_bind, py_get, py_lift, mret, Py_ret.
  destruct (library_of_name library_name) as [lib|]; [|done].
  destruct (supported_model_types st lib !! model_type) as [mapping|]; cbn.
  - destruct (mapping_at st mapping !! backend) as [mapping_backend|]; cbn.
    + by destruct (register_tasks _ _ _ _ _ _) as [st3 [[]|e]].
    + by destruct (register_tasks _ _ _ _ _ _) as [st3 [[]|e]].
  - destruct (mapping_at _ _ !! backend) as [mapping_backend|]; cbn.
    + by destruct (register_tasks _ _ _ _ _ _) as [st3 [[]|e]].
    + by destruct (register_tasks _ _ _ _ _ _) as [st3 [[]|e]].
Qed.

(** The two [get] calls leave the registry as it was, and the task
    dictionary they reach holds what the registry has for the model type
    and the backend. *)
Lemma resolve_objects_spec lib model_type st st2 mapping mapping_backend :
  resolve_objects backend lib model_type st = (st2, (mapping, mapping_backend)) →
  same_registry st st2
  ∧ (∀ task, task_dict_at st2 mapping_backend !! task
             = registered st lib model_type backend task).
Proof.
  unfold resolve_objects, registered.
  destruct (supported_model_types st lib !! model_type) as [m|] eqn:Hm;
    cbn [mbind option_bind].
  - destruct (mapping_at st m !! backend) as [mb|] eqn:Hmb; cbn [mbind option_bind].
    + intros [= <- <- <-]. split; [apply same_registry_refl | done].
    + intros [= <- <- <-]. split; [apply new_task_dict_same|].
      intros task. unfold task_dict_at; cbn. by rewrite lookup_insert_eq.
  - rewrite new_mapping_empty, lookup_empty. intros [= <- <- <-]. split.
    + eapply same_registry_trans; [apply new_mapping_same | apply new_task_dict_same].
    + intros task. unfold task_dict_at; cbn. by rewrite lookup_insert_eq.
Qed.

(** When the model type and the backend have an entry, the two [get] calls
    return its objects and allocate nothing. *)
Lemma resolve_objects_existing lib model_type st mapping mapping_backend :
  supported_model_types st lib !! model_type = Some mapping →
  mapping_at st mapping !! backend = Some mapping_backend →
  resolve_objects backend lib model_type st = (st, (mapping, mapping_backend)).
Proof. unfold resolve_objects. by intros -> ->. Qed.

(** After the two assignments the registry reaches the task dictionary. *)
Lemma attach_registered lib model_type mapping mapping_backend st task :
  registered (attach backend lib model_type mapping mapping_backend st) lib model_type backend task
  = task_dict_at st mapping_backend !! task.
Proof.
  unfold registered, attach, table_setitem, mapping_setitem. cbn [fst].
  rewrite supported_with_table, decide_True, lookup_insert_eq by done.
  cbn [mbind option_bind].
  rewrite mapping_at_with_table, mapping_at_with_heap, lookup_insert_eq.
  cbn [default from_option id]. rewrite lookup_insert_eq. cbn [mbind option_bind].
  by rewrite task_dict_at_with_table, task_dict_at_with_heap.
Qed.

End decorator.

(** ** Reading the registry *)

Section readers.

Variable st : store.
Variables (library_name : string) (lib : library).
Hypothesis Hlib : library_of_name library_name = Some lib.

Lemma supported_model_type_for_library :
  supported_model_type_for st (Some library_name)
  = Ok (library_name, supported_model_types st lib).
Proof.
  unfold supported_model_type_for, _LIBRARY_TO_SUPPORTED_MODEL_TYPES. by rewrite Hlib.
Qed.

(** The model type is in the table under its normalised name. *)
Lemma get_supported_tasks_found model_type exporter model_name mapping mapping_backend :
  supported_model_types st lib !! normalized model_type = Some mapping →
  mapping_at st mapping !! exporter = Some mapping_backend →
  get_supported_tasks_for_model_type st model_type exporter model_name (Some library_name)
  = Ok (task_dict_at st mapping_backend).
Proof.
  intros Hm Hmb. unfold get_supported_tasks_for_model_type.
  rewrite supported_model_type_for_library. cbn [mbind result_bind].
  fold (normalized model_type). rewrite Hm.
  rewrite bool_decide_eq_true_2 by eauto. cbn [mbind result_bind].
  rewrite Hm. cbn [mbind result_bind]. by rewrite Hmb.
Qed.

(** The normalised name is not in the table and the library has a default
    model type. *)
Lemma get_supported_tasks_default model_type exporter model_name default mapping
    mapping_backend :
  supported_model_types st lib !! normalized model_type = None →
  _MODEL_TYPE_FOR_DEFAULT_CONFIG library_name = Some default →
  supported_model_types st lib !! default = Some mapping →
  mapping_at st mapping !! exporter = Some mapping_backend →
  get_supported_tasks_for_model_type st model_type exporter model_name (Some library_name)
  = Ok (task_dict_at st mapping_backend).
Proof.
  intros Hnone Hdefault Hm Hmb. unfold get_supported_tasks_for_model_type.
  rewrite supported_model_type_for_library. cbn [mbind result_bind].
  fold (normalized model_type). rewrite Hnone.
  rewrite bool_decide_eq_false_2 by (by intros [? ?]).
  rewrite Hdefault. cbn [mbind result_bind]. rewrite Hm. cbn [mbind result_bind].
  by rewrite Hmb.
Qed.

(** [get_exporter_config_constructor] for a model type and a library,
    once the task dictionary of the model type is known and has the task:
    the constructor is read from the entry of the model type, or from the
    entry of the default model type when the table does not have the model
    type as it was given. *)
Lemma get_exporter_config_constructor_reads exporter task model_type model_name
    model_tasks looked_up mapping mapping_backend c :
  get_supported_tasks_for_model_type st model_type exporter model_name (Some library_name)
    = Ok model_tasks →
  is_Some (model_tasks !! task) →
  (if bool_decide (is_Some (supported_model_types st lib !! model_type))
   then looked_up = model_type
   else _MODEL_TYPE_FOR_DEFAULT_CONFIG library_name = Some looked_up) →
  supported_model_types st lib !! looked_up = Some mapping →
  mapping_at st mapping !! exporter = Some mapping_backend →
  task_dict_at st mapping_backend !! task = Some c →
  get_exporter_config_constructor st exporter None task (Some model_type) model_name None
    (Some library_name) = Ok c.
Proof.
  intros Htasks Htask Hlooked Hm Hmb Hc. unfold get_exporter_config_constructor.
  rewrite supported_model_type_for_library. cbn [mbind result_bind].
  rewrite Htasks. cbn [mbind result_bind].
  rewrite (bool_decide_eq_true_2 _ Htask). cbn [mbind result_bind].
  destruct (bool_decide (is_Some (supported_model_types st lib !! model_type))).
  - subst looked_up. cbn [mbind result_bind]. rewrite Hm. cbn [mbind result_bind].
    rewrite Hmb. cbn [mbind result_bind]. by rewrite Hc.
  - rewrite Hlooked. cbn [mbind result_bind]. rewrite Hm. cbn [mbind result_bind].
    rewrite Hmb. cbn [mbind result_bind]. by rewrite Hc.
Qed.

(** An entry under a model type that is its own normalised name is found. *)
Lemma get_exporter_config_constructor_registered exporter task model_type model_name c :
  normalized model_type = model_type →
  registered st lib model_type exporter task = Some c →
  get_exporter_config_constructor st exporter None task (Some model_type) model_name None
    (Some library_name) = Ok c.
Proof.
  intros Hnorm Hreg. unfold registered in Hreg.
  destruct (supported_model_types st lib !! model_type) as [m|] eqn:Hm; [|done].
  cbn in Hreg.
  destruct (mapping_at st m !! exporter) as [mb|] eqn:Hmb; [|done]. cbn in Hreg.
  eapply (get_exporter_config_constructor_reads _ _ _ _ _ model_type).
  - eapply get_supported_tasks_found; [by rewrite Hnorm | done].
  - eauto.
  - rewrite Hm. by rewrite bool_decide_eq_true_2 by eauto.
  - done.
  - done.
  - done.
Qed.

End readers.

(** ** Registration *)

Section registration.

Variable env : Env.

Local Abbreviation known task :=
  (PyStr.mem (PyStr.replace task "-with-past" "") (get_all_tasks env) = true).

(** A call of the decorator that returns went through its three parts. *)
Lemma decorator_returns_inv backend overwrite_existing model_type supported_tasks
    library_name config_cls st st' config_cls' :
  decorator env backend overwrite_existing model_type supported_tasks library_name
    config_cls st = (st', Ok config_cls') →
  ∃ lib st2 mapping mapping_backend st3,
    library_of_name library_name = Some lib
    ∧ resolve_objects backend lib model_type st = (st2, (mapping, mapping_backend))
    ∧ register_tasks env overwrite_existing config_cls mapping_backend supported_tasks st2
      = (st3, Ok tt)
    ∧ st' = attach backend lib model_type mapping mapping_backend st3
    ∧ config_cls' = config_cls.
Proof.
  rewrite decorator_unfold.
  destruct (library_of_name library_name) as [lib|]; [|done].
  destruct (resolve_objects backend lib model_type st) as [st2 [m mb]] eqn:Hres.
  destruct (register_tasks _ _ _ _ _ _) as [st3 [[]|e]] eqn:Hloop; [|done].
  intros [= <- <-]. by exists lib, st2, m, mb, st3.
Qed.

(** After a call that returned, every listed task has a constructor in the
    registry: the one of the decorated class when the call overwrites or
    the task had none, the one it had before otherwise. *)
Lemma decorator_registered backend overwrite_existing model_type supported_tasks
    library_name lib config_cls st st' config_cls' task :
  decorator env backend overwrite_existing model_type supported_tasks library_name
    config_cls st = (st', Ok config_cls') →
  library_of_name library_name = Some lib →
  task ∈ supported_tasks →
  ∃ c : callable,
    registered st' lib model_type backend task = Some c
    ∧ (overwrite_existing = true ∨ registered st lib model_type backend task = None →
       make_backend_config_constructor_for_task config_cls task = Ok c)
    ∧ (overwrite_existing = false →
       ∀ c0, registered st lib model_type backend task = Some c0 → c = c0)
    ∧ known task.
Proof.
  intros Hdec Hlib Hin.
  apply decorator_returns_inv in Hdec
    as (lib' & st2 & m & mb & st3 & Hlib' & Hres & Hloop & -> & _).
  assert (lib' = lib) as -> by congruence.
  apply resolve_objects_spec in Hres as [_ Hentry].
  destruct (register_tasks_registered _ _ _ _ _ _ _ _ Hloop Hin) as (c & Hc & Hmk).
  exists c. rewrite attach_registered. repeat split.
  - done.
  - intros H. apply Hmk. by rewrite Hentry.
  - intros How c0 Hc0. rewrite <- Hentry in Hc0.
    pose proof (register_tasks_keep _ _ _ _ _ _ _ _ _ _ How Hloop Hc0). congruence.
  - by eapply register_tasks_known.
Qed.

(** The decorator returns when the library is one of the four and every
    task is known and has a constructor. *)
Lemma decorator_returns backend overwrite_existing model_type supported_tasks
    library_name lib config_cls st :
  library_of_name library_name = Some lib →
  (∀ t, t ∈ supported_tasks →
        known t ∧ is_Ok (make_backend_config_constructor_for_task config_cls t)) →
  ∃ st', decorator env backend overwrite_existing model_type supported_tasks library_name
           config_cls st = (st', Ok config_cls).
Proof.
  intros Hlib Hall. rewrite decorator_unfold, Hlib.
  destruct (resolve_objects backend lib model_type st) as [st2 [m mb]].
  destruct (register_tasks_ends env overwrite_existing config_cls mb supported_tasks st2 Hall)
    as [st3 ->].
  eauto.
Qed.

(** C1, as amended. A model type that is its own normalised name (lower
    case, no underscore): after a registration that returned,
    [get_exporter_config_constructor] returns the constructor the registry
    holds for each of the listed tasks. *)
Theorem registered_constructor_is_found backend overwrite_existing model_type
    supported_tasks library_name config_cls st st' task model_name :
  create_register env backend overwrite_existing model_type supported_tasks library_name
    config_cls st = (st', Ok config_cls) →
  task ∈ supported_tasks →
  normalized model_type = model_type →
  ∃ (lib : library) (c : callable),
    library_of_name library_name = Some lib
    ∧ registered st' lib model_type backend task = Some c
    ∧ get_exporter_config_constructor st' backend None task (Some model_type) model_name
        None (Some library_name) = Ok c.
Proof.
  unfold create_register, wrapper. intros Hdec Hin Hnorm.
  destruct (decorator_returns_inv _ _ _ _ _ _ _ _ _ Hdec) as (lib & _ & _ & _ & _ & Hlib & _).
  destruct (decorator_registered _ _ _ _ _ _ _ _ _ _ _ Hdec Hlib Hin) as (c & Hc & _).
  exists lib, c. repeat split; [done..|].
  by eapply get_exporter_config_constructor_registered.
Qed.

(** C3. One triple registered twice. After a first registration that
    returned, the registry holds a constructor [c] for the triple (the one
    of the first class when the triple was new or the first call
    overwrites). A second registration without [overwrite_existing]
    returns and leaves [c]; with [overwrite_existing] it returns and leaves
    the constructor of the second class. *)
Theorem register_twice backend overwrite_first model_type task library_name
    config_cls1 config_cls2 st st1 :
  create_register env backend overwrite_first model_type [task] library_name config_cls1 st
    = (st1, Ok config_cls1) →
  ∃ (lib : library) (c : callable),
    library_of_name library_name = Some lib
    ∧ registered st1 lib model_type backend task = Some c
    ∧ (overwrite_first = true ∨ registered st lib model_type backend task = None →
       make_backend_config_constructor_for_task config_cls1 task = Ok c)
    ∧ (∃ st2,
         create_register env backend false model_type [task] library_name config_cls2 st1
           = (st2, Ok config_cls2)
         ∧ registered st2 lib model_type backend task = Some c)
    ∧ (∀ c2 : callable,
         make_backend_config_constructor_for_task config_cls2 task = Ok c2 →
         ∃ st2,
           create_register env backend true model_type [task] library_name config_cls2 st1
             = (st2, Ok config_cls2)
           ∧ registered st2 lib model_type backend task = Some c2).
Proof.
  unfold create_register, wrapper. intros Hdec.
  destruct (decorator_returns_inv _ _ _ _ _ _ _ _ _ Hdec) as (lib & _ & _ & _ & _ & Hlib & _).
  assert (task ∈ [task]) as Hin by by left.
  destruct (decorator_registered _ _ _ _ _ _ _ _ _ _ _ Hdec Hlib Hin)
    as (c & Hc & Hfirst & _ & Hknown).
  exists lib, c. split; [done|]. split; [done|]. split; [done|]. split.
  - (* the second call skips the task *)
    rewrite decorator_unfold, Hlib.
    destruct (resolve_objects backend lib model_type st1) as [st2 [m mb]] eqn:Hres.
    apply resolve_objects_spec in Hres as [_ Hentry].
    rewrite register_tasks_cons, Hknown, Hentry, Hc. cbn [negb andb].
    rewrite bool_decide_eq_true_2 by eauto. cbn [register_tasks].
    eexists. split; [reflexivity|]. by rewrite attach_registered, Hentry.
  - (* the second call writes the constructor of the second class *)
    intros c2 Hc2.
    destruct (decorator_returns backend true model_type [task] library_name lib
                config_cls2 st1 Hlib) as [st2 Hdec2].
    { intros t Ht. apply list_elem_of_singleton in Ht as ->. by rewrite Hc2. }
    exists st2. split; [done|].
    destruct (decorator_registered _ _ _ _ _ _ _ _ _ _ _ Hdec2 Hlib Hin)
      as (c' & Hc' & Hsecond & _).
    rewrite Hc'. f_equal. specialize (Hsecond (or_introl eq_refl)). congruence.
Qed.

End registration.

(** ** Failed registrations *)

Lemma library_of_name_of_library lib : library_of_name (name_of_library lib) = Some lib.
Proof. by destruct lib. Qed.

Lemma bogus_task_unknown env : PyStr.mem "bogus-task" (get_all_tasks env) = false.
Proof. destruct env as [[] [] onnx]; vm_compute; reflexivity. Qed.

Section failed_registration.

Variable env : Env.
Variables (backend : string) (overwrite_existing : bool).

(** C4. Registering the one task ["bogus-task"] raises a [ValueError]
    whose message lists the known tasks, and the registry is what it was:
    the four tables and the content of every object are unchanged. *)
Theorem register_bogus_task (model_type : string) (lib : library) (config_cls : ConfigCls)
    (st : store) :
  ∃ st',
    create_register env backend overwrite_existing model_type ["bogus-task"]
      (name_of_library lib) config_cls st
    = (st',
       Raise (ValueError
                ("The TasksManager does not know the task called " ++ PyStr.dquote
                 ++ "bogus-task" ++ PyStr.dquote ++ ", known tasks: "
                 ++ PyStr.join ", " (get_all_tasks env) ++ ".")))
    ∧ same_registry st st'
    ∧ ∀ task, registered st' lib model_type backend task
              = registered st lib model_type backend task.
Proof.
  unfold create_register, wrapper.
  rewrite decorator_unfold, library_of_name_of_library.
  destruct (resolve_objects backend lib model_type st) as [st2 [m mb]] eqn:Hres.
  apply resolve_objects_spec in Hres as [Hsame _].
  rewrite register_tasks_cons.
  change (PyStr.replace "bogus-task" "-with-past" "") with "bogus-task".
  rewrite bogus_task_unknown. cbn [negb].
  exists st2. split; [reflexivity|]. split; [done|].
  intros task. by apply same_registry_registered.
Qed.

(** C10. The model type has an entry for the backend. The listed tasks
    are known tasks with a constructor, then an unknown task: the call
    raises for the unknown task, and a task listed before it that had no
    constructor has one in the registry after the call. *)
Theorem registration_not_atomic (model_type library_name : string) (lib : library)
    (config_cls : ConfigCls) (valid_tasks : list string) (unknown_task : string)
    (other_tasks : list string) (st : store) (mapping mapping_backend : loc)
    (task : string) :
  library_of_name library_name = Some lib →
  supported_model_types st lib !! model_type = Some mapping →
  mapping_at st mapping !! backend = Some mapping_backend →
  (∀ t, t ∈ valid_tasks →
        PyStr.mem (PyStr.replace t "-with-past" "") (get_all_tasks env) = true
        ∧ is_Ok (make_backend_config_constructor_for_task config_cls t)) →
  PyStr.mem (PyStr.replace unknown_task "-with-past" "") (get_all_tasks env) = false →
  task ∈ valid_tasks →
  registered st lib model_type backend task = None →
  ∃ (st' : store) (c : callable),
    create_register env backend overwrite_existing model_type
      (valid_tasks ++ unknown_task :: other_tasks) library_name config_cls st
    = (st',
       Raise (ValueError
                (unknown_task_message env (PyStr.replace unknown_task "-with-past" ""))))
    ∧ make_backend_config_constructor_for_task config_cls task = Ok c
    ∧ registered st' lib model_type backend task = Some c.
Proof.
  intros Hlib Hm Hmb Hvalid Hunknown Hin Hnew. unfold create_register, wrapper.
  rewrite decorator_unfold, Hlib.
  rewrite (resolve_objects_existing backend lib model_type st _ _ Hm Hmb).
  rewrite register_tasks_app.
  destruct (register_tasks_ends env overwrite_existing config_cls mapping_backend
              valid_tasks st Hvalid) as [st1 Hloop].
  rewrite Hloop, register_tasks_cons, Hunknown. cbn [negb].
  destruct (register_tasks_registered _ _ _ _ _ _ _ _ Hloop Hin) as (c & Hc & Hmk).
  destruct (register_tasks_frame _ _ _ _ _ _ _ _ Hloop) as (Htables & Hmappings & _).
  exists st1, c. split; [done|]. split.
  - apply Hmk. right. unfold registered in Hnew. rewrite Hm in Hnew. cbn in Hnew.
    by rewrite Hmb in Hnew.
  - unfold registered. rewrite Htables, Hm. cbn [mbind option_bind].
    unfold mapping_at. rewrite Hmappings. fold (mapping_at st mapping).
    by rewrite Hmb.
Qed.

End failed_registration.

(** ** The default model type *)

(** C5, as amended. In the timm library, for a model type that the table
    does not have, and whose normalised name the table does not have either
    or has with a constructor for the exporter and the task (the default
    model type is such a name): when the entry of ["default-timm-config"]
    has a constructor for the exporter and the task,
    [get_exporter_config_constructor] returns it. *)
Theorem default_model_type_fallback (st : store) (model_type exporter task : string)
    (model_name : option string) (c : callable) :
  supported_model_types st timm !! model_type = None →
  supported_model_types st timm !! normalized model_type = None
  ∨ is_Some (registered st timm (normalized model_type) exporter task) →
  registered st timm "default-timm-config" exporter task = Some c →
  get_exporter_config_constructor st exporter None task (Some model_type) model_name None
    (Some "timm") = Ok c.
Proof.
  intros Habsent Hnorm Hreg.
  assert (∃ model_tasks,
            get_supported_tasks_for_model_type st model_type exporter model_name (Some "timm")
            = Ok model_tasks ∧ is_Some (model_tasks !! task)) as (model_tasks & Htasks & Htask).
  { destruct Hnorm as [Hnone|[c' Hc']].
    - unfold registered in Hreg.
      destruct (supported_model_types st timm !! "default-timm-config") as [m|] eqn:Hm;
        [|done].
      cbn in Hreg. destruct (mapping_at st m !! exporter) as [mb|] eqn:Hmb; [|done].
      cbn in Hreg. exists (task_dict_at st mb). split; [|eauto].
      by eapply (get_supported_tasks_default st "timm" timm eq_refl).
    - unfold registered in Hc'.
      destruct (supported_model_types st timm !! normalized model_type) as [m|] eqn:Hm;
        [|done].
      cbn in Hc'. destruct (mapping_at st m !! exporter) as [mb|] eqn:Hmb; [|done].
      cbn in Hc'. exists (task_dict_at st mb). split; [|eauto].
      by eapply (get_supported_tasks_found st "timm" timm eq_refl). }
  unfold registered in Hreg.
  destruct (supported_model_types st timm !! "default-timm-config") as [m|] eqn:Hm; [|done].
  cbn in Hreg. destruct (mapping_at st m !! exporter) as [mb|] eqn:Hmb; [|done].
  cbn in Hreg.
  eapply (get_exporter_config_constructor_reads st "timm" timm eq_refl _ _ _ _ _
            "default-timm-config"); try done.
  rewrite Habsent. by rewrite bool_decide_eq_false_2 by (by intros [? ?]).
Qed.

(** ** The theorems at concrete inputs *)

Section concrete.

Import Examples.

Lemma pair_of_result {A} (x : store * result A) (r : result A) :
  x.2 = r → x = (x.1, r).
Proof. destruct x; cbn; congruence. Qed.

(** C1 as stated fails: ["My_Model"] is registered, and the lookup of
    ["My_Model"] searches ["my-model"]. *)
Lemma registered_constructor_counterexample :
  register_My_Model.2 = Ok NewConfig
  ∧ registered register_My_Model.1 transformers "My_Model" "onnx" "text-classification"
    = Some (partial (Cls NewConfig) [("task", VStr "text-classification")])
  ∧ ∃ msg,
      get_exporter_config_constructor register_My_Model.1 "onnx" None "text-classification"
        (Some "My_Model") None None (Some "transformers")
      = Raise (KeyError msg)
      ∧ PyStr.startswith msg "my-model is not supported yet for transformers." = true.
Proof.
  apply conj; [vm_compute; reflexivity|]. apply conj; [vm_compute; reflexivity|].
  eexists. apply conj; vm_compute; reflexivity.
Qed.

Lemma registered_constructor_is_found_witness :
  ∃ (lib : library) (c : callable),
    library_of_name "transformers" = Some lib
    ∧ registered register_my_model.1 lib "my-model" "onnx" "text-classification" = Some c
    ∧ get_exporter_config_constructor register_my_model.1 "onnx" None "text-classification"
        (Some "my-model") None None (Some "transformers") = Ok c.
Proof.
  apply (registered_constructor_is_found env_torch_onnx "onnx" false "my-model"
           ["text-classification"] "transformers" NewConfig registry0
           register_my_model.1 "text-classification" None).
  - apply (pair_of_result register_my_model). vm_compute. reflexivity.
  - apply list_elem_of_In. simpl. auto.
  - vm_compute. reflexivity.
Defined.

Lemma register_twice_witness :
  ∃ (lib : library) (c : callable),
    library_of_name "transformers" = Some lib
    ∧ registered register_my_model.1 lib "my-model" "onnx" "text-classification" = Some c
    ∧ (false = true
       ∨ registered registry0 lib "my-model" "onnx" "text-classification" = None →
       make_backend_config_constructor_for_task NewConfig "text-classification" = Ok c)
    ∧ (∃ st2,
         create_register env_torch_onnx "onnx" false "my-model" ["text-classification"]
           "transformers" OtherConfig register_my_model.1 = (st2, Ok OtherConfig)
         ∧ registered st2 lib "my-model" "onnx" "text-classification" = Some c)
    ∧ (∀ c2 : callable,
         make_backend_config_constructor_for_task OtherConfig "text-classification" = Ok c2 →
         ∃ st2,
           create_register env_torch_onnx "onnx" true "my-model" ["text-classification"]
             "transformers" OtherConfig register_my_model.1 = (st2, Ok OtherConfig)
           ∧ registered st2 lib "my-model" "onnx" "text-classification" = Some c2).
Proof.
  apply (register_twice env_torch_onnx "onnx" false "my-model" "text-classification"
           "transformers" NewConfig OtherConfig registry0 register_my_model.1).
  apply (pair_of_result register_my_model). vm_compute. reflexivity.
Defined.

Lemma registration_not_atomic_witness :
  ∃ (st' : store) (c : callable),
    create_register env_torch_onnx "onnx" false "bert"
      (["feature-extraction"; "image-classification"] ++ "bogus-task" :: ["fill-mask"])
      "transformers" NewConfig registry0
    = (st',
       Raise (ValueError
                (unknown_task_message env_torch_onnx
                   (PyStr.replace "bogus-task" "-with-past" ""))))
    ∧ make_backend_config_constructor_for_task NewConfig "image-classification" = Ok c
    ∧ registered st' transformers "bert" "onnx" "image-classification" = Some c.
Proof.
  eapply (registration_not_atomic env_torch_onnx "onnx" false "bert" "transformers"
            transformers NewConfig ["feature-extraction"; "image-classification"]
            "bogus-task" ["fill-mask"] registry0).
  - reflexivity.
  - vm_compute. reflexivity.
  - vm_compute. reflexivity.
  - intros t Ht. apply list_elem_of_In in Ht. simpl in Ht.
    destruct Ht as [<-|[<-|[]]]; split; vm_compute; done.
  - vm_compute. reflexivity.
  - apply list_elem_of_In. simpl. auto.
  - vm_compute. reflexivity.
Defined.

(** C5 as stated fails: the timm table has ["foo"], registered for the
    tflite backend, and does not have ["FOO"]; the default entry supports
    the task for onnx; the lookup of ["FOO"] searches ["foo"] and raises. *)
Lemma default_model_type_counterexample :
  register_timm_foo.2 = Ok NewConfig
  ∧ supported_model_types register_timm_foo.1 timm !! "FOO" = None
  ∧ registered register_timm_foo.1 timm "default-timm-config" "onnx" "image-classification"
    = Some (partial (Cls {| cls_name := "TimmDefaultOnnxConfig"; SUPPORTS_PAST := false |})
              [("task", VStr "image-classification")])
  ∧ get_exporter_config_constructor register_timm_foo.1 "onnx" None "image-classification"
      (Some "FOO") None None (Some "timm")
    = Raise (KeyError
        "foo is not supported yet with the onnx backend. Only ['tflite'] are supported. If you want to support onnx please propose a PR or open up an issue.").
Proof. repeat apply conj; vm_compute; reflexivity. Qed.

Lemma default_model_type_fallback_witness :
  get_exporter_config_constructor registry0 "onnx" None "image-classification"
    (Some "resnet50") None None (Some "timm")
  = Ok (partial (Cls {| cls_name := "TimmDefaultOnnxConfig"; SUPPORTS_PAST := false |})
          [("task", VStr "image-classification")]).
Proof.
  apply (default_model_type_fallback registry0 "resnet50" "onnx" "image-classification"
           None).
  - vm_compute. reflexivity.
  - left. vm_compute. reflexivity.
  - vm_compute. reflexivity.
Defined.

(** The scenario of C4 on the registry of the class body. *)
Example register_bogus_task_example :
  (create_register env_torch_onnx "onnx" false "bert" ["bogus-task"] "transformers" NewConfig
     registry0).2
  = Raise (ValueError (unknown_task_message env_torch_onnx "bogus-task"))
  ∧ PyStr.mem "text-classification" (get_all_tasks env_torch_onnx) = true
  ∧ PyStr.contains "known tasks: " (unknown_task_message env_torch_onnx "bogus-task") = true
  ∧ PyStr.contains "text-classification" (unknown_task_message env_torch_onnx "bogus-task")
    = true.
Proof. repeat apply conj; vm_compute; reflexivity. Qed.

End concrete.

(** * Further properties *)

(** ** The shape of the registry is kept by registrations *)

Lemma registered_reaches st lib model_type backend task :
  registered st lib model_type backend task
  = (d ← reaches st lib model_type backend; task_dict_at st d !! task).
Proof.
  unfold registered, reaches.
  by destruct (supported_model_types st lib !! model_type).
Qed.

Lemma registry_wf_empty : registry_wf empty_store.
Proof.
  split.
  - intros [] model_type m; cbn; by rewrite lookup_empty.
  - intros m backend d. unfold mapping_at; cbn. by rewrite !lookup_empty.
  - intros [] model_type1 lib2 model_type2 m; cbn; by rewrite lookup_empty.
  - intros m1 backend1 m2 backend2 d. unfold mapping_at; cbn. by rewrite !lookup_empty.
Qed.

(** The registry is well formed when the tables and the mapping objects are
    those of a well-formed one and no task dictionary was removed. *)
Lemma registry_wf_task_dicts st st' :
  registry_wf st →
  (∀ lib, supported_model_types st' lib = supported_model_types st lib) →
  mappings st' = mappings st →
  (∀ l, is_Some (task_dicts st !! l) → is_Some (task_dicts st' !! l)) →
  registry_wf st'.
Proof.
  intros [W1 W2 W3 W4] Htables Hmappings Hlive.
  assert (∀ l, mapping_at st' l = mapping_at st l) as Hat.
  { intros l. unfold mapping_at. by rewrite Hmappings. }
  split.
  - intros lib model_type m. rewrite Htables, Hmappings. apply W1.
  - intros m backend d. rewrite Hat. intros H. eapply Hlive, W2, H.
  - intros lib1 model_type1 lib2 model_type2 m. rewrite !Htables. apply W3.
  - intros m1 backend1 m2 backend2 d. rewrite !Hat. apply W4.
Qed.

Section register_tasks_live.

Variable env : Env.
Variable overwrite_existing : bool.
Variable config_cls : ConfigCls.
Variable mapping_backend : loc.

(** The loop removes no task dictionary. *)
Lemma register_tasks_live tasks st st' r l :
  register_tasks env overwrite_existing config_cls mapping_backend tasks st = (st', r) →
  is_Some (task_dicts st !! l) → is_Some (task_dicts st' !! l).
Proof.
  revert st. induction tasks as [|task rest IH]; intros st.
  - by intros [= <- <-].
  - rewrite register_tasks_cons.
    destruct (negb (PyStr.mem _ (get_all_tasks env))); [by intros [= <- <-]|].
    destruct (negb overwrite_existing && bool_decide _); [apply IH|].
    destruct (make_backend_config_constructor_for_task config_cls task) as [c|e];
      [|by intros [= <- <-]].
    intros Hrest Hl. apply (IH _ Hrest). cbn.
    destruct (decide (l = mapping_backend)) as [->|Hne].
    + rewrite lookup_insert_eq. eauto.
    + by rewrite lookup_insert_ne.
Qed.

Lemma register_tasks_wf tasks st st' r :
  register_tasks env overwrite_existing config_cls mapping_backend tasks st = (st', r) →
  registry_wf st → registry_wf st'.
Proof.
  intros Hloop Hwf.
  destruct (register_tasks_frame _ _ _ _ _ _ _ _ Hloop) as (Htables & Hmappings & _).
  eapply registry_wf_task_dicts; eauto using register_tasks_live.
Qed.

End register_tasks_live.

(** Allocating an empty dictionary keeps the shape. *)
Lemma registry_wf_same st st' :
  registry_wf st → same_registry st st' →
  (∀ l, is_Some (mappings st !! l) → is_Some (mappings st' !! l)) →
  (∀ l, is_Some (task_dicts st !! l) → is_Some (task_dicts st' !! l)) →
  registry_wf st'.
Proof.
  intros [W1 W2 W3 W4] (Htables & Hat & _) Hlive_m Hlive_d. split.
  - intros lib model_type m. rewrite Htables. intros H. eapply Hlive_m, W1, H.
  - intros m backend d. rewrite Hat. intros H. eapply Hlive_d, W2, H.
  - intros lib1 model_type1 lib2 model_type2 m. rewrite !Htables. apply W3.
  - intros m1 backend1 m2 backend2 d. rewrite !Hat. apply W4.
Qed.

Lemma new_mapping_wf st : registry_wf st → registry_wf (new_mapping st).1.
Proof.
  intros Hwf. apply (registry_wf_same st); [done | apply new_mapping_same | |done].
  intros l Hl. cbn. destruct (decide (l = fresh (dom (mappings st)))) as [->|Hne].
  - rewrite lookup_insert_eq. eauto.
  - by rewrite lookup_insert_ne.
Qed.

Lemma new_task_dict_wf st : registry_wf st → registry_wf (new_task_dict st).1.
Proof.
  intros Hwf. apply (registry_wf_same st); [done | apply new_task_dict_same | done |].
  intros l Hl. cbn. destruct (decide (l = fresh (dom (task_dicts st)))) as [->|Hne].
  - rewrite lookup_insert_eq. eauto.
  - by rewrite lookup_insert_ne.
Qed.

Lemma fresh_mapping_dead st : mappings st !! fresh (dom (mappings st)) = None.
Proof. apply not_elem_of_dom_1, is_fresh. Qed.

Lemma fresh_task_dict_dead st : task_dicts st !! fresh (dom (task_dicts st)) = None.
Proof. apply not_elem_of_dom_1, is_fresh. Qed.

Section shape.

Variable backend : string.

(** The objects the two [get] calls return belong to the model type and to
    the backend, or to nothing. *)
Lemma resolve_objects_owner lib model_type st st2 m mb :
  resolve_objects backend lib model_type st = (st2, (m, mb)) →
  registry_wf st →
  registry_wf st2
  ∧ is_Some (task_dicts st2 !! mb)
  ∧ (∀ lib' model_type',
       supported_model_types st2 lib' !! model_type' = Some m →
       lib' = lib ∧ model_type' = model_type)
  ∧ (∀ m' backend', mapping_at st2 m' !! backend' = Some mb → m' = m ∧ backend' = backend)
  ∧ (∀ m0, supported_model_types st lib !! model_type = Some m0 → m0 = m)
  ∧ (supported_model_types st lib !! model_type = None → mapping_at st2 m = ∅)
  ∧ (∀ d, reaches st lib model_type backend = Some d → d = mb).
Proof.
  unfold resolve_objects, reaches. intros Hres Hwf. pose proof Hwf as [W1 W2 W3 W4].
  destruct (supported_model_types st lib !! model_type) as [m0|] eqn:Hm;
    cbn [mbind option_bind] in *.
  - destruct (mapping_at st m0 !! backend) as [d0|] eqn:Hmb.
    + (* both objects exist *)
      apply pair_equal_spec in Hres as [<- [<- <-]%pair_equal_spec].
      repeat apply conj; try done.
      * eapply W2, Hmb.
      * intros lib' model_type' H. by destruct (W3 _ _ _ _ _ H Hm).
      * intros m' backend' H. by destruct (W4 _ _ _ _ _ H Hmb).
      * by intros ? [= ->].
      * by intros ? [= ->].
    + (* a new task dictionary *)
      apply pair_equal_spec in Hres as [<- [<- <-]%pair_equal_spec].
      destruct (new_task_dict_same st) as (Htables & Hat & _).
      repeat apply conj; try done.
      * by apply new_task_dict_wf.
      * cbn. rewrite lookup_insert_eq. eauto.
      * intros lib' model_type'. rewrite Htables. intros H. by destruct (W3 _ _ _ _ _ H Hm).
      * intros m' backend'. rewrite Hat. intros H. apply W2 in H as [x Hx].
        by rewrite fresh_task_dict_dead in Hx.
      * by intros ? [= ->].
  - rewrite new_mapping_empty, lookup_empty in Hres. cbv beta iota zeta in Hres.
    apply pair_equal_spec in Hres as [<- [<- <-]%pair_equal_spec].
    destruct (new_mapping_same st) as (Htables & Hat & _).
    destruct (new_task_dict_same (new_mapping st).1) as (Htables' & Hat' & _).
    repeat apply conj; try done.
    + by apply new_task_dict_wf, new_mapping_wf.
    + cbn. rewrite lookup_insert_eq. eauto.
    + intros lib' model_type'. rewrite Htables', Htables. intros H.
      apply W1 in H as [x Hx]. by rewrite fresh_mapping_dead in Hx.
    + intros m' backend'. rewrite Hat', Hat. intros H. apply W2 in H as [x Hx].
      cbn in Hx. by rewrite fresh_task_dict_dead in Hx.
    + intros _. rewrite Hat'. apply new_mapping_empty.
Qed.

Lemma supported_attach lib model_type m mb st lib' model_type' :
  supported_model_types (attach backend lib model_type m mb st) lib' !! model_type'
  = if decide (lib' = lib ∧ model_type' = model_type) then Some m
    else supported_model_types st lib' !! model_type'.
Proof.
  unfold attach, table_setitem, mapping_setitem. cbn [fst].
  rewrite supported_with_table, supported_with_heap.
  destruct (decide (lib' = lib)) as [->|Hlib].
  - destruct (decide (model_type' = model_type)) as [->|Hmt].
    + by rewrite lookup_insert_eq, decide_True.
    + rewrite lookup_insert_ne by done. rewrite decide_False; [done | intuition congruence].
  - rewrite decide_False; [done | intuition congruence].
Qed.

Lemma mapping_at_attach lib model_type m mb st m' :
  mapping_at (attach backend lib model_type m mb st) m'
  = if decide (m' = m) then <[backend := mb]> (mapping_at st m) else mapping_at st m'.
Proof.
  unfold attach, table_setitem. cbn [fst].
  rewrite mapping_at_with_table. apply mapping_at_setitem.
Qed.

Lemma task_dict_at_attach lib model_type m mb st d :
  task_dict_at (attach backend lib model_type m mb st) d = task_dict_at st d.
Proof. done. Qed.

(** The two assignments keep the shape when the objects belong to the
    model type and the backend, or to nothing. *)
Lemma attach_wf lib model_type m mb st :
  registry_wf st →
  is_Some (task_dicts st !! mb) →
  (∀ lib' model_type',
     supported_model_types st lib' !! model_type' = Some m →
     lib' = lib ∧ model_type' = model_type) →
  (∀ m' backend', mapping_at st m' !! backend' = Some mb → m' = m ∧ backend' = backend) →
  registry_wf (attach backend lib model_type m mb st).
Proof.
  intros [W1 W2 W3 W4] Hlive Hm Hmb. split.
  - intros lib' model_type' m'. rewrite supported_attach.
    unfold attach, table_setitem, mapping_setitem; cbn.
    case_decide as Hkey.
    + intros [= <-]. rewrite lookup_insert_eq. eauto.
    + intros H. destruct (decide (m' = m)) as [->|Hne].
      * rewrite lookup_insert_eq. eauto.
      * rewrite lookup_insert_ne by done. eapply W1, H.
  - intros m' backend' d. rewrite mapping_at_attach.
    change (task_dicts (attach backend lib model_type m mb st)) with (task_dicts st).
    case_decide as Hm'.
    + destruct (decide (backend' = backend)) as [->|Hne].
      * rewrite lookup_insert_eq. by intros [= <-].
      * rewrite lookup_insert_ne by done. apply W2.
    + apply W2.
  - intros lib1 model_type1 lib2 model_type2 m'. rewrite !supported_attach.
    repeat case_decide; intros H1 H2; simplify_eq.
    + intuition congruence.
    + apply Hm in H2. intuition congruence.
    + apply Hm in H1. intuition congruence.
    + by eapply W3.
  - intros m1 backend1 m2 backend2 d. rewrite !mapping_at_attach.
    assert (∀ m' backend',
              (if decide (m' = m) then <[backend := mb]> (mapping_at st m)
               else mapping_at st m') !! backend' = Some d →
              (m' = m ∧ backend' = backend ∧ d = mb)
              ∨ mapping_at st m' !! backend' = Some d) as Hcases.
    { intros m' backend'. case_decide as Hm'; [subst m'|by right].
      destruct (decide (backend' = backend)) as [->|Hne].
      - rewrite lookup_insert_eq. intros [= <-]. by left.
      - rewrite lookup_insert_ne by done. by right. }
    intros H1 H2. apply Hcases in H1, H2.
    destruct H1 as [(-> & -> & ->)|H1], H2 as [(-> & -> & Hd)|H2]; try done.
    + apply Hmb in H2. intuition congruence.
    + subst d. apply Hmb in H1. intuition congruence.
    + by eapply W4.
Qed.

End shape.

Lemma reaches_same st st' lib model_type backend :
  (∀ lib, supported_model_types st' lib = supported_model_types st lib) →
  (∀ l, mapping_at st' l = mapping_at st l) →
  reaches st' lib model_type backend = reaches st lib model_type backend.
Proof.
  intros Htables Hat. unfold reaches. rewrite Htables.
  destruct (supported_model_types st lib !! model_type); cbn; [|done]. by rewrite Hat.
Qed.

Lemma reaches_Some st lib model_type backend d :
  reaches st lib model_type backend = Some d ↔
  ∃ m, supported_model_types st lib !! model_type = Some m
       ∧ mapping_at st m !! backend = Some d.
Proof.
  unfold reaches. destruct (supported_model_types st lib !! model_type) as [m|]; cbn.
  - split; [by exists m | by intros (? & [= <-] & ?)].
  - split; [done | by intros (? & ? & ?)].
Qed.

Section registration_shape.

Variable env : Env.
Variables (backend : string) (overwrite_existing : bool).

(** The parts of a call of the decorator, whatever its outcome. *)
Lemma decorator_parts model_type supported_tasks library_name lib config_cls st st' r :
  decorator env backend overwrite_existing model_type supported_tasks library_name
    config_cls st = (st', r) →
  library_of_name library_name = Some lib →
  ∃ st2 m mb st3 r0,
    resolve_objects backend lib model_type st = (st2, (m, mb))
    ∧ register_tasks env overwrite_existing config_cls mb supported_tasks st2 = (st3, r0)
    ∧ ((r0 = Ok tt ∧ st' = attach backend lib model_type m mb st3 ∧ r = Ok config_cls)
       ∨ (∃ e, r0 = Raise e ∧ st' = st3 ∧ r = Raise e)).
Proof.
  rewrite decorator_unfold. intros Hdec Hlib. rewrite Hlib in Hdec.
  destruct (resolve_objects backend lib model_type st) as [st2 [m mb]] eqn:Hres.
  destruct (register_tasks _ _ _ _ _ _) as [st3 [[]|e]] eqn:Hloop;
    injection Hdec as <- <-; exists st2, m, mb, st3.
  - exists (Ok tt). split; [done|]. split; [done|]. by left.
  - exists (Raise e). split; [done|]. split; [done|]. right. by exists e.
Qed.

(** X1. The shape of the registry is an invariant of registration: it holds
    after a call of the decorator, whether the call returned or raised. *)
Theorem create_register_keeps_shape model_type supported_tasks library_name config_cls
    st st' r :
  registry_wf st →
  create_register env backend overwrite_existing model_type supported_tasks library_name
    config_cls st = (st', r) →
  registry_wf st'.
Proof.
  unfold create_register, wrapper. intros Hwf Hdec.
  destruct (library_of_name library_name) as [lib|] eqn:Hlib.
  2: { rewrite decorator_unfold, Hlib in Hdec. by injection Hdec as <- <-. }
  destruct (decorator_parts _ _ _ _ _ _ _ _ Hdec Hlib)
    as (st2 & m & mb & st3 & r0 & Hres & Hloop & Hend).
  destruct (resolve_objects_owner _ _ _ _ _ _ _ Hres Hwf)
    as (Hwf2 & Hlive & Hown_m & Hown_mb & _).
  pose proof (register_tasks_wf _ _ _ _ _ _ _ _ Hloop Hwf2) as Hwf3.
  destruct (register_tasks_frame _ _ _ _ _ _ _ _ Hloop) as (Htables & Hmappings & _).
  destruct Hend as [(_ & -> & _)|(e & _ & -> & _)]; [|done].
  apply attach_wf; [done | by eapply register_tasks_live | |].
  - intros lib' model_type'. rewrite Htables. apply Hown_m.
  - intros m' backend'. unfold mapping_at. rewrite Hmappings. apply Hown_mb.
Qed.

(** What a call of the decorator leaves as it was, in a registry of the
    right shape: the entries of the other model types and backends, the
    tasks it does not list and, when it raises without an entry for the
    model type and the backend, everything. *)
Lemma decorator_frame model_type supported_tasks library_name config_cls st st' r
    lib' model_type' backend' task' :
  registry_wf st →
  decorator env backend overwrite_existing model_type supported_tasks library_name
    config_cls st = (st', r) →
  (library_of_name library_name ≠ Some lib' ∨ model_type' ≠ model_type
   ∨ backend' ≠ backend ∨ task' ∉ supported_tasks
   ∨ (¬ is_Ok r ∧ reaches st lib' model_type backend = None)) →
  registered st' lib' model_type' backend' task'
  = registered st lib' model_type' backend' task'.
Proof.
  intros Hwf Hdec Hcase.
  destruct (library_of_name library_name) as [lib|] eqn:Hlib.
  2: { rewrite decorator_unfold, Hlib in Hdec. by injection Hdec as <- <-. }
  destruct (decorator_parts _ _ _ _ _ _ _ _ Hdec Hlib)
    as (st2 & m & mb & st3 & r0 & Hres & Hloop & Hend).
  destruct (resolve_objects_owner _ _ _ _ _ _ _ Hres Hwf)
    as (Hwf2 & Hlive & Hown_m & Hown_mb & Hm0 & Hfresh & Hreach).
  destruct (resolve_objects_spec _ _ _ _ _ _ _ Hres) as [(Ht2 & Hat2 & Hd2) Hentry].
  destruct (register_tasks_frame _ _ _ _ _ _ _ _ Hloop) as (Ht3 & Hmappings & Hd3).
  assert (∀ l, mapping_at st3 l = mapping_at st2 l) as Hat3.
  { intros l. unfold mapping_at. by rewrite Hmappings. }
  assert (∀ lib0 mt0 b0, reaches st3 lib0 mt0 b0 = reaches st lib0 mt0 b0) as Hreaches.
  { intros. rewrite (reaches_same st2 st3), (reaches_same st st2); auto. }
  assert (∀ lib0 mt0 b0, reaches st lib0 mt0 b0 = Some mb →
                         lib0 = lib ∧ mt0 = model_type ∧ b0 = backend) as Hown.
  { intros lib0 mt0 b0. rewrite <- (reaches_same st st2) by auto.
    rewrite reaches_Some. intros (m' & H1 & H2).
    destruct (Hown_mb _ _ H2) as [-> ->]. by destruct (Hown_m _ _ H1) as [-> ->]. }
  destruct (decide (lib' = lib ∧ model_type' = model_type ∧ backend' = backend))
    as [(-> & -> & ->)|Hkey].
  - (* the entry of the call *)
    assert (task_dict_at st3 mb !! task' = task_dict_at st2 mb !! task' →
            registered st' lib model_type backend task'
            = registered st lib model_type backend task') as Hsame.
    { intros Hdict. rewrite <- Hentry, <- Hdict.
      destruct Hend as [(_ & -> & _)|(e & _ & -> & _)]; [apply attach_registered|].
      rewrite registered_reaches, Hreaches.
      destruct (reaches st lib model_type backend) as [d|] eqn:Hd; cbn.
      - by rewrite (Hreach d).
      - rewrite Hdict, Hentry, registered_reaches, Hd. done. }
    destruct Hcase as [?|[?|[?|[Hnot|[Hraise Hnone]]]]]; try done.
    + apply Hsame. by eapply register_tasks_other.
    + destruct Hend as [(_ & _ & ->)|(e & _ & -> & _)]; [by destruct Hraise|].
      by rewrite !registered_reaches, Hreaches, Hnone.
  - (* another entry *)
    assert (registered st3 lib' model_type' backend' task'
            = registered st lib' model_type' backend' task') as H3.
    { rewrite !registered_reaches, Hreaches.
      destruct (reaches st lib' model_type' backend') as [d|] eqn:Hd; cbn; [|done].
      rewrite Hd3, Hd2; [done|]. intros ->. by apply Hown in Hd. }
    destruct Hend as [(_ & -> & _)|(e & _ & -> & _)]; [|done].
    rewrite <- H3. unfold registered. rewrite supported_attach.
    case_decide as Hmt.
    + destruct Hmt as [-> ->]. cbn [mbind option_bind].
      rewrite mapping_at_attach, decide_True by done.
      rewrite lookup_insert_ne by (intros ->; by apply Hkey).
      rewrite Ht3, Ht2.
      destruct (supported_model_types st lib !! model_type) as [m0|] eqn:Hm.
      * by rewrite (Hm0 m0).
      * by rewrite Hat3, Hfresh, lookup_empty.
    + destruct (supported_model_types st3 lib' !! model_type') as [m'|] eqn:Hm';
        cbn [mbind option_bind]; [|done].
      rewrite mapping_at_attach, decide_False; [done|].
      intros ->. rewrite Ht3 in Hm'. by apply Hown_m in Hm'.
Qed.

(** X2. A call of the decorator touches one entry only: in a registry of the
    right shape, the constructors of the other libraries, model types and
    backends, and of the tasks that the call does not list, are after the
    call what they were before, whether the call returned or raised. *)
Theorem create_register_frame model_type supported_tasks library_name config_cls st st' r
    lib' model_type' backend' task' :
  registry_wf st →
  create_register env backend overwrite_existing model_type supported_tasks library_name
    config_cls st = (st', r) →
  library_of_name library_name ≠ Some lib' ∨ model_type' ≠ model_type
  ∨ backend' ≠ backend ∨ task' ∉ supported_tasks →
  registered st' lib' model_type' backend' task'
  = registered st lib' model_type' backend' task'.
Proof.
  unfold create_register, wrapper. intros Hwf Hdec Hcase.
  eapply decorator_frame; [done..|]. tauto.
Qed.

(** X3. A failed registration of a new entry leaves nothing behind: when the
    model type has no entry for the backend and the call raises, every
    constructor of the registry is what it was. The tasks written before the
    exception went to a dictionary that was never attached. *)
Theorem create_register_failure_discards_new_entry model_type supported_tasks library_name
    config_cls st st' e lib' model_type' backend' task' :
  registry_wf st →
  (∀ lib, library_of_name library_name = Some lib →
          reaches st lib model_type backend = None) →
  create_register env backend overwrite_existing model_type supported_tasks library_name
    config_cls st = (st', Raise e) →
  registered st' lib' model_type' backend' task'
  = registered st lib' model_type' backend' task'.
Proof.
  unfold create_register, wrapper. intros Hwf Hnew Hdec.
  eapply decorator_frame; [done..|].
  destruct (decide (library_of_name library_name = Some lib')) as [Hlib|Hlib]; [|by left].
  destruct (decide (model_type' = model_type)) as [->|?]; [|by right; left].
  do 4 right. split; [by intros []|]. by apply Hnew.
Qed.

End registration_shape.

(** ** The class body builds a registry of the right shape *)

Lemma py_for_cons {A} (body : A → Py unit) x rest st :
  py_for body (x :: rest) st =
    match body x st with
    | (st1, Ok _) => py_for body rest st1
    | (st1, Raise e) => (st1, Raise e)
    end.
Proof. done. Qed.

(** An invariant of the body is an invariant of the loop. *)
Lemma py_for_invariant {A} (P : store → Prop) (body : A → Py unit) l st st' r :
  (∀ x st st' r, body x st = (st', r) → P st → P st') →
  py_for body l st = (st', r) → P st → P st'.
Proof.
  intros Hbody. revert st. induction l as [|x rest IH]; intros st.
  - by intros [= <- <-].
  - rewrite py_for_cons. destruct (body x st) as [st1 [[]|e]] eqn:Hx.
    + intros Hrest HP. eapply IH; [done|]. by eapply Hbody.
    + intros [= <- <-] HP. by eapply Hbody.
Qed.

(** A loop whose body returns, returns. *)
Lemma py_for_returns {A} (body : A → Py unit) l st :
  (∀ x st, (body x st).2 = Ok tt) → (py_for body l st).2 = Ok tt.
Proof.
  intros Hbody. revert st. induction l as [|x rest IH]; intros st; [done|].
  rewrite py_for_cons. specialize (Hbody x st).
  destruct (body x st) as [st1 [[]|e]]; [apply IH | done].
Qed.

Lemma grows_task_dicts_trans st1 st2 st3 :
  grows_task_dicts st1 st2 → grows_task_dicts st2 st3 → grows_task_dicts st1 st3.
Proof.
  intros (H1 & H2 & H3) (H1' & H2' & H3'). repeat apply conj.
  - intros lib. by rewrite H1', H1.
  - by rewrite H2', H2.
  - auto.
Qed.

Lemma task_dict_setitem_grows l task c st :
  grows_task_dicts st (task_dict_setitem l task c st).1.
Proof.
  repeat apply conj; [apply supported_with_heap | done |].
  intros l' Hl'. cbn. destruct (decide (l' = l)) as [->|Hne].
  - rewrite lookup_insert_eq. eauto.
  - by rewrite lookup_insert_ne.
Qed.

(** [store_task_dict] returns a task dictionary that nothing refers to. *)
Lemma store_task_dict_spec (d : gmap string callable) st :
  ∃ st' ld,
    store_task_dict d st = (st', Ok ld)
    ∧ grows_task_dicts st st'
    ∧ is_Some (task_dicts st' !! ld)
    ∧ task_dicts st !! ld = None.
Proof.
  unfold store_task_dict, mbind, Py_bind, mret, Py_ret. cbn.
  set (ld := fresh (dom (task_dicts st))).
  set (st1 := with_heap st (mappings st) (<[ld := ∅]> (task_dicts st))).
  set (body := fun '(task, constructor) => task_dict_setitem ld task constructor).
  assert (grows_task_dicts st st1 ∧ is_Some (task_dicts st1 !! ld)) as [Hg1 Hl1].
  { split; [|subst st1; cbn; rewrite lookup_insert_eq; eauto].
    repeat apply conj; [apply supported_with_heap | done |].
    intros l' Hl'. subst st1. cbn. destruct (decide (l' = ld)) as [->|Hne].
    - rewrite lookup_insert_eq. eauto.
    - by rewrite lookup_insert_ne. }
  pose proof (py_for_returns body (map_to_list d) st1) as Hret.
  destruct (py_for body (map_to_list d) st1) as [st2 r] eqn:Hloop.
  cbn in Hret. rewrite Hret; [|by intros [task c] ?]. exists st2, ld.
  assert (grows_task_dicts st1 st2) as Hg2.
  { apply (py_for_invariant (grows_task_dicts st1) body (map_to_list d) st1 st2 r);
      [|done|].
    - intros [task c] sa sb rb [= <- <-] Ha.
      eapply grows_task_dicts_trans; [done | apply task_dict_setitem_grows].
    - repeat apply conj; auto. }
  split; [done|]. split; [by eapply grows_task_dicts_trans|]. split.
  - by apply Hg2.
  - apply fresh_task_dict_dead.
Qed.

Lemma supported_mapping_setitem l backend ld st lib :
  supported_model_types (mapping_setitem l backend ld st).1 lib
  = supported_model_types st lib.
Proof. apply supported_with_heap. Qed.

Lemma mapping_setitem_pending l backend ld st :
  pending_mapping l st →
  is_Some (task_dicts st !! ld) →
  (∀ m b, mapping_at st m !! b ≠ Some ld) →
  pending_mapping l (mapping_setitem l backend ld st).1.
Proof.
  intros ([W1 W2 W3 W4] & Hl & Hfree) Hld Hunref.
  assert (∀ m b d,
            mapping_at (mapping_setitem l backend ld st).1 m !! b = Some d →
            (m = l ∧ b = backend ∧ d = ld) ∨ mapping_at st m !! b = Some d) as Hcases.
  { intros m b d. rewrite mapping_at_setitem. case_decide as Hm; [subst m|by right].
    destruct (decide (b = backend)) as [->|Hne].
    - rewrite lookup_insert_eq. intros [= <-]. by left.
    - rewrite lookup_insert_ne by done. by right. }
  split; [split|split].
  - intros lib model_type m. rewrite supported_mapping_setitem. intros H%W1. cbn.
    destruct (decide (m = l)) as [->|Hne].
    + rewrite lookup_insert_eq. eauto.
    + by rewrite lookup_insert_ne.
  - intros m b d H. apply Hcases in H as [(-> & -> & ->)|H]; [done | eapply W2, H].
  - intros lib1 model_type1 lib2 model_type2 m. rewrite !supported_mapping_setitem. apply W3.
  - intros m1 b1 m2 b2 d H1 H2. apply Hcases in H1, H2.
    destruct H1 as [(-> & -> & ->)|H1], H2 as [(-> & -> & Hd)|H2]; try done.
    + by apply Hunref in H2.
    + subst d. by apply Hunref in H1.
    + by eapply W4.
  - cbn. rewrite lookup_insert_eq. eauto.
  - intros lib model_type. rewrite supported_mapping_setitem. apply Hfree.
Qed.

Lemma grows_task_dicts_pending l st st' :
  pending_mapping l st → grows_task_dicts st st' → pending_mapping l st'.
Proof.
  intros (Hwf & Hl & Hfree) (Htables & Hmappings & Hlive). split; [|split].
  - by eapply registry_wf_task_dicts.
  - by rewrite Hmappings.
  - intros lib model_type. rewrite Htables. apply Hfree.
Qed.

(** [store_mapping] returns a mapping object that no table refers to. *)
Lemma store_mapping_spec (m : gmap string (gmap string callable)) st :
  registry_wf st →
  ∃ st' l,
    store_mapping m st = (st', Ok l)
    ∧ pending_mapping l st'
    ∧ (∀ lib, supported_model_types st' lib = supported_model_types st lib).
Proof.
  intros Hwf. unfold store_mapping, mbind, Py_bind, mret, Py_ret. cbn.
  set (l := fresh (dom (mappings st))).
  set (st1 := with_heap st (<[l := ∅]> (mappings st)) (task_dicts st)).
  set (body := fun '(backend, d) =>
                 match store_task_dict d with
                 | f => fun s : store =>
                     match f s with
                     | (s', Ok ld) => mapping_setitem l backend ld s'
                     | (s', Raise e) => (s', Raise e)
                     end
                 end).
  assert (pending_mapping l st1) as Hp1.
  { split; [apply (new_mapping_wf st Hwf)|split].
    - subst st1. cbn. rewrite lookup_insert_eq. eauto.
    - intros lib model_type H. subst st1. rewrite supported_with_heap in H.
      apply (wf_mapping_live st Hwf) in H as [x Hx].
      by rewrite (fresh_mapping_dead st : mappings st !! l = None) in Hx. }
  assert (∀ x sa sb rb, body x sa = (sb, rb) →
            pending_mapping l sa
            ∧ (∀ lib, supported_model_types sa lib = supported_model_types st lib) →
            (pending_mapping l sb
             ∧ (∀ lib, supported_model_types sb lib = supported_model_types st lib))
            ∧ rb = Ok tt) as Hbody.
  { intros [backend d] sa sb rb Hx [Hpa Hta]. cbn in Hx.
    destruct (store_task_dict_spec d sa) as (sa' & ld & Hstore & Hgrow & Hlive & Hdead).
    rewrite Hstore in Hx. injection Hx as <- <-.
    pose proof (grows_task_dicts_pending _ _ _ Hpa Hgrow) as Hpa'.
    destruct Hgrow as (Htables & Hmappings & _). split; [split|done].
    - apply mapping_setitem_pending; [done..|].
      intros m0 b0 H. unfold mapping_at in H. rewrite Hmappings in H.
      destruct Hpa as (Hwfa & _).
      apply (wf_task_dict_live sa Hwfa) in H as [x Hx]. by rewrite Hdead in Hx.
    - intros lib. cbn. rewrite supported_with_heap, Htables. apply Hta. }
  assert (∀ items sa,
            pending_mapping l sa
            ∧ (∀ lib, supported_model_types sa lib = supported_model_types st lib) →
            ∃ sb, py_for body items sa = (sb, Ok tt)
                  ∧ pending_mapping l sb
                  ∧ (∀ lib, supported_model_types sb lib = supported_model_types st lib))
    as Hloop.
  { induction items as [|x rest IH]; intros sa Ha; [by exists sa|].
    rewrite py_for_cons. destruct (body x sa) as [s1 r1] eqn:Hx.
    destruct (Hbody _ _ _ _ Hx Ha) as [H1 ->]. by apply IH. }
  destruct (Hloop (map_to_list m) st1) as (st2 & Hrun & Hp2 & Ht2).
  { split; [done|]. intros lib. apply supported_with_heap. }
  exists st2, l. split; [|done].
  change (py_for _ (map_to_list m) st1) with (py_for body (map_to_list m) st1).
  by rewrite Hrun.
Qed.

Lemma table_setitem_wf lib model_type l st :
  pending_mapping l st → registry_wf (table_setitem lib model_type l st).1.
Proof.
  intros ([W1 W2 W3 W4] & Hl & Hfree). cbn.
  assert (∀ lib' model_type' m,
            supported_model_types
              (with_table st lib (<[model_type := l]> (supported_model_types st lib)))
              lib' !! model_type' = Some m →
            (lib' = lib ∧ model_type' = model_type ∧ m = l)
            ∨ supported_model_types st lib' !! model_type' = Some m) as Hcases.
  { intros lib' model_type' m. rewrite supported_with_table.
    case_decide as Hlib; [subst lib'|by right].
    destruct (decide (model_type' = model_type)) as [->|Hne].
    - rewrite lookup_insert_eq. intros [= <-]. by left.
    - rewrite lookup_insert_ne by done. by right. }
  split.
  - intros lib' model_type' m H. apply Hcases in H as [(-> & -> & ->)|H]; [done|].
    eapply W1, H.
  - apply W2.
  - intros lib1 model_type1 lib2 model_type2 m H1 H2. apply Hcases in H1, H2.
    destruct H1 as [(-> & -> & ->)|H1], H2 as [(-> & -> & Hm)|H2]; try done.
    + by apply Hfree in H2.
    + subst m. by apply Hfree in H1.
    + by eapply W3.
  - apply W4.
Qed.

Section class_body_shape.

Variable env : Env.
Variable import_config_cls : string → string → result ConfigCls.

Lemma build_table_wf lib literal st st' r :
  build_table env import_config_cls lib literal st = (st', r) →
  registry_wf st → registry_wf st'.
Proof.
  apply py_for_invariant. clear.
  intros [model_type [supported_tasks exporters]] st st' r Hstep Hwf.
  unfold mbind, Py_bind, py_lift in Hstep.
  destruct (supported_tasks_mapping env import_config_cls supported_tasks exporters)
    as [m|e]; [|by injection Hstep as <- <-].
  destruct (store_mapping_spec m st Hwf) as (st1 & l & Hstore & Hpending & _).
  rewrite Hstore in Hstep. injection Hstep as <- <-.
  by apply table_setitem_wf.
Qed.

Lemma class_body_wf (SUPPORTED_MODEL_TYPE_literal : table_literal)
    (attrs : class_attributes) :
  class_body env import_config_cls SUPPORTED_MODEL_TYPE_literal = Ok attrs →
  registry_wf (registry attrs).
Proof.
  unfold class_body.
  destruct (_SENTENCE_TRANSFORMERS_TASKS_TO_MODEL_LOADERS env) as [sentence|e]; [|done].
  cbn [mbind result_bind]. unfold mbind at 1 2 3, Py_bind.
  destruct (build_table env import_config_cls diffusers _ empty_store)
    as [st1 r1] eqn:H1.
  pose proof (build_table_wf _ _ _ _ _ H1 registry_wf_empty) as Hwf1.
  destruct r1 as [[]|e1]; [|done].
  destruct (build_table env import_config_cls timm _ st1) as [st2 r2] eqn:H2.
  pose proof (build_table_wf _ _ _ _ _ H2 Hwf1) as Hwf2.
  destruct r2 as [[]|e2]; [|done].
  destruct (build_table env import_config_cls sentence_transformers _ st2)
    as [st3 r3] eqn:H3.
  pose proof (build_table_wf _ _ _ _ _ H3 Hwf2) as Hwf3.
  destruct r3 as [[]|e3]; [|done].
  destruct (build_table env import_config_cls transformers _ st3) as [st4 r4] eqn:H4.
  pose proof (build_table_wf _ _ _ _ _ H4 Hwf3) as Hwf4.
  destruct r4 as [[]|e4]; [|done].
  by intros [= <-].
Qed.

(** X4. The registry that the class body leaves has the shape that
    registrations keep: every reference points to a dictionary of the store,
    and no dictionary is shared by two entries. *)
Theorem class_body_registry_shape (SUPPORTED_MODEL_TYPE_literal : table_literal)
    (attrs : class_attributes) :
  class_body env import_config_cls SUPPORTED_MODEL_TYPE_literal = Ok attrs →
  registry_wf (registry attrs).
Proof. apply class_body_wf. Qed.

End class_body_shape.

(** ** The registry properties at concrete inputs *)

Section concrete_registry.

Import Examples.

Lemma registry0_wf : registry_wf registry0.
Proof.
  unfold registry0.
  assert (is_Ok (class_body env_torch_onnx import_any bert_literal)) as Hok
    by (vm_compute; exact I).
  destruct (class_body env_torch_onnx import_any bert_literal) as [attrs|e] eqn:Hcls;
    [|destruct Hok].
  by eapply class_body_wf.
Qed.

Lemma class_body_registry_shape_witness : registry_wf registry0.
Proof.
  unfold registry0.
  assert (is_Ok (class_body env_torch_onnx import_any bert_literal)) as Hok
    by (vm_compute; exact I).
  destruct (class_body env_torch_onnx import_any bert_literal) as [attrs|e] eqn:Hcls;
    [|destruct Hok].
  exact (class_body_registry_shape env_torch_onnx import_any bert_literal attrs Hcls).
Defined.

Lemma create_register_keeps_shape_witness : registry_wf register_my_model.1.
Proof.
  apply (create_register_keeps_shape env_torch_onnx "onnx" false "my-model"
           ["text-classification"] "transformers" NewConfig registry0
           register_my_model.1 register_my_model.2).
  - apply registry0_wf.
  - apply surjective_pairing.
Defined.

Lemma create_register_frame_witness :
  registered register_my_model.1 transformers "bert" "onnx" "fill-mask"
  = registered registry0 transformers "bert" "onnx" "fill-mask".
Proof.
  apply (create_register_frame env_torch_onnx "onnx" false "my-model"
           ["text-classification"] "transformers" NewConfig registry0
           register_my_model.1 register_my_model.2).
  - apply registry0_wf.
  - apply surjective_pairing.
  - right. left. discriminate.
Defined.

Lemma create_register_failure_discards_new_entry_witness :
  registered register_new_model_bogus.1 transformers "new-model" "onnx" "text-classification"
  = registered registry0 transformers "new-model" "onnx" "text-classification".
Proof.
  apply (create_register_failure_discards_new_entry env_torch_onnx "onnx" false
           "new-model" ["text-classification"; "bogus-task"] "transformers" NewConfig
           registry0 register_new_model_bogus.1
           (ValueError (unknown_task_message env_torch_onnx "bogus-task"))
           transformers "new-model" "onnx" "text-classification").
  - apply registry0_wf.
  - intros lib [= <-]. vm_compute. reflexivity.
  - apply (pair_of_result register_new_model_bogus). vm_compute. reflexivity.
Defined.

End concrete_registry.

(** ** What the constructor lookup returns *)

Section lookup.

Variable st : store.

(** X5. A constructor that [get_exporter_config_constructor] returns is in the
    registry: under the task that was asked or one of its synonyms, and
    under the model type as it was given or the default model type of the
    library. *)
Theorem get_exporter_config_constructor_sound (exporter task model_type : string)
    (model_name : option string) (library_name : string) (lib : library) (c : callable) :
  library_of_name library_name = Some lib →
  get_exporter_config_constructor st exporter None task (Some model_type) model_name None
    (Some library_name) = Ok c →
  ∃ task' model_type',
    registered st lib model_type' exporter task' = Some c
    ∧ (task' = task ∨ task' ∈ synonyms_for_task task)
    ∧ (model_type' = model_type
       ∨ _MODEL_TYPE_FOR_DEFAULT_CONFIG library_name = Some model_type').
Proof.
  intros Hlib. unfold get_exporter_config_constructor.
  rewrite (supported_model_type_for_library st library_name lib Hlib).
  cbn [mbind result_bind].
  destruct (get_supported_tasks_for_model_type st model_type exporter model_name
              (Some library_name)) as [model_tasks|e]; [|done].
  cbn [mbind result_bind].
  set (found := find _ _).
  assert (∀ task',
            (if bool_decide (is_Some (model_tasks !! task)) then Ok task
             else
               if bool_decide
                    (is_Some (model_tasks !! match found with
                                              | Some synonym => synonym
                                              | None => task
                                              end))
               then Ok match found with Some synonym => synonym | None => task end
               else Raise (ValueError
                      (model_type ++ " doesn't support task "
                       ++ match found with Some synonym => synonym | None => task end
                       ++ " for the " ++ exporter ++ " backend. Supported tasks are: "
                       ++ PyStr.join ", " (keys model_tasks) ++ "."))) = Ok task' →
            task' = task ∨ task' ∈ synonyms_for_task task) as Htask.
  { intros task'. destruct (bool_decide (is_Some (model_tasks !! task))).
    - intros [= <-]. by left.
    - destruct found as [synonym|] eqn:Hfound.
      + destruct (bool_decide _); [|done]. intros [= <-]. right.
        apply find_some in Hfound as [Hin _].
        by apply elem_of_elements, list_elem_of_In.
      + destruct (bool_decide _); [|done]. intros [= <-]. by left. }
  match goal with
  | |- context [@mbind result _ _ _ _ ?chosen] => destruct chosen as [task'|e] eqn:Hchosen
  end; [|done].
  specialize (Htask _ eq_refl). cbn [mbind result_bind].
  destruct (bool_decide (is_Some (supported_model_types st lib !! model_type))).
  - cbn [mbind result_bind].
    destruct (supported_model_types st lib !! model_type) as [m|] eqn:Hm; [|done].
    cbn [mbind result_bind].
    destruct (mapping_at st m !! exporter) as [mb|] eqn:Hmb; [|done].
    cbn [mbind result_bind].
    destruct (task_dict_at st mb !! task') as [c'|] eqn:Hc; [|done].
    intros [= <-]. exists task', model_type. split; [|by auto].
    unfold registered. rewrite Hm. cbn. rewrite Hmb. cbn. done.
  - destruct (_MODEL_TYPE_FOR_DEFAULT_CONFIG library_name) as [default|] eqn:Hdefault;
      [|done].
    cbn [mbind result_bind].
    destruct (supported_model_types st lib !! default) as [m|] eqn:Hm; [|done].
    cbn [mbind result_bind].
    destruct (mapping_at st m !! exporter) as [mb|] eqn:Hmb; [|done].
    cbn [mbind result_bind].
    destruct (task_dict_at st mb !! task') as [c'|] eqn:Hc; [|done].
    intros [= <-]. exists task', default. split; [|by auto].
    unfold registered. rewrite Hm. cbn. rewrite Hmb. cbn. done.
Qed.

(** X6. The extra keyword arguments do not take part in the lookup: the call
    with [exporter_config_kwargs] raises what the call without them raises,
    and returns [partial] of what it returns. *)
Theorem get_exporter_config_constructor_kwargs (exporter : string) (model : option Model)
    (task : string) (model_type model_name : option string)
    (kwargs : list (string * pyval)) (library_name : option string) :
  get_exporter_config_constructor st exporter model task model_type model_name (Some kwargs)
    library_name
  = (c ← get_exporter_config_constructor st exporter model task model_type model_name None
           library_name;
     Ok (partial c kwargs)).
Proof.
  unfold get_exporter_config_constructor.
  repeat (match goal with
          | |- context [@mbind result _ _ _ _ ?r] =>
              lazymatch r with
              | context [@mbind] => fail
              | Ok _ => fail
              | Raise _ => fail
              | _ => destruct r as [?|?] eqn:?
              end
          end;
          repeat match goal with p : (_ * _)%type |- _ => destruct p end;
          cbn [mbind result_bind]);
    try done.
Qed.

End lookup.

(** ** Spellings of a model type, and the library that is left out *)

Section spellings.

Lemma normalized_cons c s :
  normalized (String c s) = String (normalized_ascii c) (normalized s).
Proof.
  unfold normalized, normalized_ascii, PyStr.replace. cbn [PyStr.lower PyStr.replace_from].
  cbn [String.prefix String.length Nat.sub].
  destruct (ascii_dec "_" (PyStr.lower_ascii c)) as [<-|Hne].
  - by destruct (PyStr.lower s).
  - destruct (Ascii.eqb_spec (PyStr.lower_ascii c) "_"); [congruence | reflexivity].
Qed.

Lemma normalized_ascii_idempotent c : normalized_ascii (normalized_ascii c) = normalized_ascii c.
Proof. destruct c as [[] [] [] [] [] [] [] []]; reflexivity. Qed.

Lemma normalized_idempotent s : normalized (normalized s) = normalized s.
Proof.
  induction s as [|c s IH]; [done|].
  by rewrite !normalized_cons, normalized_ascii_idempotent, IH.
Qed.

Variable st : store.

(** X7. The task lookup does not see the spelling of the model type: upper
    case and underscores give what the lower-case, hyphenated name gives,
    the text of the exception included. *)
Theorem get_supported_tasks_spelling (model_type exporter : string)
    (model_name library_name : option string) :
  get_supported_tasks_for_model_type st model_type exporter model_name library_name
  = get_supported_tasks_for_model_type st (normalized model_type) exporter model_name
      library_name.
Proof.
  unfold get_supported_tasks_for_model_type.
  fold (normalized model_type). fold (normalized (normalized model_type)).
  by rewrite normalized_idempotent.
Qed.

(** X8. The constructor lookup does see the spelling of the model type. In
    a library without a default model type, a model type that is in the
    table under its normalised name only, with a constructor for the
    exporter and the task, raises [KeyError] with the name of the library. *)
Theorem get_exporter_config_constructor_spelling (exporter task model_type : string)
    (model_name : option string) (library_name : string) (lib : library) (c : callable) :
  library_of_name library_name = Some lib →
  _MODEL_TYPE_FOR_DEFAULT_CONFIG library_name = None →
  supported_model_types st lib !! model_type = None →
  registered st lib (normalized model_type) exporter task = Some c →
  get_exporter_config_constructor st exporter None task (Some model_type) model_name None
    (Some library_name) = Raise (KeyError library_name).
Proof.
  intros Hlib Hdefault Habsent Hreg. unfold registered in Hreg.
  destruct (supported_model_types st lib !! normalized model_type) as [m|] eqn:Hm; [|done].
  cbn in Hreg. destruct (mapping_at st m !! exporter) as [mb|] eqn:Hmb; [|done].
  cbn in Hreg. unfold get_exporter_config_constructor.
  rewrite (supported_model_type_for_library st library_name lib Hlib).
  cbn [mbind result_bind].
  rewrite (get_supported_tasks_found st library_name lib Hlib _ _ _ _ _ Hm Hmb).
  cbn [mbind result_bind]. rewrite (bool_decide_eq_true_2 (is_Some (task_dict_at st mb !! task))) by (by exists c).
  cbn [mbind result_bind]. rewrite Habsent.
  rewrite (bool_decide_eq_false_2 (is_Some None)) by (by intros [? ?]).
  by rewrite Hdefault.
Qed.

(** X9. Leaving [library_name] out is passing ["transformers"]: the model
    types of the other three tables are merged into the table that is
    searched last, and are never reached through it, unless the model type
    as given is a key of one of them and not of the transformers table. *)
Theorem get_exporter_config_constructor_without_library (exporter task model_type : string)
    (model_name : option string) (kwargs : option (list (string * pyval))) :
  (supported_model_types st transformers !! model_type = None →
   ∀ lib, supported_model_types st lib !! model_type = None) →
  get_exporter_config_constructor st exporter None task (Some model_type) model_name kwargs
    None
  = get_exporter_config_constructor st exporter None task (Some model_type) model_name kwargs
      (Some "transformers").
Proof.
  intros Hother. unfold get_exporter_config_constructor.
  rewrite (supported_model_type_for_library st "transformers" transformers eq_refl).
  unfold supported_model_type_for. cbn [mbind result_bind].
  set (merged := supported_model_types st transformers
                 ∪ supported_model_types st sentence_transformers
                 ∪ supported_model_types st timm ∪ supported_model_types st diffusers).
  assert (merged !! model_type = supported_model_types st transformers !! model_type)
    as Hmerged.
  { subst merged.
    destruct (supported_model_types st transformers !! model_type) as [m|] eqn:Hm.
    - by repeat apply lookup_union_Some_l.
    - specialize (Hother eq_refl). rewrite !lookup_union_None. rewrite Hm.
      by rewrite (Hother sentence_transformers), (Hother timm), (Hother diffusers). }
  destruct (get_supported_tasks_for_model_type st model_type exporter model_name
              (Some "transformers")) as [model_tasks|e]; [|done].
  cbn [mbind result_bind].
  match goal with
  | |- context [@mbind result _ _ _ _ ?chosen] => destruct chosen as [task'|e]
  end; [|done].
  cbn [mbind result_bind]. rewrite Hmerged.
  destruct (bool_decide (is_Some (supported_model_types st transformers !! model_type)));
    [|done].
  cbn [mbind result_bind]. by rewrite Hmerged.
Qed.

(** X10. [get_supported_model_type_for_task] indexes every model type of the
    transformers table by the exporter: it raises [KeyError] as soon as one
    model type has no entry for the exporter, and otherwise returns the
    model types that have a constructor for the task, with underscores. *)
Theorem get_supported_model_type_for_task_spec (task exporter : string) :
  match get_supported_model_type_for_task st task exporter with
  | Raise e =>
      e = KeyError exporter
      ∧ ∃ model_type m,
          _SUPPORTED_MODEL_TYPE st !! model_type = Some m
          ∧ mapping_at st m !! exporter = None
  | Ok selected =>
      (∀ model_type m,
         _SUPPORTED_MODEL_TYPE st !! model_type = Some m →
         is_Some (mapping_at st m !! exporter))
      ∧ ∀ name,
          name ∈ selected ↔
          ∃ model_type,
            name = PyStr.replace model_type "-" "_"
            ∧ is_Some (registered st transformers model_type exporter task)
  end.
Proof.
  unfold get_supported_model_type_for_task.
  assert (∀ items,
            match supported_model_type_loop st task exporter items with
            | Raise e =>
                e = KeyError exporter
                ∧ ∃ model_type m, (model_type, m) ∈ items
                                  ∧ mapping_at st m !! exporter = None
            | Ok selected =>
                (∀ model_type m, (model_type, m) ∈ items →
                                 is_Some (mapping_at st m !! exporter))
                ∧ ∀ name,
                    name ∈ selected ↔
                    ∃ model_type m mb,
                      name = PyStr.replace model_type "-" "_"
                      ∧ (model_type, m) ∈ items
                      ∧ mapping_at st m !! exporter = Some mb
                      ∧ is_Some (task_dict_at st mb !! task)
            end) as Hloop.
  { induction items as [|[model_type m] rest IH]; cbn [supported_model_type_loop].
    - split; [by intros ? ? ?%elem_of_nil|].
      intros name. split; [by intros ?%elem_of_nil|].
      by intros (? & ? & ? & _ & ?%elem_of_nil & _).
    - destruct (mapping_at st m !! exporter) as [mb|] eqn:Hmb.
      2: { split; [done|]. exists model_type, m. split; [by left | done]. }
      destruct (supported_model_type_loop st task exporter rest) as [selected|e];
        cbn [mbind result_bind].
      2: { destruct IH as [-> (mt' & m' & Hin & Hnone)]. split; [done|].
           exists mt', m'. split; [by right | done]. }
      destruct IH as [Hall Hsel].
      assert (∀ mt' m', (mt', m') ∈ (model_type, m) :: rest →
                        is_Some (mapping_at st m' !! exporter)) as Hall'.
      { intros mt' m' [[= -> ->]|Hin]%elem_of_cons; [eauto | by eapply Hall]. }
      destruct (bool_decide (is_Some (task_dict_at st mb !! task))) eqn:Htask.
      + apply bool_decide_eq_true in Htask. split; [done|]. intros name.
        rewrite elem_of_cons, Hsel. split.
        * intros [->|(mt' & m' & mb' & -> & Hin & Hmb' & Ht')].
          -- exists model_type, m, mb. repeat split; [by left | done..].
          -- exists mt', m', mb'. repeat split; [by right | done..].
        * intros (mt' & m' & mb' & -> & [[= -> ->]|Hin]%elem_of_cons & Hmb' & Ht').
          -- by left.
          -- right. by exists mt', m', mb'.
      + apply bool_decide_eq_false in Htask. split; [done|]. intros name.
        rewrite Hsel. split.
        * intros (mt' & m' & mb' & -> & Hin & Hmb' & Ht').
          exists mt', m', mb'. repeat split; [by right | done..].
        * intros (mt' & m' & mb' & -> & [[= -> ->]|Hin]%elem_of_cons & Hmb' & Ht').
          -- rewrite Hmb in Hmb'. injection Hmb' as <-. done.
          -- by exists mt', m', mb'. }
  specialize (Hloop (map_to_list (_SUPPORTED_MODEL_TYPE st))).
  destruct (supported_model_type_loop st task exporter _) as [selected|e].
  - destruct Hloop as [Hall Hsel]. split.
    + intros model_type m Hm. eapply Hall. by apply elem_of_map_to_list.
    + intros name. rewrite Hsel. split.
      * intros (mt & m & mb & -> & Hin%elem_of_map_to_list & Hmb & Ht).
        exists mt. split; [done|]. unfold registered. cbn. rewrite Hin. cbn.
        by rewrite Hmb.
      * intros (mt & -> & Hreg). unfold registered in Hreg. cbn in Hreg.
        destruct (_SUPPORTED_MODEL_TYPE st !! mt) as [m|] eqn:Hm; [|by destruct Hreg].
        cbn in Hreg. destruct (mapping_at st m !! exporter) as [mb|] eqn:Hmb;
          [|by destruct Hreg].
        exists mt, m, mb. repeat split; [by apply elem_of_map_to_list | done..].
  - destruct Hloop as [-> (mt & m & Hin%elem_of_map_to_list & Hnone)]. eauto.
Qed.

End spellings.

Section concrete_lookup.

Import Examples.

Lemma get_exporter_config_constructor_sound_witness :
  ∃ task' model_type',
    registered registry0 timm model_type' "onnx" task'
    = Some (partial (Cls {| cls_name := "TimmDefaultOnnxConfig"; SUPPORTS_PAST := false |})
              [("task", VStr "image-classification")])
    ∧ (task' = "image-classification" ∨ task' ∈ synonyms_for_task "image-classification")
    ∧ (model_type' = "resnet50" ∨ _MODEL_TYPE_FOR_DEFAULT_CONFIG "timm" = Some model_type').
Proof.
  apply (get_exporter_config_constructor_sound registry0 "onnx" "image-classification"
           "resnet50" None "timm" timm).
  - reflexivity.
  - vm_compute. reflexivity.
Defined.

Lemma get_exporter_config_constructor_spelling_witness :
  get_exporter_config_constructor registry0 "onnx" None "fill-mask" (Some "BERT") None None
    (Some "transformers") = Raise (KeyError "transformers").
Proof.
  apply (get_exporter_config_constructor_spelling registry0 "onnx" "fill-mask" "BERT" None
           "transformers" transformers
           (partial (Cls {| cls_name := "BertOnnxConfig"; SUPPORTS_PAST := false |})
              [("task", VStr "fill-mask")])).
  - reflexivity.
  - reflexivity.
  - vm_compute. reflexivity.
  - vm_compute. reflexivity.
Defined.

Lemma get_exporter_config_constructor_without_library_witness :
  get_exporter_config_constructor registry0 "onnx" None "fill-mask" (Some "bert") None None
    None
  = get_exporter_config_constructor registry0 "onnx" None "fill-mask" (Some "bert") None None
      (Some "transformers").
Proof.
  apply (get_exporter_config_constructor_without_library registry0 "onnx" "fill-mask" "bert"
           None None).
  intros Habsent. vm_compute in Habsent. discriminate Habsent.
Defined.

End concrete_lookup.

(** ** Task names: synonyms and reversed loader tables *)

Section task_names.

Lemma synonym_literal_keys_distinct : NoDup (SYNONYM_TASK_MAP_literal.*1).
Proof.
  refine (bool_decide_unpack (NoDup (SYNONYM_TASK_MAP_literal.*1)) _).
  vm_compute. exact I.
Qed.

Lemma synonym_lookup_literal (alias canonical : string) :
  _SYNONYM_TASK_MAP !! alias = Some canonical ↔ (alias, canonical) ∈ SYNONYM_TASK_MAP_literal.
Proof.
  split.
  - apply elem_of_list_to_map_2.
  - apply elem_of_list_to_map_1, synonym_literal_keys_distinct.
Qed.

Lemma map_from_synonym_alias (alias canonical : string) :
  _SYNONYM_TASK_MAP !! alias = Some canonical → map_from_synonym alias = canonical.
Proof. intros H. unfold map_from_synonym. by rewrite H. Qed.

Lemma map_from_synonym_canonical (alias canonical : string) :
  _SYNONYM_TASK_MAP !! alias = Some canonical → map_from_synonym canonical = canonical.
Proof.
  intros H%synonym_value_not_key. unfold map_from_synonym. by rewrite H.
Qed.

(** X11. The synonyms of a task are the aliases, other than the task itself,
    that [map_from_synonym] sends where it sends the task. A name that is
    not a key of the synonym map is the synonym of no task: the canonical
    name of an alias is not among the synonyms of the alias. *)
Theorem synonyms_for_task_spec (task s : string) :
  s ∈ synonyms_for_task task ↔
  s ≠ task ∧ is_Some (_SYNONYM_TASK_MAP !! s) ∧ map_from_synonym s = map_from_synonym task.
Proof.
  unfold synonyms_for_task. cbv zeta.
  rewrite elem_of_difference, elem_of_list_to_set, elem_of_app, elem_of_singleton.
  rewrite !list_elem_of_fmap.
  split.
  - intros [[([alias canonical] & -> & Hin)|([alias canonical] & -> & Hin)] Hne];
      apply list_elem_of_filter in Hin as [Hval Hin]; cbn in Hval, Hne |- *;
      apply synonym_lookup_literal in Hin; (split; [done|]); (split; [by eexists|]).
    + rewrite (map_from_synonym_alias _ _ Hin). subst canonical.
      symmetry. by eapply map_from_synonym_canonical.
    + by rewrite (map_from_synonym_alias _ _ Hin).
  - intros (Hne & [canonical Hs] & Heq). split; [|done]. right.
    exists (s, canonical). split; [done|]. apply list_elem_of_filter. split.
    + cbn. by rewrite <- Heq, (map_from_synonym_alias _ _ Hs).
    + by apply synonym_lookup_literal.
Qed.

Lemma find_app {A} (p : A → bool) (l1 l2 : list A) :
  find p (l1 ++ l2) = match find p l1 with Some x => Some x | None => find p l2 end.
Proof. induction l1 as [|x l1 IH]; cbn; [done|]. by destruct (p x). Qed.

Lemma fold_left_insert_names (task loader : string) (names : list string)
    (m : gmap string string) :
  fold_left (fun m model_loader_name => <[model_loader_name := task]> m) names m !! loader
  = if bool_decide (loader ∈ names) then Some task else m !! loader.
Proof.
  revert m. induction names as [|name names IH]; intros m; cbn [fold_left].
  - by rewrite bool_decide_eq_false_2 by apply not_elem_of_nil.
  - rewrite IH. destruct (decide (loader ∈ names)) as [Hin|Hnin].
    + rewrite !bool_decide_eq_true_2; [done | by right | done].
    + rewrite (bool_decide_eq_false_2 _ Hnin). destruct (decide (loader = name)) as [->|Hne].
      * rewrite lookup_insert_eq. by rewrite bool_decide_eq_true_2 by left.
      * rewrite lookup_insert_ne by done.
        rewrite bool_decide_eq_false_2; [done|]. by intros [?|?]%elem_of_cons.
Qed.

(** X12. In the reversed table a loader names the task of the last entry of
    the table that lists it, alone or in a tuple; a loader that no entry
    lists is not a key. *)
Theorem get_model_loaders_to_tasks_last (table : list (string * model_loaders))
    (loader : string) :
  get_model_loaders_to_tasks table !! loader
  = fst <$> find (fun entry : string * model_loaders =>
                    bool_decide (loader ∈ loader_names entry.2)) (rev table).
Proof.
  unfold get_model_loaders_to_tasks.
  set (step := fun (model_loaders_to_tasks : gmap string string)
                   '((task, loaders) : string * model_loaders) => _).
  set (named := fun entry : string * model_loaders => _).
  assert (∀ m, fold_left step table m !! loader
               = match find named (rev table) with
                 | Some entry => Some entry.1
                 | None => m !! loader
                 end) as Hfold.
  { induction table as [|[task loaders] table IH]; intros m; [done|].
    cbn [fold_left rev]. rewrite IH, find_app.
    destruct (find named (rev table)) as [entry|]; [done|].
    cbn [find]. subst named step. cbn beta iota. cbn [snd fst].
    destruct loaders as [name|names]; cbn [loader_names].
    - destruct (decide (loader = name)) as [->|Hne].
      + rewrite lookup_insert_eq. by rewrite bool_decide_eq_true_2 by left.
      + rewrite lookup_insert_ne by done.
        rewrite bool_decide_eq_false_2; [done|].
        intros [?|?%elem_of_nil]%elem_of_cons; done.
    - rewrite fold_left_insert_names. by destruct (bool_decide (loader ∈ names)). }
  rewrite Hfold, lookup_empty. by destruct (find named (rev table)).
Qed.

End task_names.

(** ** The mappings that [supported_tasks_mapping] builds *)

Section supported_tasks_mapping_shape.

Variable env : Env.
Variable import_config_cls : string → string → result ConfigCls.

Lemma supported_tasks_loop_cons backend config_cls spec rest acc :
  supported_tasks_loop backend config_cls (spec :: rest) acc
  = if spec_for_backend backend spec
    then config_constructor ←
           make_backend_config_constructor_for_task config_cls (spec_task spec);
         supported_tasks_loop backend config_cls rest
           (<[spec_task spec := config_constructor]> acc)
    else supported_tasks_loop backend config_cls rest acc.
Proof.
  destruct spec as [task|task bs]; cbn [supported_tasks_loop spec_for_backend spec_task];
    [done|]. by destruct (PyStr.mem backend bs).
Qed.

(** The inner loop: it returns when every listed task has a constructor,
    and the dictionary holds these constructors over what it was given. *)
Lemma supported_tasks_loop_spec backend config_cls supported_tasks acc d :
  supported_tasks_loop backend config_cls supported_tasks acc = Ok d →
  ∀ task,
    if task_listed_for backend task supported_tasks
    then is_Some (constructor_of config_cls task)
         ∧ d !! task = constructor_of config_cls task
    else d !! task = acc !! task.
Proof.
  revert acc. induction supported_tasks as [|spec rest IH]; intros acc.
  - intros [= <-] task. done.
  - rewrite supported_tasks_loop_cons. unfold task_listed_for. cbn [existsb].
    fold (task_listed_for backend).
    destruct (spec_for_backend backend spec); cbn [andb orb].
    + destruct (make_backend_config_constructor_for_task config_cls (spec_task spec))
        as [c0|e] eqn:Hmake; cbn [mbind result_bind]; [|done].
      intros Hrest task. specialize (IH _ Hrest task).
      fold (task_listed_for backend task rest).
      destruct (String.eqb_spec (spec_task spec) task) as [<-|Hne]; cbn [orb].
      * destruct (task_listed_for backend (spec_task spec) rest); [done|].
        rewrite IH, lookup_insert_eq. unfold constructor_of. rewrite Hmake. by eauto.
      * destruct (task_listed_for backend task rest); [done|].
        by rewrite IH, lookup_insert_ne.
    + intros Hrest task. specialize (IH _ Hrest task).
      by fold (task_listed_for backend task rest).
Qed.

(** The inner loop raises as soon as a listed task has no constructor. *)
Lemma supported_tasks_loop_raises backend config_cls supported_tasks acc task :
  task_listed_for backend task supported_tasks = true →
  constructor_of config_cls task = None →
  ¬ is_Ok (supported_tasks_loop backend config_cls supported_tasks acc).
Proof.
  intros Hlisted Hnone Hok.
  destruct (supported_tasks_loop backend config_cls supported_tasks acc) as [d|e] eqn:Hloop;
    [|done].
  pose proof (supported_tasks_loop_spec _ _ _ _ _ Hloop task) as Hspec.
  rewrite Hlisted, Hnone in Hspec. by destruct Hspec as [[? ?] _].
Qed.

(** The outer loop, over what it was given. *)
Lemma supported_exporters_loop_spec supported_tasks exporters acc mapping :
  supported_exporters_loop env import_config_cls supported_tasks exporters acc = Ok mapping →
  (∀ backend config_cls_name,
     (backend, config_cls_name) ∈ exporters →
     ∃ available,
       is_backend_available env backend = Ok available
       ∧ (available = true →
          ∃ config_cls,
            import_config_cls backend config_cls_name = Ok config_cls
            ∧ ∀ task, task_listed_for backend task supported_tasks = true →
                      is_Some (constructor_of config_cls task)))
  ∧ ∀ backend,
      (is_backend_available env backend = Ok true → backend ∈ exporters.*1 →
       ∃ config_cls_name config_cls d,
         (backend, config_cls_name) ∈ exporters
         ∧ import_config_cls backend config_cls_name = Ok config_cls
         ∧ mapping !! backend = Some d
         ∧ ∀ task, d !! task = if task_listed_for backend task supported_tasks
                               then constructor_of config_cls task else None)
      ∧ (¬ (is_backend_available env backend = Ok true ∧ backend ∈ exporters.*1) →
         mapping !! backend = acc !! backend).
Proof.
  revert acc. induction exporters as [|[backend0 name0] rest IH]; intros acc;
    cbn [supported_exporters_loop].
  - intros [= <-]. split; [by intros ? ? ?%elem_of_nil|].
    intros backend. split; [by intros _ ?%elem_of_nil | done].
  - destruct (is_backend_available env backend0) as [[|]|e] eqn:Havailable;
      cbn [mbind result_bind]; [| |done].
    + destruct (import_config_cls backend0 name0) as [config_cls|e] eqn:Himport;
        cbn [mbind result_bind]; [|done].
      destruct (supported_tasks_loop backend0 config_cls supported_tasks ∅) as [d0|e]
        eqn:Hloop; cbn [mbind result_bind]; [|done].
      pose proof (supported_tasks_loop_spec _ _ _ _ _ Hloop) as Hd0.
      intros Hrest. destruct (IH _ Hrest) as [Hentries Hmapping]. split.
      * intros backend name [[= -> ->]|Hin]%elem_of_cons; [|by eapply Hentries].
        exists true. split; [done|]. intros _. exists config_cls. split; [done|].
        intros task Hlisted. specialize (Hd0 task). rewrite Hlisted in Hd0. tauto.
      * intros backend. destruct (Hmapping backend) as [Hfound Hkept]. split.
        -- intros Hav Hin. destruct (decide (backend ∈ rest.*1)) as [Hin'|Hnin].
           ++ destruct (Hfound Hav Hin') as (name & cls & d & ? & ? & ? & ?).
              exists name, cls, d. repeat split; [by right | done..].
           ++ rewrite fmap_cons in Hin. cbn [fst] in Hin.
              apply elem_of_cons in Hin as [->|?]; [|done].
              exists name0, config_cls, d0. repeat split; [by left | done | |].
              ** rewrite Hkept by tauto. by rewrite lookup_insert_eq.
              ** intros task. specialize (Hd0 task).
                 destruct (task_listed_for backend0 task supported_tasks); [tauto|].
                 by rewrite Hd0, lookup_empty.
        -- intros Hnot. rewrite Hkept.
           ++ apply lookup_insert_ne. intros <-. apply Hnot. split; [done|]. by left.
           ++ intros [? ?]. apply Hnot. split; [done|]. by right.
    + intros Hrest. destruct (IH _ Hrest) as [Hentries Hmapping]. split.
      * intros backend name [[= -> ->]|Hin]%elem_of_cons; [|by eapply Hentries].
        exists false. by split.
      * intros backend. destruct (Hmapping backend) as [Hfound Hkept]. split.
        -- intros Hav Hin. rewrite fmap_cons in Hin.
           apply elem_of_cons in Hin as [Heq|Hin]; [cbn in Heq; congruence|].
           destruct (Hfound Hav Hin) as (name & cls & d & ? & ? & ? & ?).
           exists name, cls, d. repeat split; [by right | done..].
        -- intros Hnot. apply Hkept. intros [? ?]. apply Hnot. split; [done|]. by right.
Qed.

(** X13. A mapping that [supported_tasks_mapping] returns has an entry for
    exactly the backends among [exporters] that are available. The entry
    of a backend holds, for each task listed for the backend and for no
    other task, the constructor that
    [make_backend_config_constructor_for_task] gives for the configuration
    class imported for the backend. *)
Theorem supported_tasks_mapping_spec (supported_tasks : list task_spec)
    (exporters : list (string * string)) (mapping : gmap string (gmap string callable))
    (backend : string) :
  supported_tasks_mapping env import_config_cls supported_tasks exporters = Ok mapping →
  match mapping !! backend with
  | Some d =>
      is_backend_available env backend = Ok true
      ∧ ∃ config_cls_name config_cls,
          (backend, config_cls_name) ∈ exporters
          ∧ import_config_cls backend config_cls_name = Ok config_cls
          ∧ ∀ task,
              d !! task
              = if task_listed_for backend task supported_tasks
                then Some (partial (Cls config_cls)
                             (if PyStr.contains "-with-past" task
                              then [("use_past", VBool true);
                                    ("task", VStr (PyStr.replace task "-with-past" ""))]
                              else [("task", VStr task)]))
                else None
  | None =>
      ∀ config_cls_name,
        (backend, config_cls_name) ∈ exporters →
        is_backend_available env backend = Ok false
  end.
Proof.
  intros Hmapping.
  destruct (supported_exporters_loop_spec _ _ _ _ Hmapping) as [Hentries Hshape].
  destruct (Hshape backend) as [Hfound Hkept].
  assert (Decision (is_backend_available env backend = Ok true)) as Hdec.
  { destruct (is_backend_available env backend) as [[|]|e];
      [by left | by right | by right]. }
  destruct Hdec as [Hav|Hnav]; [destruct (decide (backend ∈ exporters.*1)) as [Hin|Hnin]|].
  - destruct (Hfound Hav Hin) as (name & cls & d & Hentry & Himport & -> & Hd).
    split; [done|]. exists name, cls. split; [done|]. split; [done|].
    intros task. rewrite Hd.
    destruct (Hentries _ _ Hentry) as (available & Hav' & Hcls).
    destruct Hcls as (cls' & Himport' & Hlisted); [congruence|].
    assert (cls' = cls) as -> by congruence.
    destruct (task_listed_for backend task supported_tasks) eqn:Htask; [|done].
    destruct (Hlisted task Htask) as [c Hc]. rewrite Hc. revert Hc.
    unfold constructor_of, make_backend_config_constructor_for_task.
    destruct (PyStr.contains "-with-past" task); [destruct (SUPPORTS_PAST cls)|];
      cbn [negb]; congruence.
  - rewrite Hkept, lookup_empty by tauto.
    intros name Hentry. exfalso. apply Hnin.
    apply list_elem_of_fmap. by exists (backend, name).
  - rewrite Hkept, lookup_empty by tauto.
    intros name Hentry. destruct (Hentries _ _ Hentry) as ([|] & Hav & _); done.
Qed.

(** X14. [supported_tasks_mapping] returns a mapping or nothing. It returns
    only if every backend among [exporters] is ["onnx"] or ["tflite"], and
    the class of every available one can be imported and has
    [SUPPORTS_PAST] when a task with ["-with-past"] in its name is listed
    for the backend. *)
Theorem supported_tasks_mapping_all_or_nothing (supported_tasks : list task_spec)
    (exporters : list (string * string)) (backend config_cls_name : string) :
  is_Ok (supported_tasks_mapping env import_config_cls supported_tasks exporters) →
  (backend, config_cls_name) ∈ exporters →
  (backend = "onnx" ∨ backend = "tflite")
  ∧ (is_backend_available env backend = Ok true →
     ∃ config_cls,
       import_config_cls backend config_cls_name = Ok config_cls
       ∧ ∀ task,
           task_listed_for backend task supported_tasks = true →
           PyStr.contains "-with-past" task = true →
           SUPPORTS_PAST config_cls = true).
Proof.
  intros Hok Hentry. rename config_cls_name into name.
  destruct (supported_tasks_mapping env import_config_cls supported_tasks exporters)
    as [mapping|e] eqn:Hmapping; [|done].
  destruct (supported_exporters_loop_spec _ _ _ _ Hmapping) as [Hentries _].
  destruct (Hentries _ _ Hentry) as (available & Hav & Hcls). split.
  - revert Hav. unfold is_backend_available.
    destruct (String.eqb_spec backend "onnx"); [by left|].
    destruct (String.eqb_spec backend "tflite"); [by right | done].
  - intros Hav'. destruct Hcls as (cls & Himport & Hlisted); [congruence|].
    exists cls. split; [done|]. intros task Htask Hpast.
    destruct (Hlisted task Htask) as [c Hc]. revert Hc.
    unfold constructor_of, make_backend_config_constructor_for_task. rewrite Hpast.
    by destruct (SUPPORTS_PAST cls).
Qed.

End supported_tasks_mapping_shape.

Section concrete_mapping.

Import Examples.

Lemma supported_tasks_mapping_spec_witness :
  match two_tasks_mapping !! "onnx" with
  | Some d =>
      is_backend_available env_torch_onnx "onnx" = Ok true
      ∧ ∃ config_cls_name config_cls,
          ("onnx", config_cls_name) ∈ two_exporters
          ∧ import_any "onnx" config_cls_name = Ok config_cls
          ∧ ∀ task,
              d !! task
              = if task_listed_for "onnx" task two_tasks
                then Some (partial (Cls config_cls)
                             (if PyStr.contains "-with-past" task
                              then [("use_past", VBool true);
                                    ("task", VStr (PyStr.replace task "-with-past" ""))]
                              else [("task", VStr task)]))
                else None
  | None =>
      ∀ config_cls_name,
        ("onnx", config_cls_name) ∈ two_exporters →
        is_backend_available env_torch_onnx "onnx" = Ok false
  end.
Proof.
  apply (supported_tasks_mapping_spec env_torch_onnx import_any two_tasks two_exporters
           two_tasks_mapping "onnx").
  unfold two_tasks_mapping.
  assert (is_Ok (supported_tasks_mapping env_torch_onnx import_any two_tasks two_exporters))
    as Hok by (vm_compute; exact I).
  by destruct (supported_tasks_mapping env_torch_onnx import_any two_tasks two_exporters).
Defined.

Lemma supported_tasks_mapping_all_or_nothing_witness :
  ("onnx" = "onnx" ∨ "onnx" = "tflite")
  ∧ (is_backend_available env_torch_onnx "onnx" = Ok true →
     ∃ config_cls,
       import_any "onnx" "BertOnnxConfig" = Ok config_cls
       ∧ ∀ task,
           task_listed_for "onnx" task two_tasks = true →
           PyStr.contains "-with-past" task = true →
           SUPPORTS_PAST config_cls = true).
Proof.
  apply (supported_tasks_mapping_all_or_nothing env_torch_onnx import_any two_tasks
           two_exporters "onnx" "BertOnnxConfig").
  - vm_compute. exact I.
  - apply list_elem_of_In. simpl. auto.
Defined.

End concrete_mapping.

(** ** Inferring the framework and the library from the files *)

Lemma ext_ret_bind {A B} (a : A) (f : A → Ext B) : mret a ≫= f = f a.
Proof. unfold mret, Ext_ret, mbind, Ext_bind. by destruct (f a). Qed.

Section inference.

Variable env : Env.
Variable w : World.

(** X15. Without a [framework] argument [determine_framework] lists the files
    once, with no token and no revision. What it returns is ["pt"] or
    ["tf"] and is decided by the files alone: the installed frameworks only
    decide whether [EnvironmentError] is raised, after the files have given
    a framework. *)
Theorem determine_framework_inferred (names : WeightNames)
    (model_name_or_path subfolder cache_dir : string) :
  (determine_framework env w names model_name_or_path subfolder None cache_dir).1
  = [call_get_model_files model_name_or_path subfolder cache_dir None None]
  ∧ match (determine_framework env w names model_name_or_path subfolder None cache_dir).2 with
    | Ok framework =>
        (framework = "pt" ∨ framework = "tf")
        ∧ (is_torch_available env = true ∨ is_tf_available env = true)
        ∧ ∃ all_files request_exception,
            get_model_files w model_name_or_path subfolder cache_dir None None
            = Ok (all_files, request_exception)
            ∧ framework_of_files names all_files request_exception = Ok framework
    | Raise e =>
        get_model_files w model_name_or_path subfolder cache_dir None None = Raise e
        ∨ ∃ all_files request_exception,
            get_model_files w model_name_or_path subfolder cache_dir None None
            = Ok (all_files, request_exception)
            ∧ (framework_of_files names all_files request_exception = Raise e
               ∨ is_Ok (framework_of_files names all_files request_exception)
                 ∧ is_torch_available env = false ∧ is_tf_available env = false
                 ∧ e = EnvironmentError
                         "Neither PyTorch nor TensorFlow found in environment. Cannot export model.")
    end.
Proof.
  unfold determine_framework, ext_get_model_files.
  destruct (get_model_files w model_name_or_path subfolder cache_dir None None)
    as [[all_files request_exception]|e] eqn:Hfiles; cbn [mbind Ext_bind];
    [|split; [done|]; by left].
  assert (∀ framework,
            framework_of_files names all_files request_exception = Ok framework →
            framework = "pt" ∨ framework = "tf") as Hrange.
  { intros framework. unfold framework_of_files.
    repeat (match goal with |- context [if ?b then _ else _] => destruct b end;
            try (intros [= <-]; by auto)).
    by destruct request_exception. }
  destruct (framework_of_files names all_files request_exception) as [framework|e]
    eqn:Hframework; cbn [ext_lift mbind Ext_bind fst snd app].
  2: { split; [done|]. right. exists all_files, request_exception. by auto. }
  assert (∃ all_files' request_exception',
            @Ok (list string * option exn) (all_files, request_exception)
            = Ok (all_files', request_exception')
            ∧ framework_of_files names all_files' request_exception' = Ok framework)
    as Hfound
    by (exists all_files, request_exception; split; [reflexivity | exact Hframework]).
  pose proof (Hrange _ eq_refl) as Hvalue.
  assert (str_or framework "pt" = framework ∧ str_or framework "tf" = framework)
    as [Hpt Htf] by (destruct Hvalue as [-> | ->]; split; reflexivity).
  destruct (is_torch_available env); [|destruct (is_tf_available env)];
    cbn [mret Ext_ret ext_raise fst snd app]; rewrite ?Hpt, ?Htf.
  - split; [reflexivity|]. split; [exact Hvalue|]. split; [by left | exact Hfound].
  - split; [reflexivity|]. split; [exact Hvalue|]. split; [by right | exact Hfound].
  - split; [reflexivity|]. right. exists all_files, request_exception.
    split; [reflexivity|]. right. rewrite Hframework. split; [exact I | done].
Qed.

(** X16. Without a [library_name] argument, and with one of the two token
    arguments at most, [infer_library_from_model] lists the files once,
    with the token that was given and the revision, and loads the
    configuration at most once, only when the files have the configuration
    file and no marker of diffusers or sentence-transformers. A name it
    returns is a key of [_LIBRARY_TO_SUPPORTED_MODEL_TYPES]. *)
Theorem infer_library_from_model_inferred (CONFIG_NAME model_name_or_path subfolder : string)
    (revision : option string) (cache_dir : string) (use_auth_token token : option pyval) :
  use_auth_token = None ∨ token = None →
  let given := match use_auth_token with Some _ => use_auth_token | None => token end in
  let listing := call_get_model_files model_name_or_path subfolder cache_dir given revision in
  let loading := call_get_config_dict model_name_or_path subfolder revision cache_dir given in
  let outcome :=
    infer_library_from_model w CONFIG_NAME model_name_or_path subfolder revision cache_dir
      None use_auth_token token in
  (outcome.1 = [listing]
   ∨ outcome.1 = [listing; loading]
     ∧ ∃ all_files request_exception,
         get_model_files w model_name_or_path subfolder cache_dir given revision
         = Ok (all_files, request_exception)
         ∧ PyStr.mem "model_index.json" all_files = false
         ∧ PyStr.mem "config_sentence_transformers.json" all_files = false
         ∧ PyStr.mem CONFIG_NAME all_files = true)
  ∧ match outcome.2 with
    | Ok library_name => is_Some (library_of_name library_name)
    | Raise e =>
        get_model_files w model_name_or_path subfolder cache_dir given revision = Raise e
        ∨ get_config_dict w model_name_or_path subfolder revision cache_dir given = Raise e
    end.
Proof.
  intros Htokens given listing loading outcome.
  assert (∀ outcome' : Ext string,
            outcome'
            = ('(all_files, _) ←
                 ext_get_model_files w model_name_or_path subfolder cache_dir given revision;
               library_name ←
                 library_of_files w CONFIG_NAME model_name_or_path subfolder revision
                   cache_dir given all_files;
               library_guard library_name) →
            (outcome'.1 = [listing]
             ∨ outcome'.1 = [listing; loading]
               ∧ ∃ all_files request_exception,
                   get_model_files w model_name_or_path subfolder cache_dir given revision
                   = Ok (all_files, request_exception)
                   ∧ PyStr.mem "model_index.json" all_files = false
                   ∧ PyStr.mem "config_sentence_transformers.json" all_files = false
                   ∧ PyStr.mem CONFIG_NAME all_files = true)
            ∧ match outcome'.2 with
              | Ok library_name => is_Some (library_of_name library_name)
              | Raise e =>
                  get_model_files w model_name_or_path subfolder cache_dir given revision
                  = Raise e
                  ∨ get_config_dict w model_name_or_path subfolder revision cache_dir given
                    = Raise e
              end) as Hchain.
  { intros outcome' ->. unfold ext_get_model_files. fold listing.
    destruct (get_model_files w model_name_or_path subfolder cache_dir given revision)
      as [[all_files request_exception]|e] eqn:Hfiles; cbn [mbind Ext_bind];
      [|split; [by left | by left]].
    unfold library_of_files.
    destruct (PyStr.mem "model_index.json" all_files) eqn:Hindex;
      [cbn; split; [by left | by eauto]|].
    destruct (existsb _ all_files || PyStr.mem "config_sentence_transformers.json" all_files)
      eqn:Hsentence; [cbn; split; [by left | by eauto]|].
    apply orb_false_iff in Hsentence as [_ Hsentence].
    destruct (PyStr.mem CONFIG_NAME all_files) eqn:Hconfig;
      [|cbn; split; [by left | by eauto]].
    unfold ext_get_config_dict. fold loading.
    assert (∃ all_files' request_exception',
              @Ok (list string * option exn) (all_files, request_exception)
              = Ok (all_files', request_exception')
              ∧ PyStr.mem "model_index.json" all_files' = false
              ∧ PyStr.mem "config_sentence_transformers.json" all_files' = false
              ∧ PyStr.mem CONFIG_NAME all_files' = true) as Hloaded
      by (exists all_files, request_exception; split;
          [reflexivity | split; [assumption | split; assumption]]).
    destruct (get_config_dict w model_name_or_path subfolder revision cache_dir given)
      as [model_config|e] eqn:Hload; cbn [mbind Ext_bind].
    - destruct (has_pretrained_cfg model_config || has_architecture model_config);
        [|destruct (has_diffusers_version model_config)]; cbn;
        (split; [right; split; [done | exact Hloaded] | by eauto]).
    - cbn. split; [right; split; [done | exact Hloaded] | by right]. }
  apply Hchain. subst outcome given. unfold infer_library_from_model.
  destruct use_auth_token as [t|], token as [t'|].
  - by destruct Htokens.
  - by rewrite ext_ret_bind.
  - by rewrite ext_ret_bind.
  - by rewrite ext_ret_bind.
Qed.

End inference.

Section concrete_inference.

Import Examples.

Lemma infer_library_from_model_inferred_witness :
  let given := Some (VStr "hf_token") in
  let listing := call_get_model_files "org/model" "" "cache" given None in
  let loading := call_get_config_dict "org/model" "" None "cache" given in
  let outcome :=
    infer_library_from_model (world_of_files ["config.json"; "model.safetensors"])
      "config.json" "org/model" "" None "cache" None (Some (VStr "hf_token")) None in
  (outcome.1 = [listing]
   ∨ outcome.1 = [listing; loading]
     ∧ ∃ all_files request_exception,
         get_model_files (world_of_files ["config.json"; "model.safetensors"]) "org/model" ""
           "cache" given None
         = Ok (all_files, request_exception)
         ∧ PyStr.mem "model_index.json" all_files = false
         ∧ PyStr.mem "config_sentence_transformers.json" all_files = false
         ∧ PyStr.mem "config.json" all_files = true)
  ∧ match outcome.2 with
    | Ok library_name => is_Some (library_of_name library_name)
    | Raise e =>
        get_model_files (world_of_files ["config.json"; "model.safetensors"]) "org/model" ""
          "cache" given None = Raise e
        ∨ get_config_dict (world_of_files ["config.json"; "model.safetensors"]) "org/model" ""
            None "cache" given = Raise e
    end.
Proof.
  apply (infer_library_from_model_inferred
           (world_of_files ["config.json"; "model.safetensors"]) "config.json" "org/model" ""
           None "cache" (Some (VStr "hf_token")) None).
  right. reflexivity.
Defined.

End concrete_inference.

(** ** Listing the files: the Hub, the cache and the sub-folder *)

Section listing.

Variable src : Files.Sources.

(** The exception is returned with the files only when they come from the
    cache. *)
Lemma get_model_files_request_exception model_name_or_path subfolder cache_dir token
    revision all_files e :
  Files.get_model_files src model_name_or_path subfolder cache_dir None token revision
  = Ok (all_files, Some e) →
  Files.is_dir src [model_name_or_path; subfolder] = false
  ∧ Files.list_repo_files src model_name_or_path token revision = Raise e
  ∧ Files.is_connection_error e = true
  ∧ Files.is_dir src (cache_path cache_dir model_name_or_path) = true.
Proof.
  unfold Files.get_model_files, cache_path. cbn [mbind result_bind].
  destruct (Files.is_dir src [model_name_or_path; subfolder]); [done|].
  destruct (Files.list_repo_files src model_name_or_path token revision) as [listed|e'];
    [done|].
  destruct (Files.is_connection_error e') eqn:Hconnection; [|done].
  destruct (Files.is_dir src _); [|done]. intros [= _ <-]. done.
Qed.

(** An exception of the classes that the [except] clause names does not
    leave [get_model_files]. *)
Lemma get_model_files_raises model_name_or_path subfolder cache_dir use_auth_token token
    revision e :
  Files.get_model_files src model_name_or_path subfolder cache_dir use_auth_token token revision
  = Raise e →
  Files.is_connection_error e = false.
Proof.
  unfold Files.get_model_files.
  destruct use_auth_token as [t|], token as [t'|]; cbn [mbind result_bind];
    try (by intros [= <-]);
    (destruct (Files.is_dir src [model_name_or_path; subfolder]); [done|]);
    (destruct (Files.list_repo_files src model_name_or_path _ revision) as [listed|e'];
       [done|]);
    (destruct (Files.is_connection_error e') eqn:Hconnection; [|by intros [= <-]]);
    (destruct (Files.is_dir src _); [done|]); by intros [= <-].
Qed.

Variable env : Env.
Variable get_config_dict :
  string → string → option string → string → option pyval → result ConfigAttributes.

(** X17. [determine_framework] raises [RequestsConnectionError] only for a
    model that is not a local directory, that the Hub could not list and
    whose directory in the cache exists: the text ends with the text of the
    exception of the Hub. *)
Theorem determine_framework_connection_error (names : WeightNames)
    (model_name_or_path subfolder cache_dir msg : string) :
  (determine_framework env (world_of_sources src get_config_dict) names model_name_or_path
     subfolder None cache_dir).2 = Raise (RequestsConnectionError msg) →
  Files.is_dir src [model_name_or_path; subfolder] = false
  ∧ Files.is_dir src (cache_path cache_dir model_name_or_path) = true
  ∧ ∃ e,
      Files.list_repo_files src model_name_or_path None None = Raise e
      ∧ Files.is_connection_error e = true
      ∧ msg = "The framework could not be automatically inferred. If using the command-line, please provide the argument --framework (pt,tf) Detailed error: "
              ++ exn_message e.
Proof.
  unfold determine_framework, ext_get_model_files, world_of_sources.
  cbn [get_model_files].
  destruct (Files.get_model_files src model_name_or_path subfolder cache_dir None None None)
    as [[all_files request_exception]|e] eqn:Hfiles; cbn [mbind Ext_bind snd].
  2: { intros [= ->]. by apply get_model_files_raises in Hfiles. }
  destruct (framework_of_files names all_files request_exception) as [framework|e]
    eqn:Hframework; cbn [ext_lift mbind Ext_bind snd].
  - by destruct (is_torch_available env), (is_tf_available env).
  - intros [= ->]. revert Hframework. unfold framework_of_files.
    repeat (match goal with |- context [if ?b then _ else _] => destruct b end; [done|]).
    destruct request_exception as [e|]; [|done]. intros [= <-].
    apply get_model_files_request_exception in Hfiles as (? & ? & ? & ?). by eauto 6.
Qed.

(** X18. A model that is neither a local directory nor in the cache, when the
    Hub cannot be reached: the exception of the Hub is caught, and the
    [return] reads [all_files], which no branch has bound. Both callers
    raise the [NameError] of [get_model_files], after their one listing. *)
Theorem get_model_files_offline_uncached (names : WeightNames)
    (CONFIG_NAME model_name_or_path subfolder cache_dir : string)
    (revision : option string) (token : option pyval) (e : exn) :
  Files.is_dir src [model_name_or_path; subfolder] = false →
  (∀ token revision, Files.list_repo_files src model_name_or_path token revision = Raise e) →
  Files.is_connection_error e = true →
  Files.is_dir src (cache_path cache_dir model_name_or_path) = false →
  determine_framework env (world_of_sources src get_config_dict) names model_name_or_path
    subfolder None cache_dir
  = ([call_get_model_files model_name_or_path subfolder cache_dir None None],
     Raise (Files.unbound_local "all_files"))
  ∧ infer_library_from_model (world_of_sources src get_config_dict) CONFIG_NAME
      model_name_or_path subfolder revision cache_dir None None token
    = ([call_get_model_files model_name_or_path subfolder cache_dir token revision],
       Raise (Files.unbound_local "all_files")).
Proof.
  intros Hlocal Hhub Hconnection Hcache.
  assert (∀ token revision,
            Files.get_model_files src model_name_or_path subfolder cache_dir None token
              revision = Raise (Files.unbound_local "all_files")) as Hfiles.
  { intros token' revision'. unfold Files.get_model_files. cbn [mbind result_bind].
    unfold cache_path in Hcache. by rewrite Hlocal, Hhub, Hconnection, Hcache. }
  split.
  - unfold determine_framework, ext_get_model_files, world_of_sources.
    cbn [get_model_files]. by rewrite Hfiles.
  - unfold infer_library_from_model. rewrite ext_ret_bind.
    unfold ext_get_model_files, world_of_sources. cbn [get_model_files].
    by rewrite Hfiles.
Qed.

Lemma prefix_app (p s : string) : String.prefix p (p ++ s) = true.
Proof.
  induction p as [|c p IH]; simpl.
  - by destruct s.
  - destruct (ascii_dec c c); [exact IH | done].
Qed.

Lemma prefix_split (p s : string) : String.prefix p s = true → ∃ rest, s = p ++ rest.
Proof.
  revert s. induction p as [|c p IH]; intros s.
  - intros _. by exists s.
  - destruct s as [|c' s]; simpl; [done|]. destruct (ascii_dec c c') as [<-|]; [|done].
    intros [rest ->]%IH. by exists rest.
Qed.

Lemma substring_all (s : string) : String.substring 0 (String.length s) s = s.
Proof. induction s as [|c s IH]; cbn; [done|]. by rewrite IH. Qed.

Lemma slice_from_app (p rest : string) :
  Files.slice_from (String.length p + 1) (p ++ rest) = Files.slice_from 1 rest.
Proof.
  unfold Files.slice_from. induction p as [|c p IH]; simpl.
  - done.
  - exact IH.
Qed.

Lemma slice_from_cons (c : ascii) (rest : string) : Files.slice_from 1 (String c rest) = rest.
Proof.
  unfold Files.slice_from. cbn [String.length String.substring Nat.sub].
  rewrite Nat.sub_0_r. apply substring_all.
Qed.

(** X19. With a sub-folder, the files of a repository of the Hub are those whose
    path starts with the name of the sub-folder, without that name and the
    character after it. The character is not looked at: a file of a folder
    whose name only starts with the name of the sub-folder is returned as
    well, cut at the same place. *)
Theorem get_model_files_subfolder (model_name_or_path subfolder cache_dir : string)
    (token : option pyval) (revision : option string) (listed : list string) :
  Files.is_dir src [model_name_or_path; subfolder] = false →
  Files.list_repo_files src model_name_or_path token revision = Ok listed →
  subfolder ≠ "" →
  ∃ all_files,
    Files.get_model_files src model_name_or_path subfolder cache_dir None token revision
    = Ok (all_files, None)
    ∧ (∀ c rest, subfolder ++ String c rest ∈ listed → rest ∈ all_files)
    ∧ (∀ file, file ∈ all_files →
               ∃ rest, subfolder ++ rest ∈ listed ∧ file = Files.slice_from 1 rest).
Proof.
  intros Hlocal Hhub Hsub. unfold Files.get_model_files. cbn [mbind result_bind].
  rewrite Hlocal, Hhub.
  destruct (String.eqb_spec subfolder "") as [|_]; [done|]. cbn [negb].
  eexists. split; [done|]. split.
  - intros c rest Hin. apply list_elem_of_fmap. exists (subfolder ++ String c rest). split.
    + by rewrite slice_from_app, slice_from_cons.
    + apply list_elem_of_In, filter_In. split; [by apply list_elem_of_In|].
      apply prefix_app.
  - intros file (listed_file & -> & Hin)%list_elem_of_fmap.
    apply list_elem_of_In, filter_In in Hin as [Hin Hprefix].
    apply prefix_split in Hprefix as [rest ->]. exists rest. split.
    + by apply list_elem_of_In.
    + apply slice_from_app.
Qed.

End listing.

Section concrete_listing.

Import Examples.

Lemma determine_framework_connection_error_witness :
  Files.is_dir (offline_sources true) ["org/model"; ""] = false
  ∧ Files.is_dir (offline_sources true) (cache_path "cache" "org/model") = true
  ∧ ∃ e,
      Files.list_repo_files (offline_sources true) "org/model" None None = Raise e
      ∧ Files.is_connection_error e = true
      ∧ "The framework could not be automatically inferred. If using the command-line, please provide the argument --framework (pt,tf) Detailed error: offline"
        = "The framework could not be automatically inferred. If using the command-line, please provide the argument --framework (pt,tf) Detailed error: "
          ++ exn_message e.
Proof.
  apply (determine_framework_connection_error (offline_sources true) env_torch_onnx
           no_config_dict transformers_utils "org/model" "" "cache").
  vm_compute. reflexivity.
Defined.

Lemma get_model_files_offline_uncached_witness :
  determine_framework env_torch_onnx (world_of_sources (offline_sources false) no_config_dict)
    transformers_utils "org/model" "" None "cache"
  = ([call_get_model_files "org/model" "" "cache" None None],
     Raise (Files.unbound_local "all_files"))
  ∧ infer_library_from_model (world_of_sources (offline_sources false) no_config_dict)
      "config.json" "org/model" "" None "cache" None None None
    = ([call_get_model_files "org/model" "" "cache" None None],
       Raise (Files.unbound_local "all_files")).
Proof.
  apply (get_model_files_offline_uncached (offline_sources false) env_torch_onnx
           no_config_dict transformers_utils "config.json" "org/model" "" "cache" None None
           (OfflineModeIsEnabled "offline")).
  - reflexivity.
  - intros token revision. reflexivity.
  - reflexivity.
  - reflexivity.
Defined.

Lemma get_model_files_subfolder_witness :
  ∃ all_files,
    Files.get_model_files
      (hub_sources ["unet/config.json"; "unet2/config.json"; "vae/config.json"])
      "org/model" "unet" "cache" None None None
    = Ok (all_files, None)
    ∧ (∀ c rest,
         "unet" ++ String c rest
         ∈ ["unet/config.json"; "unet2/config.json"; "vae/config.json"] →
         rest ∈ all_files)
    ∧ (∀ file, file ∈ all_files →
               ∃ rest,
                 "unet" ++ rest ∈ ["unet/config.json"; "unet2/config.json"; "vae/config.json"]
                 ∧ file = Files.slice_from 1 rest).
Proof.
  apply (get_model_files_subfolder
           (hub_sources ["unet/config.json"; "unet2/config.json"; "vae/config.json"])
           "org/model" "unet" "cache" None None).
  - reflexivity.
  - reflexivity.
  - discriminate.
Defined.

End concrete_listing.

(** ** Model classes for tasks *)

Section model_classes.

Variable env : Env.
Variable mods : Modules.

Lemma validate_framework_installed framework :
  is_Ok (_validate_framework_choice env framework) ↔ framework_installed env framework = true.
Proof.
  unfold _validate_framework_choice, framework_installed, PyStr.mem. cbn [existsb].
  destruct (String.eqb_spec framework "pt") as [->|_].
  - destruct (is_torch_available env), (is_tf_available env); cbn; intuition done.
  - destruct (String.eqb framework "tf"), (is_torch_available env), (is_tf_available env);
      cbn; intuition done.
Qed.

(** X20. A class is returned only for one of the two frameworks, and only when
    it is installed. For any other [framework] the call raises the
    [ValueError] or the [RuntimeError] of [_validate_framework_choice],
    whatever the other arguments and the modules are. *)
Theorem get_model_class_for_task_framework (task framework : string)
    (model_type model_class_name : option string) (library : string) :
  match get_model_class_for_task env mods task framework model_type model_class_name library
  with
  | Return _ => framework_installed env framework = true
  | Throw e =>
      framework_installed env framework = true
      ∨ ∃ e',
          e = Exn e'
          ∧ _validate_framework_choice env framework = Raise e'
          ∧ ∃ msg, e' = ValueError msg ∨ e' = RuntimeError msg
  end.
Proof.
  unfold get_model_class_for_task.
  pose proof (validate_framework_installed framework) as Hvalid.
  destruct (_validate_framework_choice env framework) as [[]|e'] eqn:Hvalidate.
  - assert (framework_installed env framework = true) as Hinstalled by by apply Hvalid.
    cbn [of_result mbind outcome_bind].
    match goal with |- match ?r with _ => _ end => destruct r end; [done | by left].
  - cbn [of_result mbind outcome_bind]. right. exists e'. split; [done|]. split; [done|].
    revert Hvalidate. unfold _validate_framework_choice.
    repeat (match goal with |- context [if ?b then _ else _] => destruct b end;
            try (intros [= <-]; by eauto)).
Qed.

Lemma dict_get_elem_of {V} (d : list (string * V)) key v :
  dict_get d key = Some v → (key, v) ∈ d.
Proof.
  unfold dict_get. destruct (find _ d) as [[k v']|] eqn:Hfind; [|done].
  intros [= <-]. apply find_some in Hfind as [Hin Hkey].
  apply String.eqb_eq in Hkey. cbn in Hkey. subst k. by apply list_elem_of_In.
Qed.

Lemma loader_tables_closed framework library table :
  dict_get (loader_tables env framework) library = Some table →
  table_closed library table = true.
Proof.
  intros Hin%dict_get_elem_of. revert Hin. unfold loader_tables,
    _LIBRARY_TO_TASKS_TO_MODEL_LOADER_MAP, _LIBRARY_TO_TF_TASKS_TO_MODEL_LOADER_MAP.
  destruct (String.eqb framework "pt");
    [destruct (is_torch_available env) | destruct (is_tf_available env)];
    rewrite ?elem_of_cons, ?elem_of_nil; intros Hin;
    repeat (destruct Hin as [[= -> ->]|Hin]; [by vm_compute|]); done.
Qed.

(** X21. A task that is a key of the loader table of the library is never an
    unknown task: its lookup name, without ["-with-past"] and with its
    synonym resolved, is a key of the same table. Without a model type and
    a class name, the class is the attribute of the library named by the
    loader of the lookup name, the first of them for a tuple. *)
Theorem get_model_class_for_task_known_task (task framework library : string)
    (table : list (string * model_loaders)) (loaders : model_loaders) :
  framework_installed env framework = true →
  dict_get (loader_tables env framework) library = Some table →
  dict_get table task = Some loaders →
  import_module mods library = Return tt →
  ∃ loaders' name,
    dict_get table (lookup_task task) = Some loaders'
    ∧ head (loader_names loaders') = Some name
    ∧ get_model_class_for_task env mods task framework None None library
      = module_getattr mods library name.
Proof.
  intros Hinstalled Htable Htask Himport.
  pose proof (loader_tables_closed _ _ _ Htable) as Hclosed.
  unfold table_closed in Hclosed. rewrite forallb_forall in Hclosed.
  apply dict_get_elem_of, list_elem_of_In in Htask. specialize (Hclosed _ Htask).
  cbn [fst] in Hclosed.
  apply validate_framework_installed in Hinstalled.
  unfold get_model_class_for_task. fold (lookup_task task). fold (loader_tables env framework).
  destruct (_validate_framework_choice env framework) as [[]|?]; [|done].
  cbn [of_result mbind outcome_bind custom_class]. rewrite Htable.
  cbn [mbind outcome_bind]. rewrite Himport. cbn [mbind outcome_bind].
  destruct (dict_get table (lookup_task task)) as [[name|[|name names]]|]; try done.
  - exists (Loader name), name. by cbn.
  - exists (LoaderTuple (name :: names)), name. rewrite Hclosed. by cbn.
Qed.

End model_classes.

Section concrete_model_classes.

Import Examples.

Lemma get_model_class_for_task_known_task_witness :
  ∃ loaders' name,
    dict_get TRANSFORMERS_TASKS_TO_MODEL_LOADERS_literal (lookup_task "mask-generation")
    = Some loaders'
    ∧ head (loader_names loaders') = Some name
    ∧ get_model_class_for_task env_torch_onnx all_modules "mask-generation" "pt" None None
        "transformers"
      = module_getattr all_modules "transformers" name.
Proof.
  apply (get_model_class_for_task_known_task env_torch_onnx all_modules "mask-generation" "pt"
           "transformers" TRANSFORMERS_TASKS_TO_MODEL_LOADERS_literal (Loader "AutoModel")).
  - reflexivity.
  - reflexivity.
  - reflexivity.
  - reflexivity.
Defined.

End concrete_model_classes.

(** ** The task inferred from a repository *)

Section inferred_task.

Variable env : Env.
Variable hub : Hub.
Variable w : World.
Variables (CONFIG_NAME HUGGINGFACE_HUB_CACHE : string).

Lemma map_from_synonym_not_key (task : string) :
  _SYNONYM_TASK_MAP !! map_from_synonym task = None.
Proof.
  unfold map_from_synonym.
  destruct (_SYNONYM_TASK_MAP !! task) as [canonical|] eqn:Htask; [|done].
  by eapply synonym_value_not_key.
Qed.

Lemma loader_tables_first_canonical library table :
  dict_get (_LIBRARY_TO_TASKS_TO_MODEL_LOADER_MAP env) library = Some table
  ∨ dict_get (_LIBRARY_TO_TF_TASKS_TO_MODEL_LOADER_MAP env) library = Some table →
  table_first_canonical table = true.
Proof.
  unfold _LIBRARY_TO_TASKS_TO_MODEL_LOADER_MAP, _LIBRARY_TO_TF_TASKS_TO_MODEL_LOADER_MAP.
  intros [Hin%dict_get_elem_of|Hin%dict_get_elem_of]; revert Hin;
    [destruct (is_torch_available env) | destruct (is_tf_available env)];
    rewrite ?elem_of_cons, ?elem_of_nil; intros Hin;
    repeat (destruct Hin as [[= -> ->]|Hin]; [by vm_compute|]); done.
Qed.

Lemma task_of_auto_model_canonical table name task :
  table_first_canonical table = true →
  task_of_auto_model table name = Some task →
  _SYNONYM_TASK_MAP !! task = None.
Proof.
  unfold table_first_canonical. rewrite forallb_forall. intros Hall Hfound.
  pose proof Hfound as Hitem. unfold task_of_auto_model in Hitem.
  destruct (find _ table) as [[task' loaders]|] eqn:Hfind; [|done].
  injection Hitem as ->. apply find_some in Hfind as [Hin Hname]. cbn [snd] in Hname.
  destruct loaders as [name'|names]; [|done]. apply String.eqb_eq in Hname as ->.
  specialize (Hall _ Hin). cbn [snd] in Hall. rewrite Hfound in Hall.
  by apply bool_decide_eq_true in Hall.
Qed.

Lemma task_of_model_info_canonical info library_name task :
  task_of_model_info env info library_name = Return task →
  _SYNONYM_TASK_MAP !! task = None.
Proof.
  unfold task_of_model_info. cbv zeta.
  destruct (match pipeline_tag info with Some _ => _ | None => _ end) as [tag|].
  { intros [= <-]. apply map_from_synonym_not_key. }
  destruct (transformersInfo info ≫= ti_pipeline_tag) as [tag|].
  { intros [= <-]. apply map_from_synonym_not_key. }
  assert (∀ table prefix auto_model,
            table_first_canonical table = true →
            match task_of_auto_model table
                    (if negb (PyStr.startswith auto_model "TF")
                     then prefix ++ auto_model else auto_model) with
            | Some inferred_task_name => Return inferred_task_name
            | None =>
                Throw (Exn (KeyError
                  ("Could not find the proper task name for "
                   ++ (if negb (PyStr.startswith auto_model "TF")
                       then prefix ++ auto_model else auto_model) ++ ".")))
            end = Return task →
            _SYNONYM_TASK_MAP !! task = None) as Hloop.
  { intros table prefix auto_model Hcanonical.
    destruct (task_of_auto_model table _) as [inferred|] eqn:Hfound; [|done].
    intros [= <-]. by eapply task_of_auto_model_canonical. }
  destruct (is_torch_available env).
  - destruct (dict_get (_LIBRARY_TO_TASKS_TO_MODEL_LOADER_MAP env) library_name) as [table|]
      eqn:Htable; cbn [mbind outcome_bind]; [|done].
    destruct (transformersInfo info) as [[tag [auto_model|]]|]; cbn [mbind outcome_bind];
      [|done|done].
    cbn [ti_auto_model]. apply Hloop. eapply loader_tables_first_canonical. by left.
  - destruct (dict_get (_LIBRARY_TO_TF_TASKS_TO_MODEL_LOADER_MAP env) library_name)
      as [table|] eqn:Htable; cbn [mbind outcome_bind]; [|done].
    destruct (transformersInfo info) as [[tag [auto_model|]]|]; cbn [mbind outcome_bind];
      [|done|done].
    cbn [ti_auto_model]. apply Hloop. eapply loader_tables_first_canonical. by right.
Qed.

(** X22. A task is inferred only for a repository of the Hub: the name is not a
    local directory, there is no sub-folder and the Hub has answered. The
    task is a canonical name, never a key of the synonym map, whether it
    comes from the library, from a pipeline tag or from the loader tables. *)
Theorem infer_task_from_model_name_or_path_returns (model_name_or_path subfolder : string)
    (revision : option string) (task : string) :
  (_infer_task_from_model_name_or_path env hub w CONFIG_NAME HUGGINGFACE_HUB_CACHE
     model_name_or_path subfolder revision).2 = Return task →
  isdir_join hub model_name_or_path subfolder = false
  ∧ subfolder = ""
  ∧ is_Some (match model_info hub model_name_or_path revision with
             | Return info => Some info
             | Throw _ => None
             end)
  ∧ _SYNONYM_TASK_MAP !! task = None
  ∧ map_from_synonym task = task.
Proof.
  unfold _infer_task_from_model_name_or_path. cbv zeta.
  destruct (isdir_join hub model_name_or_path subfolder); [done|].
  destruct (String.eqb_spec subfolder "") as [->|]; [|done]. cbn [negb].
  destruct (model_info hub model_name_or_path revision) as [info|e].
  2: { by destruct (match e with Exn e' => _ | _ => _ end). }
  destruct (infer_library_from_model _ _ _ _ _ _ _ _ _) as [calls [library_name|e]];
    [|done].
  cbn [snd]. intros Htask.
  assert (_SYNONYM_TASK_MAP !! task = None) as Hcanonical.
  { revert Htask. destruct (String.eqb library_name "diffusers").
    - destruct (config_diffusers info) as [[class_name _class_name]|e];
        cbn [mbind outcome_bind]; [|done].
      destruct (truthy class_name); [|destruct (truthy _class_name)];
        cbn [mbind outcome_bind]; [| |done];
        (intros [= <-]; by destruct (PyStr.contains _ _)).
    - destruct (String.eqb library_name "timm"); [by intros [= <-]|].
      apply task_of_model_info_canonical. }
  split; [done|]. split; [done|]. split; [by eexists|]. split; [done|].
  unfold map_from_synonym. by rewrite Hcanonical.
Qed.

End inferred_task.

(** ** The task inferred from a model class *)

Section model_class_task.

Variable mods : Modules.

Lemma dict_get_setitem {V} (d : list (string * V)) key value k :
  dict_get (dict_setitem d key value) k
  = if String.eqb key k then Some value else dict_get d k.
Proof.
  unfold dict_setitem, dict_get.
  destruct (existsb _ d) eqn:Hexists.
  - induction d as [|[k0 v0] d IH]; [done|]. cbn [existsb fst] in Hexists.
    cbn [map find fst]. destruct (String.eqb_spec k0 key) as [->|Hne0]; cbn [fst].
    + destruct (String.eqb_spec key k) as [->|Hne]; [done|].
      clear IH Hexists. induction d as [|[k1 v1] d IH]; [done|]. cbn [map find fst].
      destruct (String.eqb_spec k1 key) as [->|Hne1]; cbn [fst].
      * destruct (String.eqb_spec key k); [done | exact IH].
      * destruct (String.eqb k1 k); [done | exact IH].
    + cbn [orb] in Hexists. specialize (IH Hexists).
      destruct (String.eqb_spec k0 k) as [->|Hne].
      * destruct (String.eqb_spec key k) as [->|]; done.
      * exact IH.
  - rewrite find_app.
    assert (∀ k', find (fun item : string * V => String.eqb item.1 k') d = None
                  ∨ k' ≠ key) as Hfresh.
    { intros k'. destruct (decide (k' = key)) as [->|]; [left | by right].
      clear -Hexists. induction d as [|[k0 v0] d IH]; [done|].
      cbn [existsb find fst] in *. apply orb_false_iff in Hexists as [-> ?]. by apply IH. }
    destruct (String.eqb_spec key k) as [->|Hne].
    + destruct (Hfresh k) as [->|]; [|done]. cbn [find fst]. by rewrite String.eqb_refl.
    + destruct (find _ d); [done|]. cbn [find fst].
      by destruct (String.eqb_spec key k).
Qed.

(** The items and the dictionary of the reversed table agree. *)
Lemma model_loaders_to_tasks_items_lookup table name :
  dict_get (model_loaders_to_tasks_items table) name
  = get_model_loaders_to_tasks table !! name.
Proof.
  unfold model_loaders_to_tasks_items, get_model_loaders_to_tasks.
  assert (∀ (d : list (string * string)) (m : gmap string string),
            (∀ k, dict_get d k = m !! k) →
            ∀ key value k, dict_get (dict_setitem d key value) k = <[key := value]> m !! k)
    as Hset.
  { intros d m Hdm key value k. rewrite dict_get_setitem.
    destruct (String.eqb_spec key k) as [->|Hne].
    - by rewrite lookup_insert_eq.
    - by rewrite lookup_insert_ne. }
  assert (∀ task names (d : list (string * string)) (m : gmap string string),
            (∀ k, dict_get d k = m !! k) →
            ∀ k, dict_get (fold_left (fun d n => dict_setitem d n task) names d) k
                 = fold_left (fun m n => <[n := task]> m) names m !! k) as Hnames.
  { intros task names. induction names as [|n names IH]; intros d m Hdm; [done|].
    cbn [fold_left]. apply IH. by apply Hset. }
  assert (∀ (d : list (string * string)) (m : gmap string string),
            (∀ k, dict_get d k = m !! k) →
            dict_get
              (fold_left
                 (fun d '(task, loaders) =>
                    match loaders with
                    | Loader name => dict_setitem d name task
                    | LoaderTuple names =>
                        fold_left (fun d n => dict_setitem d n task) names d
                    end) table d) name
            = fold_left
                (fun m '(task, loaders) =>
                   match loaders with
                   | Loader name => <[name := task]> m
                   | LoaderTuple names => fold_left (fun m n => <[n := task]> m) names m
                   end) table m !! name) as Hfold.
  { induction table as [|[task [n|names]] table IH]; intros d m Hdm; cbn [fold_left].
    - apply Hdm.
    - apply IH. by apply Hset.
    - apply IH. by apply Hnames. }
  apply Hfold. intros k. by rewrite lookup_empty.
Qed.

(** For a name like the one of an auto class the loop compares names and
    reads no module. *)
Lemma infer_task_loop_named target_name items :
  named_like_auto_class target_name = true →
  infer_task_loop mods target_name items = Return (dict_get items target_name).
Proof.
  intros Hnamed. unfold dict_get.
  induction items as [|[auto_cls_name task] items IH]; cbn [infer_task_loop find fst];
    [done|].
  rewrite Hnamed, (String.eqb_sym auto_cls_name).
  by destruct (String.eqb target_name auto_cls_name).
Qed.

Lemma dict_get_app {V} (d1 d2 : list (string * V)) key :
  dict_get (d1 ++ d2) key
  = match dict_get d1 key with Some v => Some v | None => dict_get d2 key end.
Proof. unfold dict_get. rewrite find_app. by destruct (find _ d1). Qed.

Lemma dict_get_reversed_items tables name :
  dict_get (concat (map snd (reversed_items tables))) name = reverse_lookup tables name.
Proof.
  unfold reverse_lookup, reversed_items.
  induction tables as [|[library table] tables IH]; [done|].
  cbn [map snd concat]. rewrite dict_get_app, model_loaders_to_tasks_items_lookup, IH.
  cbn [omap list_omap].
  by destruct (get_model_loaders_to_tasks table !! name).
Qed.

Lemma reverse_lookup_app tables1 tables2 name :
  reverse_lookup (tables1 ++ tables2) name
  = match reverse_lookup tables1 name with
    | Some task => Some task
    | None => reverse_lookup tables2 name
    end.
Proof.
  unfold reverse_lookup. rewrite omap_app.
  by destruct (omap _ tables1).
Qed.

(** X23. For a class whose name starts with ["Auto"] or ["TFAuto"] or contains
    ["StableDiffusion"], the task is the one the reversed tables give for
    the name, in the first library that has it, and the call raises
    [ValueError] when none has it. No attribute of the two auto modules is
    read. *)
Theorem infer_task_from_auto_class (tables tables_tf : list (string * list (string * model_loaders)))
    (target_name : string) :
  named_like_auto_class target_name = true →
  import_module mods pt_auto_module = Return tt →
  import_module mods tf_auto_module = Return tt →
  _infer_task_from_model_or_model_class mods (reversed_items tables) (reversed_items tables_tf)
    None (Some target_name)
  = match reverse_lookup (tables ++ tables_tf) target_name with
    | Some task => Return task
    | None =>
        Throw (Exn (ValueError ("Could not infer the task name for " ++ target_name ++ ".")))
    end.
Proof.
  intros Hnamed Hpt Htf. unfold _infer_task_from_model_or_model_class.
  cbn [default from_option id]. rewrite Hpt. cbn [mbind outcome_bind].
  rewrite Htf. cbn [mbind outcome_bind].
  rewrite (infer_task_loop_named _ _ Hnamed). cbn [mbind outcome_bind].
  by rewrite dict_get_app, !dict_get_reversed_items, reverse_lookup_app.
Qed.

Lemma dict_setitem_elem_of {V} (d : list (string * V)) key value k v :
  (k, v) ∈ dict_setitem d key value → (k, v) ∈ d ∨ (k = key ∧ v = value).
Proof.
  unfold dict_setitem. destruct (existsb _ d).
  - intros ([k0 v0] & Heq & Hin)%list_elem_of_fmap. cbn [fst] in Heq.
    destruct (String.eqb k0 key); injection Heq as -> ->; by auto.
  - intros [?|[= -> ->]%list_elem_of_singleton]%elem_of_app; by auto.
Qed.

(** An item of the reversed table comes from an entry of the table. *)
Lemma model_loaders_to_tasks_items_elem_of table name task :
  (name, task) ∈ model_loaders_to_tasks_items table →
  ∃ loaders, (task, loaders) ∈ table ∧ name ∈ loader_names loaders.
Proof.
  unfold model_loaders_to_tasks_items.
  assert (∀ task0 names (d : list (string * string)),
            (name, task) ∈ fold_left (fun d n => dict_setitem d n task0) names d →
            (name, task) ∈ d ∨ (task = task0 ∧ name ∈ names)) as Hnames.
  { intros task0 names. induction names as [|n names IH]; intros d; cbn [fold_left];
      [by left|].
    intros [[Hin|[-> ->]]%dict_setitem_elem_of|[-> Hin]]%IH.
    - by left.
    - right. split; [done | by left].
    - right. split; [done | by right]. }
  assert (∀ d : list (string * string),
            (name, task)
            ∈ fold_left
                (fun d '(task, loaders) =>
                   match loaders with
                   | Loader name => dict_setitem d name task
                   | LoaderTuple names =>
                       fold_left (fun d n => dict_setitem d n task) names d
                   end) table d →
            (name, task) ∈ d
            ∨ ∃ loaders, (task, loaders) ∈ table ∧ name ∈ loader_names loaders) as Hfold.
  { induction table as [|[task0 [n|names]] table IH]; intros d; cbn [fold_left];
      [by left| |].
    - intros [[Hin|[-> ->]]%dict_setitem_elem_of|(loaders & Hin & Hname)]%IH.
      + by left.
      + right. exists (Loader n). split; [by left|]. by left.
      + right. exists loaders. split; [by right | done].
    - intros [[Hin|[-> Hin]]%Hnames|(loaders & Hin & Hname)]%IH.
      + by left.
      + right. exists (LoaderTuple names). split; [by left | done].
      + right. exists loaders. split; [by right | done]. }
  intros [Hin%elem_of_nil|Hin]%Hfold; done.
Qed.

Lemma reversed_items_elem_of tables name task :
  (name, task) ∈ concat (map snd (reversed_items tables)) →
  ∃ library table loaders,
    (library, table) ∈ tables ∧ (task, loaders) ∈ table ∧ name ∈ loader_names loaders.
Proof.
  unfold reversed_items. induction tables as [|[library table] tables IH];
    cbn [map snd concat]; [by intros ?%elem_of_nil|].
  intros [(loaders & ? & ?)%model_loaders_to_tasks_items_elem_of
         |(library' & table' & loaders & ? & ? & ?)%IH]%elem_of_app.
  - exists library, table, loaders. split; [by left | done].
  - exists library', table', loaders. split; [by right | done].
Qed.

Lemma infer_task_loop_returns target_name items task :
  infer_task_loop mods target_name items = Return (Some task) →
  ∃ auto_cls_name,
    (auto_cls_name, task) ∈ items
    ∧ if named_like_auto_class target_name then auto_cls_name = target_name
      else ∃ auto_cls model_mapping,
             module_getattr mods
               (if PyStr.startswith auto_cls_name "TF" then tf_auto_module
                else pt_auto_module) auto_cls_name = Return auto_cls
             ∧ model_mapping_values mods auto_cls = Return model_mapping
             ∧ PyStr.mem target_name model_mapping = true.
Proof.
  induction items as [|[auto_cls_name task0] items IH]; cbn [infer_task_loop]; [done|].
  assert (infer_task_loop mods target_name items = Return (Some task) →
          ∃ auto_cls_name0,
            (auto_cls_name0, task) ∈ (auto_cls_name, task0) :: items
            ∧ if named_like_auto_class target_name then auto_cls_name0 = target_name
              else ∃ auto_cls model_mapping,
                     module_getattr mods
                       (if PyStr.startswith auto_cls_name0 "TF" then tf_auto_module
                        else pt_auto_module) auto_cls_name0 = Return auto_cls
                     ∧ model_mapping_values mods auto_cls = Return model_mapping
                     ∧ PyStr.mem target_name model_mapping = true) as Hrest.
  { intros (name & Hin & Hname)%IH. exists name. split; [by right | done]. }
  destruct (named_like_auto_class target_name) eqn:Hnamed.
  - destruct (String.eqb_spec target_name auto_cls_name) as [->|]; [|done].
    intros [= ->]. exists auto_cls_name. split; [by left | done].
  - unfold getattr_or_none.
    destruct (module_getattr mods _ auto_cls_name) as [auto_cls|e] eqn:Hgetattr;
      cbn [mbind outcome_bind].
    + destruct (model_mapping_values mods auto_cls) as [model_mapping|e] eqn:Hvalues;
        cbn [mbind outcome_bind]; [|done].
      destruct (PyStr.mem target_name model_mapping) eqn:Hmem; [|done].
      intros [= ->]. exists auto_cls_name. split; [by left|]. by eauto.
    + destruct e; cbn [mbind outcome_bind]; done.
Qed.

(** X24. A task inferred from a model or a model class is the task of an entry
    of a loader table, of PyTorch or of TensorFlow, that lists the auto
    class which matched: the class of that name for a name like the one of
    an auto class, and otherwise an attribute of the auto module whose
    model mapping has the name of the class among its values. *)
Theorem infer_task_from_model_or_model_class_returns
    (tables tables_tf : list (string * list (string * model_loaders)))
    (model model_class : option string) (task : string) :
  _infer_task_from_model_or_model_class mods (reversed_items tables) (reversed_items tables_tf)
    model model_class = Return task →
  ∃ target_name library table loaders auto_cls_name,
    (model = Some target_name ∧ model_class = None
     ∨ model = None ∧ model_class = Some target_name)
    ∧ (library, table) ∈ (tables ++ tables_tf)%list
    ∧ (task, loaders) ∈ table
    ∧ auto_cls_name ∈ loader_names loaders
    ∧ if named_like_auto_class target_name then auto_cls_name = target_name
      else ∃ auto_cls model_mapping,
             module_getattr mods
               (if PyStr.startswith auto_cls_name "TF" then tf_auto_module
                else pt_auto_module) auto_cls_name = Return auto_cls
             ∧ model_mapping_values mods auto_cls = Return model_mapping
             ∧ PyStr.mem target_name model_mapping = true.
Proof.
  unfold _infer_task_from_model_or_model_class.
  set (iterable := (concat (map snd (reversed_items tables))
                    ++ concat (map snd (reversed_items tables_tf)))%list).
  assert (∀ target_name,
            (_ ← import_module mods pt_auto_module;
             _ ← import_module mods tf_auto_module;
             task_name ← infer_task_loop mods target_name iterable;
             match task_name with
             | None =>
                 Throw (Exn (ValueError
                   ("Could not infer the task name for " ++ target_name ++ ".")))
             | Some task_name => Return task_name
             end) = Return task →
            ∃ library table loaders auto_cls_name,
              (library, table) ∈ (tables ++ tables_tf)%list
              ∧ (task, loaders) ∈ table
              ∧ auto_cls_name ∈ loader_names loaders
              ∧ if named_like_auto_class target_name then auto_cls_name = target_name
                else ∃ auto_cls model_mapping,
                       module_getattr mods
                         (if PyStr.startswith auto_cls_name "TF" then tf_auto_module
                          else pt_auto_module) auto_cls_name = Return auto_cls
                       ∧ model_mapping_values mods auto_cls = Return model_mapping
                       ∧ PyStr.mem target_name model_mapping = true) as Hbody.
  { intros target_name.
    destruct (import_module mods pt_auto_module) as [[]|?]; cbn [mbind outcome_bind]; [|done].
    destruct (import_module mods tf_auto_module) as [[]|?]; cbn [mbind outcome_bind]; [|done].
    destruct (infer_task_loop mods target_name iterable) as [[task'|]|?] eqn:Hloop;
      cbn [mbind outcome_bind]; [|done|done].
    intros [= ->]. apply infer_task_loop_returns in Hloop as (name & Hin & Hname).
    subst iterable.
    apply elem_of_app in Hin
      as [(library & table & loaders & ? & ? & ?)%reversed_items_elem_of
         |(library & table & loaders & ? & ? & ?)%reversed_items_elem_of];
      exists library, table, loaders, name; (split; [|done]); apply elem_of_app; by auto. }
  destruct model as [class_name|], model_class as [class_name'|]; [done| | |done].
  - intros (library & table & loaders & name & ?)%Hbody.
    exists class_name, library, table, loaders, name. split; [by left | done].
  - cbn [default from_option id].
    intros (library & table & loaders & name & ?)%Hbody.
    exists class_name', library, table, loaders, name. split; [by right | done].
Qed.

End model_class_task.

Section concrete_task_inference.

Import Examples.

Lemma infer_task_from_model_name_or_path_returns_witness :
  isdir_join (hub_with_tag "sentence-similarity") "org/model" "" = false
  ∧ "" = ""
  ∧ is_Some (match model_info (hub_with_tag "sentence-similarity") "org/model" None with
             | Return info => Some info
             | Throw _ => None
             end)
  ∧ _SYNONYM_TASK_MAP !! "feature-extraction" = None
  ∧ map_from_synonym "feature-extraction" = "feature-extraction".
Proof.
  apply (infer_task_from_model_name_or_path_returns env_torch_onnx
           (hub_with_tag "sentence-similarity") (world_of_files ["model.safetensors"])
           "config.json" "cache" "org/model" "" None "feature-extraction").
  vm_compute. reflexivity.
Defined.

Lemma infer_task_from_auto_class_witness :
  _infer_task_from_model_or_model_class all_modules
    (reversed_items (_LIBRARY_TO_TASKS_TO_MODEL_LOADER_MAP env_torch_onnx))
    (reversed_items (_LIBRARY_TO_TF_TASKS_TO_MODEL_LOADER_MAP env_torch_onnx))
    None (Some "AutoModel")
  = match reverse_lookup
            (_LIBRARY_TO_TASKS_TO_MODEL_LOADER_MAP env_torch_onnx
             ++ _LIBRARY_TO_TF_TASKS_TO_MODEL_LOADER_MAP env_torch_onnx) "AutoModel" with
    | Some task => Return task
    | None => Throw (Exn (ValueError ("Could not infer the task name for " ++ "AutoModel" ++ ".")))
    end.
Proof.
  apply (infer_task_from_auto_class all_modules
           (_LIBRARY_TO_TASKS_TO_MODEL_LOADER_MAP env_torch_onnx)
           (_LIBRARY_TO_TF_TASKS_TO_MODEL_LOADER_MAP env_torch_onnx) "AutoModel").
  - reflexivity.
  - reflexivity.
  - reflexivity.
Defined.

Lemma infer_task_from_model_or_model_class_returns_witness :
  ∃ target_name library table loaders auto_cls_name,
    (@None string = Some target_name ∧ Some "AutoModel" = @None string
     ∨ @None string = None ∧ Some "AutoModel" = Some target_name)
    ∧ (library, table)
      ∈ (_LIBRARY_TO_TASKS_TO_MODEL_LOADER_MAP env_torch_onnx
         ++ _LIBRARY_TO_TF_TASKS_TO_MODEL_LOADER_MAP env_torch_onnx)%list
    ∧ (("mask-generation" : string), loaders) ∈ table
    ∧ auto_cls_name ∈ loader_names loaders
    ∧ if named_like_auto_class target_name then auto_cls_name = target_name
      else ∃ auto_cls model_mapping,
             module_getattr all_modules
               (if PyStr.startswith auto_cls_name "TF" then tf_auto_module
                else pt_auto_module) auto_cls_name = Return auto_cls
             ∧ model_mapping_values all_modules auto_cls = Return model_mapping
             ∧ PyStr.mem target_name model_mapping = true.
Proof.
  apply (infer_task_from_model_or_model_class_returns all_modules
           (_LIBRARY_TO_TASKS_TO_MODEL_LOADER_MAP env_torch_onnx)
           (_LIBRARY_TO_TF_TASKS_TO_MODEL_LOADER_MAP env_torch_onnx)
           None (Some "AutoModel") "mask-generation").
  vm_compute. reflexivity.
Defined.

(** The two ways of inferring a task from the auto class [AutoModel]: the
    reversed table gives the last task that lists it, the loop over the
    table the first. *)
Example infer_task_auto_model_example :
  _infer_task_from_model_or_model_class all_modules
    (reversed_items (_LIBRARY_TO_TASKS_TO_MODEL_LOADER_MAP env_torch_onnx))
    (reversed_items (_LIBRARY_TO_TF_TASKS_TO_MODEL_LOADER_MAP env_torch_onnx))
    None (Some "AutoModel") = Return "mask-generation"
  ∧ task_of_auto_model TRANSFORMERS_TASKS_TO_MODEL_LOADERS_literal "AutoModel"
    = Some "feature-extraction".
Proof. apply conj; vm_compute; reflexivity. Qed.

End concrete_task_inference.
